(** * Fleet reconciliation engine and OpenStack runner manager

    A shallow embedding of
    - [github_runner_manager/manager/runner_manager.py] (module [RunnerManager]);
    - [openstack_cloud/openstack_runner_manager.py] (module
      [OpenstackRunnerManager]).

    Python code that talks to the outside world (the coordination service,
    the cloud provider, remote shells, the process pool) is embedded in a
    state-and-exception monad that records every external call together
    with the answer it got.  The collaborators themselves are interfaces:
    every theorem holds for all of their implementations. *)

From Stdlib Require Import List String Ascii Bool Arith ZArith Lia Permutation.
Import ListNotations.
Local Open Scope string_scope.
Local Open Scope list_scope.

Set Implicit Arguments.

(** ** Exceptions *)

(** The exception classes the two modules raise or catch.  An exception
    value is identified with its class: messages are not modelled. *)
Inductive exn : Type :=
| Exception
| RunnerError
| RunnerCreateError
| RunnerStartError
| GithubMetricsError
| SshError
| OpenstackError
| GithubRunnerRemoveError
| GetMetricsStorageError
| _PullFileError
| TimeoutError
| NoValidConnectionsError
| SSHException
| OSError
| ValueError
| StopIteration
| RuntimeError
| OtherException.

Definition exn_eqb (a b : exn) : bool :=
  match a, b with
  | Exception, Exception
  | RunnerError, RunnerError
  | RunnerCreateError, RunnerCreateError
  | RunnerStartError, RunnerStartError
  | GithubMetricsError, GithubMetricsError
  | SshError, SshError
  | OpenstackError, OpenstackError
  | GithubRunnerRemoveError, GithubRunnerRemoveError
  | GetMetricsStorageError, GetMetricsStorageError
  | _PullFileError, _PullFileError
  | TimeoutError, TimeoutError
  | NoValidConnectionsError, NoValidConnectionsError
  | SSHException, SSHException
  | OSError, OSError
  | ValueError, ValueError
  | StopIteration, StopIteration
  | RuntimeError, RuntimeError
  | OtherException, OtherException => true
  | _, _ => false
  end.

(** Modelled from the spec: [errors.py] is not under src/.  The creation
    errors (provider rejected the launch, startup probe exhausted) are the
    runner errors; every class derives from [Exception], and
    [TimeoutError] and paramiko's [NoValidConnectionsError] are [OSError]s
    as in Python. *)
Definition issubclass (e cls : exn) : bool :=
  exn_eqb e cls ||
  match cls, e with
  | Exception, _ => true
  | RunnerError, (RunnerCreateError | RunnerStartError) => true
  | OSError, (TimeoutError | NoValidConnectionsError) => true
  | _, _ => false
  end.

(** ** Results and the call-recording monad *)

Inductive result (A : Type) : Type :=
| Ok (a : A)
| Raise (e : exn).
Arguments Ok {A} a.
Arguments Raise {A} e.

Definition is_ok {A} (r : result A) : bool :=
  match r with Ok _ => true | Raise _ => false end.

Section Monad.
(** [S] is the state of the outside world, [Ev] the type of recorded
    calls. *)
Variables S Ev : Type.

Record execution (A : Type) : Type := Run {
  outcome : result A;
  final : S;
  trace : list Ev
}.

Definition M (A : Type) : Type := S -> execution A.

Definition ret {A} (a : A) : M A :=
  fun s => Run (Ok a) s [].

Definition raise {A} (e : exn) : M A :=
  fun s => Run (Raise e) s [].

(** What [r] did, coming after the calls [tr]. *)
Definition after {A} (tr : list Ev) (r : execution A) : execution A :=
  Run (outcome r) (final r) (tr ++ trace r).

Definition bind {A B} (m : M A) (k : A -> M B) : M B :=
  fun s =>
    let r := m s in
    match outcome r with
    | Ok a => after (trace r) (k a (final r))
    | Raise e => Run (Raise e) (final r) (trace r)
    end.

(** The [except] clauses of a [try]: each names the classes it catches
    and gets the exception caught; the first clause that matches runs,
    and an exception no clause matches propagates. *)
Definition clauses (A : Type) : Type := list (list exn * (exn -> M A)).

Fixpoint select {A} (h : clauses A) (e : exn) : option (M A) :=
  match h with
  | [] => None
  | (classes, body) :: h' =>
      if existsb (issubclass e) classes then Some (body e) else select h' e
  end.

Definition try_except {A} (m : M A) (h : clauses A) : M A :=
  fun s =>
    let r := m s in
    match outcome r with
    | Ok a => r
    | Raise e =>
        match select h e with
        | Some k => after (trace r) (k (final r))
        | None => r
        end
    end.

(** One call to a collaborator: the world answers and moves on, the call
    is recorded with its answer. *)
Definition call {A} (record : result A -> Ev) (op : S -> result A * S) : M A :=
  fun s =>
    let (r, s') := op s in
    Run r s' [record r].

(** Something the code does that has no answer (a log record). *)
Definition emit (ev : Ev) : M unit :=
  fun s => Run (Ok tt) s [ev].

Definition when (b : bool) (m : M unit) : M unit :=
  if b then m else ret tt.

(** [quiet p m]: whatever the world answers, [m] makes only calls that
    satisfy [p]; [quiet_clauses p h]: so do the bodies of the [except]
    clauses [h]. *)
Definition quiet {A} (p : Ev -> bool) (m : M A) : Prop :=
  forall s, forallb p (trace (m s)) = true.

Definition quiet_clauses {A} (p : Ev -> bool) (h : clauses A) : Prop :=
  Forall (fun c => forall e, quiet p (snd c e)) h.
End Monad.

Arguments ret {S Ev A} a.
Arguments raise {S Ev A} e.
Arguments after {S Ev A} tr r.
Arguments bind {S Ev A B} m k.
Arguments select {S Ev A} h e.
Arguments try_except {S Ev A} m h.
Arguments call {S Ev A} record op.
Arguments emit {S Ev} ev.
Arguments when {S Ev} b m.
Arguments quiet {S Ev A} p m.
Arguments quiet_clauses {S Ev A} p h.

Declare Scope py_scope.
Delimit Scope py_scope with py.
Notation "x <- m ;; k" := (bind m (fun x => k))
  (at level 61, m at next level, right associativity) : py_scope.
Notation "m ;;; k" := (bind m (fun _ => k))
  (at level 61, right associativity) : py_scope.

(** ** Python dictionaries

    A [dict] keeps its keys in insertion order; assigning to a key that is
    already there replaces the value and keeps the key's place. *)
Section Dict.
Variables K V : Type.
Variable eqb : K -> K -> bool.

Definition dict : Type := list (K * V).

Fixpoint dict_get (k : K) (d : dict) : option V :=
  match d with
  | [] => None
  | (k', v) :: d' => if eqb k k' then Some v else dict_get k d'
  end.

Fixpoint dict_set (k : K) (v : V) (d : dict) : dict :=
  match d with
  | [] => [(k, v)]
  | (k', v') :: d' =>
      if eqb k k' then (k', v) :: d' else (k', v') :: dict_set k v d'
  end.

(** [{key(x): value(x) for x in xs}] *)
Definition dict_of (kvs : list (K * V)) : dict :=
  fold_left (fun d kv => dict_set (fst kv) (snd kv) d) kvs [].

Definition dict_keys (d : dict) : list K := map fst d.

Definition dict_mem (k : K) (d : dict) : bool :=
  match dict_get k d with Some _ => true | None => false end.
End Dict.

Arguments dict_get {K V} eqb k d.
Arguments dict_set {K V} eqb k v d.
Arguments dict_of {K V} eqb kvs.
Arguments dict_keys {K V} d.
Arguments dict_mem {K V} eqb k d.

(** [xs[:num]] for a Python integer [num]: a negative [num] counts from
    the end of the list. *)
Definition slice_to {A} (xs : list A) (num : Z) : list A :=
  if (0 <=? num)%Z then firstn (Z.to_nat num) xs
  else firstn (List.length xs - Z.to_nat (- num)) xs.

(** ** Data model *)

(** Modelled from the spec: [manager/models.py] is not under src/.  An
    [InstanceID] is an opaque identifier compared by value; it has a derived
    name and carries the reactive flag. *)
Module InstanceID.
Record t : Type := Build { name : string; reactive : bool }.

Definition eqb (a b : t) : bool :=
  String.eqb (name a) (name b) && Bool.eqb (reactive a) (reactive b).
End InstanceID.

(** Modelled from the spec: [manager/cloud_runner_manager.py] is not under
    src/; the provider-reported lifecycle and the liveness verdict. *)
Inductive CloudRunnerState : Type := CREATED | ACTIVE | DELETED | ERROR | STOPPED.

(** Modelled from the spec: [HealthState] of
    [manager/cloud_runner_manager.py], the derived liveness verdict. *)
Inductive HealthState : Type := HEALTHY | UNHEALTHY.

Definition CloudRunnerState_eqb (a b : CloudRunnerState) : bool :=
  match a, b with
  | CREATED, CREATED | ACTIVE, ACTIVE | DELETED, DELETED
  | ERROR, ERROR | STOPPED, STOPPED => true
  | _, _ => false
  end.

Definition HealthState_eqb (a b : HealthState) : bool :=
  match a, b with
  | HEALTHY, HEALTHY | UNHEALTHY, UNHEALTHY => true
  | _, _ => false
  end.

(** Modelled from the spec: [manager/github_runner_manager.py] is not under
    src/; the state of a registration on the coordination service. *)
Inductive GitHubRunnerState : Type := BUSY | IDLE | OFFLINE.

Definition GitHubRunnerState_eqb (a b : GitHubRunnerState) : bool :=
  match a, b with
  | BUSY, BUSY | IDLE, IDLE | OFFLINE, OFFLINE => true
  | _, _ => false
  end.

(** Modelled from the spec: [GitHubRunnerState.from_runner] is not under
    src/; the state is derived from the reported status plus the busy
    flag. *)
Definition from_runner (online busy : bool) : GitHubRunnerState :=
  if online then (if busy then BUSY else IDLE) else OFFLINE.

(** Modelled from the spec: [CloudRunnerInstance] of
    [manager/cloud_runner_manager.py], with the attributes
    [RunnerInstance.__init__] reads. *)
Module CloudRunnerInstance.
Record t : Type := Build {
  name : string;
  instance_id : InstanceID.t;
  health : HealthState;
  state : CloudRunnerState
}.
End CloudRunnerInstance.

(** Modelled from the spec: [types_/github.py] is not under src/; a
    registration record [{instance_id, online|offline, busy}]. *)
Module SelfHostedRunner.
Record t : Type := Build {
  instance_id : InstanceID.t;
  online : bool;
  busy : bool
}.
End SelfHostedRunner.

(** Modelled from the spec: the metrics modules ([metrics/runner.py],
    [metrics/github.py], [metrics/events.py]) are not under src/.  Their
    payloads are opaque here and an event kind is named by its class. *)
Inductive PreJobMetrics : Type := pre_job_metrics (payload : string).
Inductive GithubJobMetrics : Type := github_job_metrics (payload : string).
Definition EventType : Type := string.

(** Modelled from the spec: [RunnerMetrics] of [metrics/runner.py], with
    the attributes [_issue_runner_metrics] reads; absent pre-job data is
    [None]. *)
Module RunnerMetrics.
Record t : Type := Build {
  instance_id : InstanceID.t;
  pre_job : option PreJobMetrics
}.
End RunnerMetrics.

(** [dict[Type[metric_events.Event], int]] *)
Definition IssuedMetricEventsStats : Type := dict EventType Z.

(** Log records at warning level and above, with the format string of the
    source and the argument that matters; [logger.info] and [logger.debug]
    records are not modelled. *)
Inductive LogRecord : Type :=
| warning (message : string) (names : list string)
| exception (message : string) (e : exn).

(** ** runner_manager.py *)

Module RunnerManager.

Inductive FlushMode : Type := FLUSH_IDLE | FLUSH_BUSY.

Definition FlushMode_eqb (a b : FlushMode) : bool :=
  match a, b with
  | FLUSH_IDLE, FLUSH_IDLE | FLUSH_BUSY, FLUSH_BUSY => true
  | _, _ => false
  end.

Module RunnerInstance.
Record t : Type := Build {
  name : string;
  instance_id : InstanceID.t;
  health : HealthState;
  github_state : option GitHubRunnerState;
  cloud_state : CloudRunnerState
}.
End RunnerInstance.

Module _CreateRunnerArgs.
(** The two managers every descriptor carries are the engine's own
    collaborators. *)
Record t : Type := Build {
  labels : list string;
  reactive : bool
}.
End _CreateRunnerArgs.

(** Every call the engine makes to a collaborator, with its arguments and
    the answer, and every log record it writes. *)
Inductive Event : Type :=
| github_get_runners (states : option (list GitHubRunnerState))
    (r : result (list SelfHostedRunner.t))
| github_get_removal_token (r : result string)
| github_delete_runners (runners : list SelfHostedRunner.t) (r : result unit)
| github_get_registration_jittoken (instance_id : InstanceID.t)
    (labels : list string) (r : result (string * SelfHostedRunner.t))
| cloud_get_runners (states : option (list CloudRunnerState))
    (r : result (list CloudRunnerInstance.t))
| cloud_create_runner (instance_id : InstanceID.t) (registration_jittoken : string)
    (r : result unit)
| cloud_delete_runner (instance_id : InstanceID.t) (remove_token : string)
    (r : result (option RunnerMetrics.t))
| cloud_flush_runners (remove_token : string) (busy : bool)
    (r : result (list RunnerMetrics.t))
| cloud_cleanup (remove_token : string) (r : result (list RunnerMetrics.t))
| InstanceID_build (prefix : string) (reactive : bool) (r : result InstanceID.t)
| pool_imap_unordered (processes : nat) (jobs : list _CreateRunnerArgs.t)
    (r : result (list (result InstanceID.t)))
| github_metrics_job (pre_job : PreJobMetrics) (runner_name : string)
    (r : result GithubJobMetrics)
| runner_metrics_issue_events (runner_metrics : RunnerMetrics.t)
    (job_metrics : option GithubJobMetrics) (flavor : string)
    (r : result (list EventType))
| log (record : LogRecord).

(** The coordination-service client ([GitHubRunnerManager], not under
    src/): the four operations the engine consumes. *)
Class GitHubRunnerManager (S : Type) : Type := {
  gh_get_runners :
    option (list GitHubRunnerState) -> S -> result (list SelfHostedRunner.t) * S;
  gh_get_removal_token : S -> result string * S;
  gh_delete_runners : list SelfHostedRunner.t -> S -> result unit * S;
  gh_get_registration_jittoken :
    InstanceID.t -> list string -> S -> result (string * SelfHostedRunner.t) * S
}.

(** The abstract base class [CloudRunnerManager] (not under src/). *)
Class CloudRunnerManager (S : Type) : Type := {
  name_prefix : string;
  cl_get_runners :
    option (list CloudRunnerState) -> S -> result (list CloudRunnerInstance.t) * S;
  cl_create_runner : InstanceID.t -> string -> S -> result unit * S;
  cl_delete_runner : InstanceID.t -> string -> S -> result (option RunnerMetrics.t) * S;
  cl_flush_runners : string -> bool -> S -> result (list RunnerMetrics.t) * S;
  cl_cleanup : string -> S -> result (list RunnerMetrics.t) * S
}.

(** What else the engine relies on: minting an [InstanceID], the process
    pool (whose [imap_unordered] hands back one outcome per job in
    completion order), the metrics modules and the constant
    [constants.GITHUB_DEFAULT_LABELS]. *)
Class Platform (S : Type) : Type := {
  GITHUB_DEFAULT_LABELS : list string;
  build : string -> bool -> S -> result InstanceID.t * S;
  imap_unordered :
    nat -> list _CreateRunnerArgs.t -> S -> result (list (result InstanceID.t)) * S;
  job : PreJobMetrics -> string -> S -> result GithubJobMetrics * S;
  issue_events :
    RunnerMetrics.t -> option GithubJobMetrics -> string -> S -> result (list EventType) * S
}.

(** [self]: the attributes the constructor stores besides the two
    managers. *)
Record t : Type := Build {
  manager_name : string;
  _labels : list string
}.


Definition RunnerInstance__init__ (cloud_instance : CloudRunnerInstance.t)
    (github_info : option SelfHostedRunner.t) : RunnerInstance.t :=
  RunnerInstance.Build
    (CloudRunnerInstance.name cloud_instance)
    (CloudRunnerInstance.instance_id cloud_instance)
    (CloudRunnerInstance.health cloud_instance)
    (match github_info with
     | Some info =>
         Some (from_runner (SelfHostedRunner.online info) (SelfHostedRunner.busy info))
     | None => None
     end)
    (CloudRunnerInstance.state cloud_instance).

(** [{info.instance_id.name: info for info in github_infos}] *)
Definition github_infos_map_of (github_infos : list SelfHostedRunner.t)
  : dict string SelfHostedRunner.t :=
  dict_of String.eqb
    (map (fun info => (InstanceID.name (SelfHostedRunner.instance_id info), info))
       github_infos).

(** [{info.name: info for info in cloud_infos}] *)
Definition cloud_infos_map_of (cloud_infos : list CloudRunnerInstance.t)
  : dict string CloudRunnerInstance.t :=
  dict_of String.eqb (map (fun info => (CloudRunnerInstance.name info, info)) cloud_infos).

(** Sets of names are lists without repetition, in the order of the keys
    they are taken from. *)
Definition names_in (names ks : list string) : list string :=
  filter (fun k => existsb (String.eqb k) ks) names.

Definition names_minus (names ks : list string) : list string :=
  filter (fun k => negb (existsb (String.eqb k) ks)) names.

Definition nonempty {A} (xs : list A) : bool :=
  match xs with [] => false | _ :: _ => true end.

(** The list comprehension over [cloud_infos_map.keys()]. *)
Definition runner_instances_of (cloud_infos_map : dict string CloudRunnerInstance.t)
    (github_infos_map : dict string SelfHostedRunner.t) : list RunnerInstance.t :=
  map (fun entry : string * CloudRunnerInstance.t =>
         RunnerInstance__init__ (snd entry)
           (if dict_mem String.eqb (fst entry) github_infos_map
            then dict_get String.eqb (fst entry) github_infos_map
            else None))
    cloud_infos_map.

Definition filter_cloud_states (cloud_states : option (list CloudRunnerState))
    (runner_instances : list RunnerInstance.t) : list RunnerInstance.t :=
  match cloud_states with
  | Some states =>
      filter (fun runner =>
                existsb (CloudRunnerState_eqb (RunnerInstance.cloud_state runner)) states)
        runner_instances
  | None => runner_instances
  end.

Definition filter_github_states (github_states : option (list GitHubRunnerState))
    (runner_instances : list RunnerInstance.t) : list RunnerInstance.t :=
  match github_states with
  | Some states =>
      filter (fun runner =>
                match RunnerInstance.github_state runner with
                | Some state => existsb (GitHubRunnerState_eqb state) states
                | None => false
                end)
        runner_instances
  | None => runner_instances
  end.

Definition cloud_only_message : string :=
  "Found runner instance on cloud but not registered on GitHub: %s".
Definition github_only_message : string :=
  "Found self-hosted runner on GitHub but no matching runner instance on cloud: %s".
Definition spawn_failed_message : string := "Failed to spawn a runner.".
Definition job_metrics_failed_message : string := "Failed to calculate job metrics for %s".

(** The body of the loop of [_cleanup_github_offline_runners], with its
    two [continue]s; [github_runners_to_delete] is the list built so
    far. *)
Fixpoint offline_runners_loop (cloud_instances_map : dict InstanceID.t RunnerInstance.t)
    (github_runners_offline github_runners_to_delete : list SelfHostedRunner.t)
  : list SelfHostedRunner.t :=
  match github_runners_offline with
  | [] => github_runners_to_delete
  | github_runner :: rest =>
      let instance_id := SelfHostedRunner.instance_id github_runner in
      if negb (InstanceID.reactive instance_id) then
        offline_runners_loop cloud_instances_map rest
          (github_runners_to_delete ++ [github_runner])
      else if negb (dict_mem InstanceID.eqb instance_id cloud_instances_map) then
        offline_runners_loop cloud_instances_map rest github_runners_to_delete
      else
        match dict_get InstanceID.eqb instance_id cloud_instances_map with
        | Some cloud_runner =>
            if CloudRunnerState_eqb (RunnerInstance.cloud_state cloud_runner) CREATED
               || (CloudRunnerState_eqb (RunnerInstance.cloud_state cloud_runner) ACTIVE
                   && HealthState_eqb (RunnerInstance.health cloud_runner) HEALTHY)
            then offline_runners_loop cloud_instances_map rest github_runners_to_delete
            else offline_runners_loop cloud_instances_map rest
                   (github_runners_to_delete ++ [github_runner])
        | None => offline_runners_loop cloud_instances_map rest github_runners_to_delete
        end
  end.

(** [total_stats[event_type] = total_stats.get(event_type, 0) + 1] for
    every issued event type. *)
Definition tally (issued_events : list EventType) (total_stats : IssuedMetricEventsStats)
  : IssuedMetricEventsStats :=
  fold_left
    (fun stats event_type =>
       dict_set String.eqb event_type
         (match dict_get String.eqb event_type stats with
          | Some n => n
          | None => 0%Z
          end + 1)%Z
         stats)
    issued_events total_stats.

Section Engine.
Context {S : Type} {github : GitHubRunnerManager S} {cloud : CloudRunnerManager S}
        {platform : Platform S}.
Variable self : t.

Local Open Scope py_scope.
Local Abbreviation M := (M S Event).

Definition get_runners (github_states : option (list GitHubRunnerState))
    (cloud_states : option (list CloudRunnerState)) : M (list RunnerInstance.t) :=
  github_infos <- call (github_get_runners github_states) (gh_get_runners github_states) ;;
  cloud_infos <- call (cloud_get_runners cloud_states) (cl_get_runners cloud_states) ;;
  let github_infos_map := github_infos_map_of github_infos in
  let cloud_infos_map := cloud_infos_map_of cloud_infos in
  let runner_names := names_in (dict_keys cloud_infos_map) (dict_keys github_infos_map) in
  let cloud_only := names_minus (dict_keys cloud_infos_map) runner_names in
  let github_only := names_minus (dict_keys github_infos_map) runner_names in
  when (nonempty cloud_only) (emit (log (warning cloud_only_message cloud_only))) ;;;
  when (nonempty github_only) (emit (log (warning github_only_message github_only))) ;;;
  let runner_instances := runner_instances_of cloud_infos_map github_infos_map in
  let runner_instances := filter_cloud_states cloud_states runner_instances in
  let runner_instances := filter_github_states github_states runner_instances in
  ret runner_instances.

Fixpoint _issue_runner_metrics_loop (metrics : list RunnerMetrics.t)
    (total_stats : IssuedMetricEventsStats) : M IssuedMetricEventsStats :=
  match metrics with
  | [] => ret total_stats
  | extracted_metrics :: rest =>
      job_metrics <-
        match RunnerMetrics.pre_job extracted_metrics with
        | Some pre_job =>
            let runner_name :=
              InstanceID.name (RunnerMetrics.instance_id extracted_metrics) in
            try_except
              (job_metrics <-
                 call (github_metrics_job pre_job runner_name) (job pre_job runner_name) ;;
               ret (Some job_metrics))
              [([GithubMetricsError],
                fun e => emit (log (exception job_metrics_failed_message e)) ;;; ret None)]
        | None => ret None
        end ;;
      issued_events <-
        call (runner_metrics_issue_events extracted_metrics job_metrics (manager_name self))
          (issue_events extracted_metrics job_metrics (manager_name self)) ;;
      _issue_runner_metrics_loop rest (tally issued_events total_stats)
  end.

Definition _issue_runner_metrics (metrics : list RunnerMetrics.t)
  : M IssuedMetricEventsStats :=
  _issue_runner_metrics_loop metrics [].

Fixpoint _delete_runners_loop (runners : list RunnerInstance.t) (remove_token : string)
    (runner_metrics_list : list RunnerMetrics.t) : M (list RunnerMetrics.t) :=
  match runners with
  | [] => ret runner_metrics_list
  | runner :: rest =>
      deleted_runner_metrics <-
        call (cloud_delete_runner (RunnerInstance.instance_id runner) remove_token)
          (cl_delete_runner (RunnerInstance.instance_id runner) remove_token) ;;
      match deleted_runner_metrics with
      | Some metrics =>
          _delete_runners_loop rest remove_token (runner_metrics_list ++ [metrics])
      | None => _delete_runners_loop rest remove_token runner_metrics_list
      end
  end.

Definition _delete_runners (runners : list RunnerInstance.t) (remove_token : string)
  : M IssuedMetricEventsStats :=
  runner_metrics_list <- _delete_runners_loop runners remove_token [] ;;
  _issue_runner_metrics runner_metrics_list.

Definition delete_runners (num : Z) : M IssuedMetricEventsStats :=
  runners <- get_runners None None ;;
  let runners_list := slice_to runners num in
  remove_token <- call github_get_removal_token gh_get_removal_token ;;
  _delete_runners runners_list remove_token.

Definition flush_runners (flush_mode : FlushMode) : M IssuedMetricEventsStats :=
  let busy := if FlushMode_eqb flush_mode FLUSH_BUSY then true else false in
  remove_token <- call github_get_removal_token gh_get_removal_token ;;
  stats <- call (cloud_flush_runners remove_token busy) (cl_flush_runners remove_token busy) ;;
  _issue_runner_metrics stats.

Definition _cleanup_github_offline_runners : M unit :=
  cloud_instances <- get_runners None None ;;
  let cloud_instances_map :=
    dict_of InstanceID.eqb
      (map (fun cloud_instance => (RunnerInstance.instance_id cloud_instance, cloud_instance))
         cloud_instances) in
  github_runners_offline <-
    call (github_get_runners (Some [OFFLINE])) (gh_get_runners (Some [OFFLINE])) ;;
  let github_runners_to_delete :=
    offline_runners_loop cloud_instances_map github_runners_offline [] in
  call (github_delete_runners github_runners_to_delete)
    (gh_delete_runners github_runners_to_delete).

Definition cleanup : M IssuedMetricEventsStats :=
  _cleanup_github_offline_runners ;;;
  remove_token <- call github_get_removal_token gh_get_removal_token ;;
  deleted_runner_metrics <- call (cloud_cleanup remove_token) (cl_cleanup remove_token) ;;
  _issue_runner_metrics deleted_runner_metrics.

Definition _create_runner (args : _CreateRunnerArgs.t) : M InstanceID.t :=
  instance_id <-
    call (InstanceID_build name_prefix (_CreateRunnerArgs.reactive args))
      (build name_prefix (_CreateRunnerArgs.reactive args)) ;;
  registration <-
    call (github_get_registration_jittoken instance_id (_CreateRunnerArgs.labels args))
      (gh_get_registration_jittoken instance_id (_CreateRunnerArgs.labels args)) ;;
  let registration_jittoken := fst registration in
  let github_runner := snd registration in
  try_except
    (call (cloud_create_runner instance_id registration_jittoken)
       (cl_create_runner instance_id registration_jittoken))
    [([RunnerError],
      fun e =>
        call (github_delete_runners [github_runner]) (gh_delete_runners [github_runner]) ;;;
        raise e)] ;;;
  ret instance_id.

(** The loop over [next(jobs)]: [jobs] holds what the iterator has yet
    to hand back, a job that failed raising its exception there. *)
Fixpoint collect_jobs (n : nat) (jobs : list (result InstanceID.t))
    (instance_id_list : list InstanceID.t) : M (list InstanceID.t) :=
  match n with
  | O => ret instance_id_list
  | Datatypes.S n' =>
      match jobs with
      | [] => ret instance_id_list
      | Ok instance_id :: rest => collect_jobs n' rest (instance_id_list ++ [instance_id])
      | Raise e :: rest =>
          if issubclass e RunnerError then
            emit (log (exception spawn_failed_message e)) ;;;
            collect_jobs n' rest instance_id_list
          else if issubclass e StopIteration then ret instance_id_list
          else raise e
      end
  end.

(** [Pool(processes=...)] refuses fewer than one process. *)
Definition _spawn_runners_using_multiprocessing
    (create_runner_args_sequence : list _CreateRunnerArgs.t) (num : nat)
  : M (list InstanceID.t) :=
  let processes := Nat.min num 10 in
  if Nat.ltb processes 1 then raise ValueError
  else
    jobs <-
      call (pool_imap_unordered processes create_runner_args_sequence)
        (imap_unordered processes create_runner_args_sequence) ;;
    collect_jobs num jobs [].

Definition _spawn_runners (create_runner_args_sequence : list _CreateRunnerArgs.t)
  : M (list InstanceID.t) :=
  let num := List.length create_runner_args_sequence in
  match create_runner_args_sequence with
  | [args] => (* num == 1 *)
      try_except
        (instance_id <- _create_runner args ;; ret [instance_id])
        [([RunnerError],
          fun e => emit (log (exception spawn_failed_message e)) ;;; ret [])]
  | _ => _spawn_runners_using_multiprocessing create_runner_args_sequence num
  end.

Definition create_runners (num : Z) (reactive : bool) : M (list InstanceID.t) :=
  let labels := _labels self ++ GITHUB_DEFAULT_LABELS in
  let create_runner_args :=
    repeat (_CreateRunnerArgs.Build labels reactive) (Z.to_nat num) in
  _spawn_runners create_runner_args.
End Engine.

End RunnerManager.

(** ** openstack_runner_manager.py *)

(** [pat in s] on strings. *)
Fixpoint contains (pat s : string) : bool :=
  String.prefix pat s ||
  match s with
  | EmptyString => false
  | String _ s' => contains pat s'
  end.

Module OpenstackRunnerManager.

Definition InstanceId : Type := string.

(** Modelled from the spec: [openstack_cloud/openstack_cloud.py] is not
    under src/; the attributes of an instance the manager reads. *)
Module OpenstackInstance.
Record t : Type := Build {
  server_name : string;
  instance_id : InstanceId;
  status : string
}.
End OpenstackInstance.

(** A [fabric.Connection] and the [invoke] result of a command run with
    [warn=True]. *)
Module SshConnection.
Record t : Type := Build { host : string }.
End SshConnection.

Module Result.
Record t : Type := Build { ok : bool; stdout : string }.
End Result.

Module MetricsStorage.
Record t : Type := Build { path : string }.
End MetricsStorage.

Module RunnerHealth.
Record t : Type := Build {
  healthy : list OpenstackInstance.t;
  unhealthy : list OpenstackInstance.t
}.
End RunnerHealth.

(** The [runners] argument of [runner_metrics.extract]: [cleanup] passes
    a set of names, [delete_runner] a single name. *)
Inductive Runners : Type :=
| set_of (names : list string)
| str_of (name : string).

Definition METRICS_EXCHANGE_PATH : string := "/home/ubuntu/metrics-exchange".
Definition _CONFIG_SCRIPT_PATH : string := "/home/ubuntu/actions-runner/config.sh".
Definition MAX_METRICS_FILE_SIZE : Z := 1024.
Definition RUNNER_LISTENER_PROCESS : string := "Runner.Listener".
Definition RUNNER_WORKER_PROCESS : string := "Runner.Worker".

(** [Path / name] *)
Definition path_join (dir file : string) : string := (dir ++ "/" ++ file)%string.

Section Manager.
(** [Iter] is the iterator [runner_metrics.extract] hands back, [Metrics]
    what it yields. *)
Variables S Iter Metrics : Type.

Inductive Event : Type :=
| get_instances (r : result (list OpenstackInstance.t))
| get_instance (id : InstanceId) (r : result OpenstackInstance.t)
| get_ssh_connection (instance : OpenstackInstance.t) (r : result SshConnection.t)
| delete_instance (id : InstanceId) (r : result unit)
| openstack_cloud_cleanup (r : result unit)
| run (ssh_conn : SshConnection.t) (command : string) (r : result Result.t)
| get (ssh_conn : SshConnection.t) (remote local : string) (r : result unit)
| metrics_storage_get (name : string) (r : result MetricsStorage.t)
| runner_metrics_extract (runners : Runners) (r : result Iter)
| next (metric : Iter) (r : result (option Metrics))
| sleep (seconds : Z)
| log (record : LogRecord).

(** The collaborators, none of them under src/: [OpenstackCloud], the
    remote shell, the metrics modules; and two functions the code
    applies, the mapping of the provider's status string and Python's
    [int] on a string ([None] for [ValueError]). *)
Class Environment : Type := {
  from_openstack_server_status : string -> CloudRunnerState;
  int : string -> option Z;
  os_get_instances : S -> result (list OpenstackInstance.t) * S;
  os_get_instance : InstanceId -> S -> result OpenstackInstance.t * S;
  os_get_ssh_connection : OpenstackInstance.t -> S -> result SshConnection.t * S;
  os_delete_instance : InstanceId -> S -> result unit * S;
  os_cleanup : S -> result unit * S;
  ssh_run : SshConnection.t -> string -> S -> result Result.t * S;
  ssh_get : SshConnection.t -> string -> string -> S -> result unit * S;
  storage_get : string -> S -> result MetricsStorage.t * S;
  extract : Runners -> S -> result Iter * S;
  iter_next : Iter -> S -> result (option Metrics) * S
}.

Context {env : Environment}.

Local Open Scope py_scope.
Local Abbreviation M := (M S Event).

(** Modelled from the spec: [utilities.retry] is not under src/.  The
    decorated function is tried [tries] times, sleeping [delay] seconds
    after a failed attempt and multiplying the delay by [backoff];
    the exception of the last attempt is raised. *)
Fixpoint retry {A} (tries : nat) (delay backoff : Z) (func : M A) : M A :=
  match tries with
  | O => raise RuntimeError
  | Datatypes.S O => func
  | Datatypes.S remain_tries =>
      try_except func
        [([Exception],
          fun _ => emit (sleep delay) ;;; retry remain_tries (delay * backoff) backoff func)]
  end.

Definition connection_failure_message : string :=
  "SSH connection failure with %s during health check".
Definition pull_failed_message : string := "Failed to pull metrics for %s: %s".

Definition ssh_errors : list exn := [TimeoutError; NoValidConnectionsError; SSHException].

Definition _ssh_pull_file (ssh_conn : SshConnection.t) (remote_path local_path : string)
    (max_size : Z) : M unit :=
  let command := ("stat -c %s " ++ remote_path)%string in
  result <-
    try_except (call (run ssh_conn command) (ssh_run ssh_conn command))
      [(ssh_errors, fun _ => raise SshError)] ;;
  (if negb (Result.ok result) then
     emit (log (warning "Unable to get file size of %s on instance %s" [remote_path])) ;;;
     raise _PullFileError
   else ret tt) ;;;
  (match int (Result.stdout result) with
   | Some size =>
       if (size >? max_size)%Z then raise _PullFileError else ret tt
   | None => raise _PullFileError
   end) ;;;
  try_except (call (get ssh_conn remote_path local_path) (ssh_get ssh_conn remote_path local_path))
    [(ssh_errors, fun _ => raise SshError);
     ([OSError], fun _ => raise _PullFileError)].

Definition _pull_runner_metrics (name : string) (ssh_conn : SshConnection.t) : M unit :=
  storage <-
    try_except
      (storage <- call (metrics_storage_get name) (storage_get name) ;; ret (Some storage))
      [([GetMetricsStorageError],
        fun e =>
          emit (log (exception "Failed to get shared metrics storage for runner %s" e)) ;;;
          ret None)] ;;
  match storage with
  | None => ret tt
  | Some storage =>
      try_except
        (_ssh_pull_file ssh_conn
           (path_join METRICS_EXCHANGE_PATH "pre-job-metrics.json")
           (path_join (MetricsStorage.path storage) "pre-job-metrics.json")
           MAX_METRICS_FILE_SIZE ;;;
         _ssh_pull_file ssh_conn
           (path_join METRICS_EXCHANGE_PATH "post-job-metrics.json")
           (path_join (MetricsStorage.path storage) "post-job-metrics.json")
           MAX_METRICS_FILE_SIZE)
        [([_PullFileError],
          fun _ => emit (log (warning pull_failed_message [name])))]
  end.

Definition _run_github_runner_removal_script (instance_name : string)
    (ssh_conn : SshConnection.t) (remove_token : string) : M unit :=
  let command := (_CONFIG_SCRIPT_PATH ++ " remove --token " ++ remove_token)%string in
  try_except
    (result <- call (run ssh_conn command) (ssh_run ssh_conn command) ;;
     if Result.ok result then ret tt
     else
       emit (log (warning "Unable to run removal script on instance %s" [instance_name])) ;;;
       raise GithubRunnerRemoveError)
    [(ssh_errors, fun _ => raise GithubRunnerRemoveError)].

Definition _delete_runner (instance : OpenstackInstance.t) (remove_token : string)
  : M unit :=
  let server_name := OpenstackInstance.server_name instance in
  try_except
    (ssh_conn <-
       call (get_ssh_connection instance) (os_get_ssh_connection instance) ;;
     _pull_runner_metrics server_name ssh_conn ;;;
     try_except
       (_run_github_runner_removal_script server_name ssh_conn remove_token)
       [([GithubRunnerRemoveError],
         fun _ =>
           emit (log (warning "Unable to run github runner removal script for %s"
                        [server_name])))])
    [([SshError],
      fun e =>
        emit (log (exception "Failed to get SSH connection while removing %s" e)) ;;;
        emit (log (warning "Skipping runner remove script for %s due to SSH issues"
                     [server_name])))] ;;;
  try_except
    (call (delete_instance (OpenstackInstance.instance_id instance))
       (os_delete_instance (OpenstackInstance.instance_id instance)))
    [([OpenstackError],
      fun e =>
        emit (log (exception "Unable to delete openstack instance for runner %s" e)))].

Definition _run_health_check (ssh_conn : SshConnection.t) (name : string) : M bool :=
  result <- call (run ssh_conn "ps aux") (ssh_run ssh_conn "ps aux") ;;
  if negb (Result.ok result) then
    emit (log (warning "SSH run of `ps aux` failed on %s" [name])) ;;; ret false
  else if negb (contains RUNNER_WORKER_PROCESS (Result.stdout result))
          && negb (contains RUNNER_LISTENER_PROCESS (Result.stdout result)) then
    emit (log (warning "Runner process not found on %s" [name])) ;;; ret false
  else ret true.

(** The body the decorator wraps. *)
Definition _health_check_once (instance : OpenstackInstance.t) : M bool :=
  ssh_conn <-
    try_except
      (call (get_ssh_connection instance) (os_get_ssh_connection instance))
      [([SshError],
        fun e =>
          emit (log (exception connection_failure_message e)) ;;;
          raise e)] ;;
  _run_health_check ssh_conn (OpenstackInstance.server_name instance).

(** [@retry(tries=3, delay=5, backoff=2, local_logger=logger)] *)
Definition _health_check (instance : OpenstackInstance.t) : M bool :=
  retry 3 5 2 (_health_check_once instance).

Definition automatically_unhealthy (cloud_state : CloudRunnerState) : bool :=
  existsb (CloudRunnerState_eqb cloud_state) [DELETED; ERROR; STOPPED].

Fixpoint _get_runner_health_loop (runner_list healthy unhealthy : list OpenstackInstance.t)
  : M RunnerHealth.t :=
  match runner_list with
  | [] => ret (RunnerHealth.Build healthy unhealthy)
  | runner :: rest =>
      let cloud_state :=
        from_openstack_server_status (OpenstackInstance.status runner) in
      is_unhealthy <-
        (if automatically_unhealthy cloud_state then ret true
         else (checked <- _health_check runner ;; ret (negb checked))) ;;
      if is_unhealthy : bool
      then _get_runner_health_loop rest healthy (unhealthy ++ [runner])
      else _get_runner_health_loop rest (healthy ++ [runner]) unhealthy
  end.

Definition _get_runner_health : M RunnerHealth.t :=
  runner_list <- call get_instances os_get_instances ;;
  _get_runner_health_loop runner_list [] [].

Fixpoint _delete_unhealthy (unhealthy : list OpenstackInstance.t) (remove_token : string)
  : M unit :=
  match unhealthy with
  | [] => ret tt
  | runner :: rest =>
      _delete_runner runner remove_token ;;; _delete_unhealthy rest remove_token
  end.

Definition cleanup (remove_token : string) : M Iter :=
  runners <- _get_runner_health ;;
  let healthy_runner_names :=
    map OpenstackInstance.server_name (RunnerHealth.healthy runners) in
  metrics <-
    call (runner_metrics_extract (set_of healthy_runner_names))
      (extract (set_of healthy_runner_names)) ;;
  _delete_unhealthy (RunnerHealth.unhealthy runners) remove_token ;;;
  call openstack_cloud_cleanup os_cleanup ;;;
  ret metrics.

Definition delete_runner (id : InstanceId) (remove_token : string)
  : M (option Metrics) :=
  instance <- call (get_instance id) (os_get_instance id) ;;
  metric <-
    call (runner_metrics_extract (str_of (OpenstackInstance.server_name instance)))
      (extract (str_of (OpenstackInstance.server_name instance))) ;;
  _delete_runner instance remove_token ;;;
  call (next metric) (iter_next metric).
End Manager.

Arguments _get_runner_health {S Iter Metrics env}.
Arguments int {S Iter Metrics Environment}.
Arguments get_instances {Iter Metrics} r.
Arguments get_instance {Iter Metrics} id r.
Arguments get_ssh_connection {Iter Metrics} instance r.
Arguments delete_instance {Iter Metrics} id r.
Arguments openstack_cloud_cleanup {Iter Metrics} r.
Arguments run {Iter Metrics} ssh_conn command r.
Arguments get {Iter Metrics} ssh_conn remote local r.
Arguments metrics_storage_get {Iter Metrics} name r.
Arguments runner_metrics_extract {Iter Metrics} runners r.
Arguments next {Iter Metrics} metric r.
Arguments sleep {Iter Metrics} seconds.
Arguments log {Iter Metrics} record.

(** Modelled from the spec: [CloudRunnerInstance] as this version of
    [manager/cloud_runner_manager.py] (not under src/) has it, built by
    the manager from a name, an instance ID and a state. *)
Module CloudRunnerInstance.
Record t : Type := Build {
  name : string;
  id : InstanceId;
  state : CloudRunnerState
}.
End CloudRunnerInstance.

Definition RUNNER_STARTUP_PROCESS : string := "/home/ubuntu/actions-runner/run.sh".

Section Listing.
Context {S Iter Metrics : Type} {env : Environment S Iter Metrics}.

(** Modelled from the spec: [OpenstackCloud.get_server_name] is not
    under src/; it derives the server name from the instance ID. *)
Variable get_server_name : InstanceId -> string.

Local Open Scope py_scope.
Local Abbreviation M := (M S (Event Iter Metrics)).

(** The loop of [get_runner]: the first instance of that name is
    returned. *)
Fixpoint get_runner_loop (name : string) (id : InstanceId)
    (instances_list : list OpenstackInstance.t) : option CloudRunnerInstance.t :=
  match instances_list with
  | [] => None
  | instance :: rest =>
      if String.eqb (OpenstackInstance.server_name instance) name then
        Some (CloudRunnerInstance.Build name id
                (from_openstack_server_status (OpenstackInstance.status instance)))
      else get_runner_loop name id rest
  end.

Definition get_runner (id : InstanceId) : M (option CloudRunnerInstance.t) :=
  let name := get_server_name id in
  instances_list <- call get_instances (@os_get_instances _ _ _ env) ;;
  ret (get_runner_loop name id instances_list).

Definition get_runners (states : option (list CloudRunnerState))
  : M (list CloudRunnerInstance.t) :=
  instance_list <- call get_instances (@os_get_instances _ _ _ env) ;;
  let instance_list :=
    map (fun instance =>
           CloudRunnerInstance.Build
             (OpenstackInstance.server_name instance)
             (OpenstackInstance.instance_id instance)
             (from_openstack_server_status (OpenstackInstance.status instance)))
      instance_list in
  match states with
  | None => ret instance_list
  | Some states =>
      ret (filter
             (fun instance =>
                existsb (CloudRunnerState_eqb (CloudRunnerInstance.state instance)) states)
             instance_list)
  end.

(** The body [@retry] wraps in [_wait_runner_startup]. *)
Definition _wait_runner_startup_once (instance : OpenstackInstance.t) : M unit :=
  ssh_conn <-
    try_except
      (call (get_ssh_connection instance) (os_get_ssh_connection instance))
      [([SshError], fun _ => raise RunnerStartError)] ;;
  result <- call (run ssh_conn "ps aux") (ssh_run ssh_conn "ps aux") ;;
  if negb (Result.ok result) then
    emit (log (warning "SSH run of `ps aux` failed on %s"
                 [OpenstackInstance.server_name instance])) ;;;
    raise RunnerStartError
  else if negb (contains RUNNER_STARTUP_PROCESS (Result.stdout result)) then
    emit (log (warning "Runner startup process not found on %s"
                 [OpenstackInstance.server_name instance])) ;;;
    raise RunnerStartError
  else ret tt.

(** [@retry(tries=10, delay=60, local_logger=logger)]: the delay stays
    the same from one attempt to the next. *)
Definition _wait_runner_startup (instance : OpenstackInstance.t) : M unit :=
  retry 10 60 1 (_wait_runner_startup_once instance).
End Listing.

End OpenstackRunnerManager.

(** * What the specification says, in its own words *)

Module Spec.
Import RunnerManager.

(** The cloud instance that matches a registration in the result of
    [get_runners()]: the one with the same [InstanceID] (the last of them,
    should several carry it). *)
Definition matching_cloud_instance (cloud_instances : list RunnerInstance.t)
    (id : InstanceID.t) : option RunnerInstance.t :=
  find (fun c => InstanceID.eqb id (RunnerInstance.instance_id c)) (rev cloud_instances).

(** "If it is NOT a reactive runner, mark for deletion unconditionally.
    If it IS reactive: skip deletion when no matching cloud instance
    exists yet; skip deletion when the matching cloud instance is in
    created state, or is in active state AND reports healthy; otherwise
    mark for deletion." *)
Definition marked_for_deletion (cloud_instances : list RunnerInstance.t)
    (github_runner : SelfHostedRunner.t) : bool :=
  let id := SelfHostedRunner.instance_id github_runner in
  if InstanceID.reactive id then
    match matching_cloud_instance cloud_instances id with
    | None => false
    | Some c =>
        match RunnerInstance.cloud_state c, RunnerInstance.health c with
        | CREATED, _ => false
        | ACTIVE, HEALTHY => false
        | _, _ => true
        end
    end
  else true.
End Spec.

(** * Reading a record of calls *)

Module Calls.
Import RunnerManager.

(** The lists of registrations handed to the coordination service for
    deletion. *)
Fixpoint github_deletions (tr : list Event) : list (list SelfHostedRunner.t) :=
  match tr with
  | [] => []
  | github_delete_runners runners _ :: tr' => runners :: github_deletions tr'
  | _ :: tr' => github_deletions tr'
  end.

(** The cloud runners deleted, with the token each deletion used. *)
Fixpoint cloud_deletions (tr : list Event) : list (InstanceID.t * string) :=
  match tr with
  | [] => []
  | cloud_delete_runner id token _ :: tr' => (id, token) :: cloud_deletions tr'
  | _ :: tr' => cloud_deletions tr'
  end.

(** The answers to requests for a removal token. *)
Fixpoint removal_tokens (tr : list Event) : list (result string) :=
  match tr with
  | [] => []
  | github_get_removal_token r :: tr' => r :: removal_tokens tr'
  | _ :: tr' => removal_tokens tr'
  end.

Definition is_log (ev : Event) : bool :=
  match ev with log _ => true | _ => false end.

(** Calls that read and calls that change the fleet. *)
Definition is_read (ev : Event) : bool :=
  match ev with
  | github_get_runners _ _ | cloud_get_runners _ _ => true
  | _ => false
  end.

Definition is_metrics_call (ev : Event) : bool :=
  match ev with
  | github_metrics_job _ _ _ | runner_metrics_issue_events _ _ _ _ | log _ => true
  | _ => false
  end.
End Calls.

(** * An in-memory fleet to run the engine on *)

Module Fleet.
Import RunnerManager.

Record World : Type := Build {
  registrations : list SelfHostedRunner.t;
  instances : list CloudRunnerInstance.t;
  create_runner_error : option exn;
  pool_outcomes : list (result InstanceID.t)
}.

Definition has_github_state (states : option (list GitHubRunnerState))
    (r : SelfHostedRunner.t) : bool :=
  match states with
  | None => true
  | Some sts =>
      existsb
        (GitHubRunnerState_eqb
           (from_runner (SelfHostedRunner.online r) (SelfHostedRunner.busy r)))
        sts
  end.

Definition has_cloud_state (states : option (list CloudRunnerState))
    (c : CloudRunnerInstance.t) : bool :=
  match states with
  | None => true
  | Some sts => existsb (CloudRunnerState_eqb (CloudRunnerInstance.state c)) sts
  end.

Definition listed (ids : list InstanceID.t) (id : InstanceID.t) : bool :=
  existsb (InstanceID.eqb id) ids.

Definition with_registrations (w : World) (rs : list SelfHostedRunner.t) : World :=
  Build rs (instances w) (create_runner_error w) (pool_outcomes w).

Definition with_instances (w : World) (cs : list CloudRunnerInstance.t) : World :=
  Build (registrations w) cs (create_runner_error w) (pool_outcomes w).

#[global] Instance github : GitHubRunnerManager World := {
  gh_get_runners states w := (Ok (filter (has_github_state states) (registrations w)), w);
  gh_get_removal_token w := (Ok "remove-token", w);
  gh_delete_runners runners w :=
    (Ok tt,
     with_registrations w
       (filter
          (fun r =>
             negb (listed (map SelfHostedRunner.instance_id runners)
                     (SelfHostedRunner.instance_id r)))
          (registrations w)));
  gh_get_registration_jittoken id labels w :=
    let runner := SelfHostedRunner.Build id false false in
    (Ok ("jit-token", runner), with_registrations w (registrations w ++ [runner]))
}.

#[global] Instance cloud : CloudRunnerManager World := {
  name_prefix := "unit";
  cl_get_runners states w := (Ok (filter (has_cloud_state states) (instances w)), w);
  cl_create_runner id token w :=
    match create_runner_error w with
    | Some e => (Raise e, w)
    | None =>
        (Ok tt,
         with_instances w
           (instances w ++ [CloudRunnerInstance.Build (InstanceID.name id) id HEALTHY ACTIVE]))
    end;
  cl_delete_runner id token w :=
    (Ok None,
     with_instances w
       (filter (fun c => negb (InstanceID.eqb id (CloudRunnerInstance.instance_id c)))
          (instances w)));
  cl_flush_runners token busy w := (Ok [], w);
  cl_cleanup token w := (Ok [], w)
}.

#[global] Instance platform : Platform World := {
  GITHUB_DEFAULT_LABELS := ["self-hosted"; "linux"];
  build prefix reactive w :=
    (Ok (InstanceID.Build (prefix ++ "-0")%string reactive), w);
  imap_unordered processes jobs w := (Ok (pool_outcomes w), w);
  job pre_job runner_name w := (Ok (github_job_metrics "job"), w);
  issue_events runner_metrics job_metrics flavor w := (Ok ["RunnerStop"], w)
}.

Definition manager : RunnerManager.t := RunnerManager.Build "flavor" ["openstack"].

Definition reactive_id (name : string) : InstanceID.t := InstanceID.Build name true.
Definition pool_id (name : string) : InstanceID.t := InstanceID.Build name false.

Definition offline (id : InstanceID.t) : SelfHostedRunner.t :=
  SelfHostedRunner.Build id false false.
Definition idle (id : InstanceID.t) : SelfHostedRunner.t :=
  SelfHostedRunner.Build id true false.

Definition server (id : InstanceID.t) (health : HealthState) (state : CloudRunnerState)
  : CloudRunnerInstance.t :=
  CloudRunnerInstance.Build (InstanceID.name id) id health state.

(** Five offline registrations: a pool runner, and reactive runners whose
    instance is missing, created, active and healthy, active and
    unhealthy. *)
Definition offline_fleet : World :=
  Build
    [offline (pool_id "n-1"); offline (reactive_id "r-1"); offline (reactive_id "r-2");
     offline (reactive_id "r-3"); offline (reactive_id "r-4")]
    [server (reactive_id "r-2") HEALTHY CREATED; server (reactive_id "r-3") HEALTHY ACTIVE;
     server (reactive_id "r-4") UNHEALTHY ACTIVE]
    None [].

(** Five instances, the second and fourth not registered. *)
Definition fleet_of_five : World :=
  Build
    [idle (pool_id "n-1"); idle (pool_id "n-3"); idle (pool_id "n-5")]
    [server (pool_id "n-1") HEALTHY ACTIVE; server (pool_id "n-2") HEALTHY ACTIVE;
     server (pool_id "n-3") HEALTHY ACTIVE; server (pool_id "n-4") HEALTHY ACTIVE;
     server (pool_id "n-5") HEALTHY ACTIVE]
    None [].

(** An empty fleet on a cloud that rejects every launch. *)
Definition rejecting_cloud : World := Build [] [] (Some RunnerCreateError) [].

(** An empty fleet whose pool reports three jobs, the second one
    failed. *)
Definition pool_of_three : World :=
  Build [] [] None
    [Ok (pool_id "n-3"); Raise RunnerCreateError; Ok (pool_id "n-1")].
End Fleet.

(** * What the specification says about creation *)

Module SpecCreate.
Import RunnerManager.

(** The instance IDs of the jobs that succeeded, and the errors of those
    that failed, in the order the jobs completed. *)
Definition successes (jobs : list (result InstanceID.t)) : list InstanceID.t :=
  flat_map (fun j => match j with Ok id => [id] | Raise _ => [] end) jobs.

Definition failures (jobs : list (result InstanceID.t)) : list exn :=
  flat_map (fun j => match j with Ok _ => [] | Raise e => [e] end) jobs.

Definition succeeded (jobs : list (result InstanceID.t)) : nat :=
  List.length (filter is_ok jobs).

Definition fails_with_runner_error (j : result InstanceID.t) : Prop :=
  match j with
  | Ok _ => True
  | Raise e => issubclass e RunnerError = true
  end.

Definition is_pool_call (ev : Event) : bool :=
  match ev with pool_imap_unordered _ _ _ => true | _ => false end.

(** "If N == 1 ... its error propagates directly rather than being
    swallowed": whenever the cloud fails the one creation job, the caller
    of [create_runners] gets that error. *)
Definition single_creation_error_propagates {S : Type} `{GitHubRunnerManager S}
    `{CloudRunnerManager S} `{Platform S} (self : RunnerManager.t) : Prop :=
  forall (s : S) reactive id token e,
    In (cloud_create_runner id token (Raise e))
      (trace (create_runners self 1 reactive s)) ->
    outcome (create_runners self 1 reactive s) = Raise e.
End SpecCreate.

(** * Reading a record of calls of the OpenStack manager *)

Module OpenstackCalls.
Import OpenstackRunnerManager.

Section Calls.
Variables Iter Metrics : Type.
Local Abbreviation Event := (Event Iter Metrics).

(** The instances whose deletion was asked of the provider. *)
Fixpoint instance_deletions (tr : list Event) : list InstanceId :=
  match tr with
  | [] => []
  | delete_instance id _ :: tr' => id :: instance_deletions tr'
  | _ :: tr' => instance_deletions tr'
  end.

(** The files fetched from a runner, by their remote path. *)
Fixpoint files_fetched (tr : list Event) : list string :=
  match tr with
  | [] => []
  | get _ remote _ (Ok _) :: tr' => remote :: files_fetched tr'
  | _ :: tr' => files_fetched tr'
  end.

(** The files whose fetching was started, by their remote path: each
    pull starts with [stat] on the file. *)
Fixpoint files_attempted (tr : list Event) : list string :=
  match tr with
  | [] => []
  | run _ command _ :: tr' =>
      if String.prefix "stat -c %s " command
      then String.substring 11 (String.length command - 11) command :: files_attempted tr'
      else files_attempted tr'
  | _ :: tr' => files_attempted tr'
  end.

Definition is_log (ev : Event) : bool :=
  match ev with log _ => true | _ => false end.

Definition not_deletion (ev : Event) : bool :=
  match ev with delete_instance _ _ => false | _ => true end.
End Calls.

Arguments instance_deletions {Iter Metrics} tr.
Arguments files_fetched {Iter Metrics} tr.
Arguments files_attempted {Iter Metrics} tr.
Arguments is_log {Iter Metrics} ev.
Arguments not_deletion {Iter Metrics} ev.
End OpenstackCalls.

(** * What the specification says about health and metrics *)

Module SpecHealth.
Import OpenstackRunnerManager.


Definition pre_job_file : string := "/home/ubuntu/metrics-exchange/pre-job-metrics.json".
Definition post_job_file : string := "/home/ubuntu/metrics-exchange/post-job-metrics.json".


(** One attempt of a health check on an instance that refuses the
    connection. *)
Definition failed_attempt {Iter Metrics : Type} (instance : OpenstackInstance.t)
  : list (Event Iter Metrics) :=
  [get_ssh_connection instance (Raise SshError);
   log (exception connection_failure_message SshError)].

(** The command that runs the removal script. *)
Definition removal_command (remove_token : string) : string :=
  (_CONFIG_SCRIPT_PATH ++ " remove --token " ++ remove_token)%string.

(** The command that asks for the size of a file. *)
Definition stat (file : string) : string := ("stat -c %s " ++ file)%string.

Section Pulls.
Context {Iter Metrics : Type}.

(** Python's [int], read on what [stat] printed. *)
Variable int : string -> option Z.




End Pulls.

Section Claims.
Context {S Iter Metrics : Type} {env : Environment S Iter Metrics}.

(** "CloudRunnerState of deleted/error/stopped is automatically
    unhealthy." *)
Definition unhealthy_by_state (instance : OpenstackInstance.t) : bool :=
  match from_openstack_server_status (OpenstackInstance.status instance) with
  | DELETED | ERROR | STOPPED => true
  | CREATED | ACTIVE => false
  end.

(** "An unresolved SSH error after retries counts as unhealthy", and
    it never aborts the pass: an instance, here the first the provider
    lists, whose health check ends in [SshError] is classified, as
    unhealthy. *)
Definition exhausted_probe_counts_as_unhealthy : Prop :=
  forall (s s1 : S) instance rest,
    os_get_instances s = (Ok (instance :: rest), s1) ->
    automatically_unhealthy
      (from_openstack_server_status (OpenstackInstance.status instance)) = false ->
    outcome (_health_check instance s1) = Raise SshError ->
    exists health,
      outcome (_get_runner_health s) = Ok health
      /\ In instance (RunnerHealth.unhealthy health).

(** "Metrics pull of a file exceeding 1024 bytes is skipped without
    raising, and does not prevent pulling the sibling file." *)
Definition oversize_file_keeps_sibling : Prop :=
  forall (s : S) name ssh_conn result size,
    let pull := _pull_runner_metrics name ssh_conn s in
    In (run ssh_conn (stat pre_job_file) (Ok result)) (trace pull) ->
    Result.ok result = true ->
    int (Result.stdout result) = Some size ->
    (size > 1024)%Z ->
    outcome pull = Ok tt
    /\ In post_job_file (OpenstackCalls.files_attempted (trace pull)).
End Claims.
End SpecHealth.

(** * The engine on the OpenStack runner manager *)

Module SpecDelete.
Section Through.
Context {S Iter : Type} {cloud : RunnerManager.CloudRunnerManager S}
        {env : OpenstackRunnerManager.Environment S Iter RunnerMetrics.t}.

(** The instance ID the OpenStack runner manager knows a runner of the
    engine by. *)
Variable to_id : InstanceID.t -> OpenstackRunnerManager.InstanceId.


(** The runs of [OpenstackRunnerManager.delete_runner] on the runners
    [ids], one after the other, each in the state the run before it
    left. *)
Fixpoint openstack_deletions (ids : list InstanceID.t) (remove_token : string) (s : S)
  : list (execution S (OpenstackRunnerManager.Event Iter RunnerMetrics.t)
            (option RunnerMetrics.t)) :=
  match ids with
  | [] => []
  | id :: rest =>
      let r := OpenstackRunnerManager.delete_runner (to_id id) remove_token s in
      r :: openstack_deletions rest remove_token (final r)
  end.
End Through.
End SpecDelete.

(** * An in-memory cloud to run the OpenStack manager on *)

Module Stack.
Import OpenstackRunnerManager.

(** [ps] gives what [ps aux] prints on a server, [sizes] what [stat]
    prints for a file there; servers in [unreachable] refuse SSH
    connections. *)
Record World : Type := Build {
  servers : list OpenstackInstance.t;
  unreachable : list string;
  ps : string -> string;
  sizes : string -> string -> string
}.

Definition status_of (status : string) : CloudRunnerState :=
  if String.eqb status "BUILD" then CREATED
  else if String.eqb status "ACTIVE" then ACTIVE
  else if String.eqb status "STOPPED" then STOPPED
  else if String.eqb status "DELETED" then DELETED
  else ERROR.

Definition digit (c : ascii) : option Z :=
  let n := Z.of_nat (nat_of_ascii c) in
  if ((48 <=? n) && (n <=? 57))%Z then Some (n - 48)%Z else None.

Fixpoint decimal_from (acc : Z) (s : string) : option Z :=
  match s with
  | EmptyString => Some acc
  | String c s' =>
      match digit c with
      | Some d => decimal_from (10 * acc + d) s'
      | None => None
      end
  end.

(** [int] on strings of decimal digits. *)
Definition decimal (s : string) : option Z :=
  match s with
  | EmptyString => None
  | _ => decimal_from 0 s
  end.

Definition stat_prefix : string := "stat -c %s ".

#[global] Instance env : Environment World Runners unit := {
  from_openstack_server_status := status_of;
  int := decimal;
  os_get_instances w := (Ok (servers w), w);
  os_get_instance id w :=
    match find (fun i => String.eqb id (OpenstackInstance.instance_id i)) (servers w) with
    | Some i => (Ok i, w)
    | None => (Raise OpenstackError, w)
    end;
  os_get_ssh_connection instance w :=
    if existsb (String.eqb (OpenstackInstance.server_name instance)) (unreachable w)
    then (Raise SshError, w)
    else (Ok (SshConnection.Build (OpenstackInstance.server_name instance)), w);
  os_delete_instance id w :=
    (Ok tt,
     Build
       (filter (fun i => negb (String.eqb id (OpenstackInstance.instance_id i))) (servers w))
       (unreachable w) (ps w) (sizes w));
  os_cleanup w := (Ok tt, w);
  ssh_run ssh_conn command w :=
    if String.eqb command "ps aux"
    then (Ok (Result.Build true (ps w (SshConnection.host ssh_conn))), w)
    else if String.prefix stat_prefix command
    then (Ok (Result.Build true
                (sizes w (SshConnection.host ssh_conn)
                   (String.substring 11 (String.length command - 11) command))), w)
    else (Ok (Result.Build true ""), w);
  ssh_get ssh_conn remote local w := (Ok tt, w);
  storage_get name w := (Ok (MetricsStorage.Build ("/metrics/" ++ name)%string), w);
  extract runners w := (Ok runners, w);
  iter_next metric w := (Ok None, w)
}.

Definition instance (name status : string) : OpenstackInstance.t :=
  OpenstackInstance.Build name name status.

Definition listener : string := "ubuntu 812 Runner.Listener run".

(** Four servers: one running the runner, one idle of it, one in error,
    one stopped; every metrics file is small. *)
Definition four_servers : World :=
  Build
    [instance "up" "ACTIVE"; instance "idle" "ACTIVE"; instance "broken" "ERROR";
     instance "off" "STOPPED"]
    []
    (fun host => if String.eqb host "up" then listener else "ubuntu 1 init")
    (fun host file => "64").

(** One active server that refuses every SSH connection. *)
Definition unreachable_server : World :=
  Build [instance "lost" "ACTIVE"] ["lost"] (fun host => listener) (fun host file => "64").

(** One server whose pre-job metrics file is 2048 bytes long. *)
Definition big_pre_job_file : World :=
  Build [instance "up" "ACTIVE"] [] (fun host => listener)
    (fun host file => if String.eqb file SpecHealth.pre_job_file then "2048" else "64").

(** One server whose post-job metrics file is 2048 bytes long. *)
Definition big_post_job_file : World :=
  Build [instance "up" "ACTIVE"] [] (fun host => listener)
    (fun host file => if String.eqb file SpecHealth.post_job_file then "2048" else "64").
End Stack.

(** * More readings of the engine's record of calls *)

Module MoreCalls.
Import RunnerManager.

(** The event types the metrics pipeline reported as issued, over all
    its calls. *)
Fixpoint issued_events (tr : list Event) : list EventType :=
  match tr with
  | [] => []
  | runner_metrics_issue_events _ _ _ (Ok issued) :: tr' => issued ++ issued_events tr'
  | _ :: tr' => issued_events tr'
  end.

(** The runner metrics handed to the metrics pipeline, each with the job
    metrics that went with it. *)
Fixpoint issue_calls (tr : list Event) : list (RunnerMetrics.t * option GithubJobMetrics) :=
  match tr with
  | [] => []
  | runner_metrics_issue_events metrics job_metrics _ _ :: tr' =>
      (metrics, job_metrics) :: issue_calls tr'
  | _ :: tr' => issue_calls tr'
  end.

(** The requests for job metrics made to the coordination service. *)
Fixpoint job_calls (tr : list Event) : list (PreJobMetrics * string) :=
  match tr with
  | [] => []
  | github_metrics_job pre_job runner_name _ :: tr' => (pre_job, runner_name) :: job_calls tr'
  | _ :: tr' => job_calls tr'
  end.

(** The tokens handed to the cloud runner manager's cleanup. *)
Fixpoint cloud_cleanups (tr : list Event) : list string :=
  match tr with
  | [] => []
  | cloud_cleanup token _ :: tr' => token :: cloud_cleanups tr'
  | _ :: tr' => cloud_cleanups tr'
  end.

(** The count a statistics dictionary holds for an event type, zero when
    the type is not a key. *)
Definition stat_of (stats : IssuedMetricEventsStats) (event_type : EventType) : Z :=
  match dict_get String.eqb event_type stats with
  | Some n => n
  | None => 0%Z
  end.

(** The job requests [_issue_runner_metrics] owes for a list of runner
    metrics: one for each that has pre-job data. *)
Definition jobs_due (metrics : list RunnerMetrics.t) : list (PreJobMetrics * string) :=
  flat_map
    (fun m =>
       match RunnerMetrics.pre_job m with
       | Some pre_job => [(pre_job, InstanceID.name (RunnerMetrics.instance_id m))]
       | None => []
       end)
    metrics.
End MoreCalls.

(** * Collaborators that fail, to run the engine against *)

Module Mishaps.
Import RunnerManager.

(** The platform of the in-memory fleet, with a metrics pipeline that is
    down: every [issue_events] raises. *)
Definition pipeline_down : Platform Fleet.World := {|
  GITHUB_DEFAULT_LABELS := ["self-hosted"; "linux"];
  build := fun prefix reactive w =>
    (Ok (InstanceID.Build (prefix ++ "-0")%string reactive), w);
  imap_unordered := fun processes jobs w => (Ok (Fleet.pool_outcomes w), w);
  job := fun pre_job runner_name w => (Raise GithubMetricsError, w);
  issue_events := fun runner_metrics job_metrics flavor w => (Raise OtherException, w)
|}.

(** The cloud of the in-memory fleet, except that the instance named
    [n-2] cannot be deleted, and that the metrics of a deleted instance
    come back without pre-job data. *)
Definition stuck_instance : CloudRunnerManager Fleet.World := {|
  name_prefix := "unit";
  cl_get_runners := fun states w =>
    (Ok (filter (Fleet.has_cloud_state states) (Fleet.instances w)), w);
  cl_create_runner := fun id token w => (Ok tt, w);
  cl_delete_runner := fun id token w =>
    if String.eqb (InstanceID.name id) "n-2" then (Raise OpenstackError, w)
    else
      (Ok (Some (RunnerMetrics.Build id None)),
       Fleet.with_instances w
         (filter (fun c => negb (InstanceID.eqb id (CloudRunnerInstance.instance_id c)))
            (Fleet.instances w)));
  cl_flush_runners := fun token busy w => (Ok [], w);
  cl_cleanup := fun token w => (Ok [], w)
|}.

(** The fleet of five as [get_runners()] returns it. *)
Definition runner (name : string) (github_state : option GitHubRunnerState)
  : RunnerInstance.t :=
  RunnerInstance.Build name (Fleet.pool_id name) HEALTHY github_state ACTIVE.

(** Runner metrics with and without pre-job data. *)
Definition with_pre_job (name : string) : RunnerMetrics.t :=
  RunnerMetrics.Build (Fleet.pool_id name) (Some (pre_job_metrics "pre-job")).
Definition without_pre_job (name : string) : RunnerMetrics.t :=
  RunnerMetrics.Build (Fleet.pool_id name) None.

(** An empty fleet whose pool reports three jobs, the second one crashed
    with an error that is not a runner error. *)
Definition pool_crash : Fleet.World :=
  Fleet.Build [] [] None
    [Ok (Fleet.pool_id "n-3"); Raise OtherException; Ok (Fleet.pool_id "n-1")].

Definition empty_fleet : Fleet.World := Fleet.Build [] [] None [].
End Mishaps.

(** * More readings of the OpenStack manager's record of calls *)

Module MoreOpenstackCalls.
Import OpenstackRunnerManager.

Section Calls.
Variables Iter Metrics : Type.
Local Abbreviation Event := (Event Iter Metrics).

(** The waits between attempts, in seconds. *)
Fixpoint sleeps (tr : list Event) : list Z :=
  match tr with
  | [] => []
  | sleep seconds :: tr' => seconds :: sleeps tr'
  | _ :: tr' => sleeps tr'
  end.

(** The instances a connection was asked for, once for every
    request. *)
Fixpoint connections (tr : list Event) : list OpenstackInstance.t :=
  match tr with
  | [] => []
  | get_ssh_connection instance _ :: tr' => instance :: connections tr'
  | _ :: tr' => connections tr'
  end.

(** The commands run over a connection. *)
Fixpoint commands (tr : list Event) : list string :=
  match tr with
  | [] => []
  | run _ command _ :: tr' => command :: commands tr'
  | _ :: tr' => commands tr'
  end.

(** Calls other than running a command that does not ask for the size
    of a file. *)
Definition runs_only_stat (ev : Event) : bool :=
  match ev with
  | run _ command _ => String.prefix "stat -c %s " command
  | _ => true
  end.

(** Calls that are neither a wait nor a request for a connection. *)
Definition within_an_attempt (ev : Event) : bool :=
  match ev with
  | sleep _ | get_ssh_connection _ _ => false
  | _ => true
  end.
End Calls.

Arguments sleeps {Iter Metrics} tr.
Arguments connections {Iter Metrics} tr.
Arguments commands {Iter Metrics} tr.
Arguments runs_only_stat {Iter Metrics} ev.
Arguments within_an_attempt {Iter Metrics} ev.

(** The waits of [k] failed attempts: the first lasts [delay], each one
    after it [backoff] times the one before. *)
Fixpoint delays (k : nat) (delay backoff : Z) : list Z :=
  match k with
  | O => []
  | Datatypes.S k' => delay :: delays k' (delay * backoff) backoff
  end.
End MoreOpenstackCalls.

(** * More in-memory clouds *)

Module StackMishaps.
Import OpenstackRunnerManager.

(** The in-memory cloud, except for three answers: [script] is what the
    removal script comes to, [fetch] what fetching a file comes to and
    [deletion] what the provider answers to the deletion of an
    instance. *)
Definition env_where (script : Result.t) (fetch deletion : result unit)
  : Environment Stack.World Runners unit := {|
  from_openstack_server_status := Stack.status_of;
  int := Stack.decimal;
  os_get_instances := fun w => (Ok (Stack.servers w), w);
  os_get_instance := fun id w =>
    match find (fun i => String.eqb id (OpenstackInstance.instance_id i)) (Stack.servers w)
    with
    | Some i => (Ok i, w)
    | None => (Raise OpenstackError, w)
    end;
  os_get_ssh_connection := fun instance w =>
    if existsb (String.eqb (OpenstackInstance.server_name instance)) (Stack.unreachable w)
    then (Raise SshError, w)
    else (Ok (SshConnection.Build (OpenstackInstance.server_name instance)), w);
  os_delete_instance := fun id w => (deletion, w);
  os_cleanup := fun w => (Ok tt, w);
  ssh_run := fun ssh_conn command w =>
    if String.eqb command "ps aux"
    then (Ok (Result.Build true (Stack.ps w (SshConnection.host ssh_conn))), w)
    else if String.prefix Stack.stat_prefix command
    then (Ok (Result.Build true
                (Stack.sizes w (SshConnection.host ssh_conn)
                   (String.substring 11 (String.length command - 11) command))), w)
    else (Ok script, w);
  ssh_get := fun ssh_conn remote local w => (fetch, w);
  storage_get := fun name w => (Ok (MetricsStorage.Build ("/metrics/" ++ name)%string), w);
  extract := fun runners w => (Ok runners, w);
  iter_next := fun metric w => (Ok None, w)
|}.

(** The removal script fails on the runner. *)
Definition removal_fails : Environment Stack.World Runners unit :=
  env_where (Result.Build false "not configured") (Ok tt) (Ok tt).

(** Fetching a file times out. *)
Definition fetch_times_out : Environment Stack.World Runners unit :=
  env_where (Result.Build true "") (Raise TimeoutError) (Ok tt).

(** The provider refuses to delete. *)
Definition deletion_refused : Environment Stack.World Runners unit :=
  env_where (Result.Build true "") (Ok tt) (Raise OpenstackError).

(** One server on which the runner has started, and one that is still
    booting. *)
Definition started : Stack.World :=
  Stack.Build [Stack.instance "new" "ACTIVE"] []
    (fun host => "ubuntu 801 /bin/bash /home/ubuntu/actions-runner/run.sh")
    (fun host file => "64").

Definition booting : Stack.World :=
  Stack.Build [Stack.instance "new" "BUILD"] []
    (fun host => "root 1 /sbin/init")
    (fun host file => "64").

(** The server name of an instance ID, under the prefix [unit]. *)
Definition get_server_name (id : InstanceId) : string := ("unit-" ++ id)%string.

(** Two servers named after their instance IDs. *)
Definition named_servers : Stack.World :=
  Stack.Build
    [OpenstackInstance.Build "unit-a1" "a1" "ACTIVE";
     OpenstackInstance.Build "unit-b2" "b2" "STOPPED"]
    [] (fun host => Stack.listener) (fun host file => "64").
End StackMishaps.

(** * charm_state.py: the parsers of the charm configuration *)

(** A Python [str] is a [string] here: a sequence of characters of code
    point below 256.  The built-ins the parsers use are written out:
    [str.split] and [str.join] for a separator of one character, [in],
    [str.strip], [str.isdigit], slices from the end, and [re.match] for
    the one pattern of the file. *)
Module CharmState.

Local Open Scope string_scope.

(** [sep in s] for a separator of one character. *)
Fixpoint in_str (sep : ascii) (s : string) : bool :=
  match s with
  | EmptyString => false
  | String c s' => Ascii.eqb c sep || in_str sep s'
  end.

(** [s.split(sep)]: the pieces between the separators, the empty ones
    too; there is always one piece. *)
Fixpoint split (sep : ascii) (s : string) : list string :=
  match s with
  | EmptyString => [EmptyString]
  | String c s' =>
      if Ascii.eqb c sep then EmptyString :: split sep s'
      else
        match split sep s' with
        | [] => [String c EmptyString]
        | piece :: pieces => String c piece :: pieces
        end
  end.

(** [sep.join(pieces)] *)
Fixpoint join (sep : string) (pieces : list string) : string :=
  match pieces with
  | [] => EmptyString
  | [piece] => piece
  | piece :: rest => piece ++ sep ++ join sep rest
  end.

Definition code (c : ascii) : nat := nat_of_ascii c.

Definition between (lo hi n : nat) : bool := (lo <=? n)%nat && (n <=? hi)%nat.

(** [c.isspace()]: the characters [str.strip] removes. *)
Definition isspace (c : ascii) : bool :=
  let n := code c in
  between 9 13 n || between 28 32 n || Nat.eqb n 133 || Nat.eqb n 160.

Fixpoint lstrip (s : string) : string :=
  match s with
  | EmptyString => EmptyString
  | String c s' => if isspace c then lstrip s' else s
  end.

Fixpoint rstrip (s : string) : string :=
  match s with
  | EmptyString => EmptyString
  | String c s' =>
      match rstrip s' with
      | EmptyString => if isspace c then EmptyString else String c EmptyString
      | rest => String c rest
      end
  end.

(** [s.strip()] *)
Definition strip (s : string) : string := rstrip (lstrip s).

(** [c.isdigit()]: the decimal digits and the superscripts one, two and
    three. *)
Definition isdigit_char (c : ascii) : bool :=
  let n := code c in
  between 48 57 n || Nat.eqb n 178 || Nat.eqb n 179 || Nat.eqb n 185.

Fixpoint all_chars (p : ascii -> bool) (s : string) : bool :=
  match s with
  | EmptyString => true
  | String c s' => p c && all_chars p s'
  end.

(** [s.isdigit()]: at least one character, and digits only. *)
Definition isdigit (s : string) : bool :=
  match s with
  | EmptyString => false
  | _ => all_chars isdigit_char s
  end.

(** [s[-n:]] and [s[:-n]] for a positive [n]. *)
Definition slice_last (n : nat) (s : string) : string :=
  string_of_list_ascii
    (skipn (List.length (list_ascii_of_string s) - n) (list_ascii_of_string s)).

Definition slice_but_last (n : nat) (s : string) : string :=
  string_of_list_ascii
    (firstn (List.length (list_ascii_of_string s) - n) (list_ascii_of_string s)).

(** [[\w\-]]: what [\w] matches in a [str] pattern, letters, digits and
    other numeric characters and the underscore, and the hyphen. *)
Definition word_char (c : ascii) : bool :=
  let n := code c in
  Nat.eqb n 45 || between 48 57 n || between 65 90 n || Nat.eqb n 95 || between 97 122 n
  || Nat.eqb n 170 || Nat.eqb n 178 || Nat.eqb n 179 || Nat.eqb n 181 || Nat.eqb n 185
  || Nat.eqb n 186 || between 188 190 n || between 192 214 n || between 216 246 n
  || between 248 255 n.

(** What is left of the pattern after its first character: more word
    characters, then the end of the string, which [$] also finds just
    before a newline that ends the string. *)
Fixpoint word_only_rest (s : string) : bool :=
  match s with
  | EmptyString => true
  | String c s' =>
      if word_char c then word_only_rest s'
      else Ascii.eqb c "010" && String.eqb s' EmptyString
  end.

(** [WORD_ONLY_REGEX.match(s)] for [WORD_ONLY_REGEX = "^[\w\-]+$"],
    as a truth value. *)
Definition WORD_ONLY_REGEX_match (s : string) : bool :=
  match s with
  | EmptyString => false
  | String c s' => word_char c && word_only_rest s'
  end.

(** The two exceptions the parsers raise, with their message. *)
Inductive error : Type :=
| CharmConfigInvalidError (msg : string)
| ValueError (msg : string).

Inductive GithubPath : Type :=
| GithubRepo (owner repo : string)
| GithubOrg (org group : string).

(** [GithubRepo.path] and [GithubOrg.path] *)
Definition path (self : GithubPath) : string :=
  match self with
  | GithubRepo owner repo => owner ++ "/" ++ repo
  | GithubOrg org _ => org
  end.

Definition parse_github_path (path_str runner_group : string) : error + GithubPath :=
  if in_str "/" path_str then
    let paths := split "/" path_str in
    match paths with
    | [owner; repo] => inr (GithubRepo owner repo)
    | _ => inl (CharmConfigInvalidError ("Invalid path configuration " ++ path_str))
    end
  else inr (GithubOrg path_str runner_group).

Definition valid_suffixes : list string := ["KiB"; "MiB"; "GiB"; "TiB"; "PiB"; "EiB"].

Definition _valid_storage_size_str (size : string) : bool :=
  existsb (String.eqb (slice_last 3 size)) valid_suffixes
  && isdigit (slice_but_last 3 size).

(** The loop of [_parse_labels] over the pieces of the string. *)
Fixpoint _parse_labels_loop (pieces invalid_labels valid_labels : list string)
  : list string * list string :=
  match pieces with
  | [] => (invalid_labels, valid_labels)
  | label :: rest =>
      if String.eqb label EmptyString then
        _parse_labels_loop rest invalid_labels valid_labels
      else
        let stripped_label := strip label in
        if negb (WORD_ONLY_REGEX_match stripped_label) then
          _parse_labels_loop rest (invalid_labels ++ [stripped_label]) valid_labels
        else
          _parse_labels_loop rest invalid_labels (valid_labels ++ [stripped_label])
  end.

Definition _parse_labels (labels : string) : error + list string :=
  let (invalid_labels, valid_labels) := _parse_labels_loop (split "," labels) [] [] in
  match invalid_labels with
  | _ :: _ => inl (ValueError ("Invalid labels " ++ join "," invalid_labels ++ " found."))
  | [] => inr valid_labels
  end.

(** A label as [_parse_labels] returns it: not empty, and made of word
    characters and hyphens. *)
Definition word_only (label : string) : bool :=
  negb (String.eqb label EmptyString) && all_chars word_char label.

(** The number of separators in a string. *)
Fixpoint count_char (sep : ascii) (s : string) : nat :=
  match s with
  | EmptyString => 0
  | String c s' => (if Ascii.eqb c sep then 1 else 0) + count_char sep s'
  end.
End CharmState.

(** * The engine on the in-memory cloud, through the OpenStack manager *)

Module Joined.
Module O := OpenstackRunnerManager.

(** The in-memory cloud, extracting runner metrics of the engine's
    kind; the iterator yields none. *)
Definition env : O.Environment Stack.World O.Runners RunnerMetrics.t := {|
  O.from_openstack_server_status := Stack.status_of;
  O.int := Stack.decimal;
  O.os_get_instances := fun w => (Ok (Stack.servers w), w);
  O.os_get_instance := fun id w =>
    match find (fun i => String.eqb id (O.OpenstackInstance.instance_id i)) (Stack.servers w)
    with
    | Some i => (Ok i, w)
    | None => (Raise OpenstackError, w)
    end;
  O.os_get_ssh_connection := fun instance w =>
    if existsb (String.eqb (O.OpenstackInstance.server_name instance)) (Stack.unreachable w)
    then (Raise SshError, w)
    else (Ok (O.SshConnection.Build (O.OpenstackInstance.server_name instance)), w);
  O.os_delete_instance := fun id w =>
    (Ok tt,
     Stack.Build
       (filter (fun i => negb (String.eqb id (O.OpenstackInstance.instance_id i)))
          (Stack.servers w))
       (Stack.unreachable w) (Stack.ps w) (Stack.sizes w));
  O.os_cleanup := fun w => (Ok tt, w);
  O.ssh_run := fun ssh_conn command w =>
    if String.eqb command "ps aux"
    then (Ok (O.Result.Build true (Stack.ps w (O.SshConnection.host ssh_conn))), w)
    else if String.prefix Stack.stat_prefix command
    then (Ok (O.Result.Build true
                (Stack.sizes w (O.SshConnection.host ssh_conn)
                   (String.substring 11 (String.length command - 11) command))), w)
    else (Ok (O.Result.Build true ""), w);
  O.ssh_get := fun ssh_conn remote local w => (Ok tt, w);
  O.storage_get := fun name w => (Ok (O.MetricsStorage.Build ("/metrics/" ++ name)%string), w);
  O.extract := fun runners w => (Ok runners, w);
  O.iter_next := fun metric w => (Ok None, w)
|}.

(** A runner of the engine is known to the OpenStack manager by its
    name. *)
Definition to_id (id : InstanceID.t) : O.InstanceId := InstanceID.name id.

(** The engine's cloud runner manager on this cloud: it lists the
    servers and deletes a runner by a run of the OpenStack manager's
    [delete_runner]. *)
Definition cloud : RunnerManager.CloudRunnerManager Stack.World := {|
  RunnerManager.name_prefix := "unit";
  RunnerManager.cl_get_runners := fun states w =>
    (Ok (map (fun i =>
                CloudRunnerInstance.Build (O.OpenstackInstance.server_name i)
                  (InstanceID.Build (O.OpenstackInstance.instance_id i) false)
                  HEALTHY (Stack.status_of (O.OpenstackInstance.status i)))
           (Stack.servers w)), w);
  RunnerManager.cl_create_runner := fun id token w => (Ok tt, w);
  RunnerManager.cl_delete_runner := fun id token w =>
    (outcome (O.delete_runner (env := env) (to_id id) token w),
     final (O.delete_runner (env := env) (to_id id) token w));
  RunnerManager.cl_flush_runners := fun token busy w => (Ok [], w);
  RunnerManager.cl_cleanup := fun token w => (Ok [], w)
|}.

(** A coordination service without registrations. *)
Definition github : RunnerManager.GitHubRunnerManager Stack.World := {|
  RunnerManager.gh_get_runners := fun states w => (Ok [], w);
  RunnerManager.gh_get_removal_token := fun w => (Ok "remove-token", w);
  RunnerManager.gh_delete_runners := fun runners w => (Ok tt, w);
  RunnerManager.gh_get_registration_jittoken := fun id labels w =>
    (Ok ("jit-token", SelfHostedRunner.Build id false false), w)
|}.

Definition platform : RunnerManager.Platform Stack.World := {|
  RunnerManager.GITHUB_DEFAULT_LABELS := ["self-hosted"; "linux"];
  RunnerManager.build := fun prefix reactive w =>
    (Ok (InstanceID.Build (prefix ++ "-0")%string reactive), w);
  RunnerManager.imap_unordered := fun processes jobs w => (Ok [], w);
  RunnerManager.job := fun pre_job runner_name w => (Ok (github_job_metrics "job"), w);
  RunnerManager.issue_events := fun runner_metrics job_metrics flavor w =>
    (Ok ["RunnerStop"], w)
|}.

(** An active server, as the engine's [get_runners()] returns it. *)
Definition runner (name : string) : RunnerManager.RunnerInstance.t :=
  RunnerManager.RunnerInstance.Build name (InstanceID.Build name false) HEALTHY None ACTIVE.
End Joined.

(** * Theorems *)

Unset Implicit Arguments.

Lemma issubclass_Exception (e : exn) : issubclass e Exception = true.
Proof. destruct e; reflexivity. Qed.

Section MonadFacts.
Context {S Ev : Type}.
Implicit Types s : S.

Lemma trace_bind {A B} (m : M S Ev A) (k : A -> M S Ev B) s :
  trace (bind m k s) =
  trace (m s) ++
  match outcome (m s) with
  | Ok a => trace (k a (final (m s)))
  | Raise _ => []
  end.
Proof.
  unfold bind. destruct (outcome (m s)); simpl; [reflexivity | now rewrite app_nil_r].
Qed.

Lemma outcome_bind {A B} (m : M S Ev A) (k : A -> M S Ev B) s :
  outcome (bind m k s) =
  match outcome (m s) with
  | Ok a => outcome (k a (final (m s)))
  | Raise e => Raise e
  end.
Proof. unfold bind. destruct (outcome (m s)); reflexivity. Qed.

Lemma final_bind {A B} (m : M S Ev A) (k : A -> M S Ev B) s :
  final (bind m k s) =
  match outcome (m s) with
  | Ok a => final (k a (final (m s)))
  | Raise e => final (m s)
  end.
Proof. unfold bind. destruct (outcome (m s)); reflexivity. Qed.

Lemma trace_try_except {A} (m : M S Ev A) (h : clauses S Ev A) s :
  trace (try_except m h s) =
  trace (m s) ++
  match outcome (m s) with
  | Ok _ => []
  | Raise e =>
      match select h e with
      | Some k => trace (k (final (m s)))
      | None => []
      end
  end.
Proof.
  unfold try_except. destruct (outcome (m s)); simpl.
  - now rewrite app_nil_r.
  - destruct (select h e); simpl; [reflexivity | now rewrite app_nil_r].
Qed.

Lemma outcome_try_except {A} (m : M S Ev A) (h : clauses S Ev A) s :
  outcome (try_except m h s) =
  match outcome (m s) with
  | Ok a => Ok a
  | Raise e =>
      match select h e with
      | Some k => outcome (k (final (m s)))
      | None => Raise e
      end
  end.
Proof.
  unfold try_except. destruct (outcome (m s)) eqn:E; simpl; auto.
  destruct (select h e); simpl; auto.
Qed.

Lemma final_try_except {A} (m : M S Ev A) (h : clauses S Ev A) s :
  final (try_except m h s) =
  match outcome (m s) with
  | Ok a => final (m s)
  | Raise e =>
      match select h e with
      | Some k => final (k (final (m s)))
      | None => final (m s)
      end
  end.
Proof.
  unfold try_except. destruct (outcome (m s)) eqn:E; simpl; auto.
  destruct (select h e); simpl; auto.
Qed.

Lemma run_call {A} (record : result A -> Ev) (op : S -> result A * S) s :
  call record op s = Run (fst (op s)) (snd (op s)) [record (fst (op s))].
Proof. unfold call. now destruct (op s). Qed.

(** Running [m] and then [k], when [m] returns. *)
Lemma bind_ok {A B} (m : M S Ev A) (k : A -> M S Ev B) s a :
  outcome (m s) = Ok a ->
  bind m k s = after (trace (m s)) (k a (final (m s))).
Proof. intros H. unfold bind. now rewrite H. Qed.

Lemma bind_raise {A B} (m : M S Ev A) (k : A -> M S Ev B) s e :
  outcome (m s) = Raise e ->
  bind m k s = Run (Raise e) (final (m s)) (trace (m s)).
Proof. intros H. unfold bind. now rewrite H. Qed.

(** A call that is answered, and then [k]. *)
Lemma bind_call_ok {A B} (record : result A -> Ev) (op : S -> result A * S)
    (k : A -> M S Ev B) s a s1 :
  op s = (Ok a, s1) ->
  bind (call record op) k s = after [record (Ok a)] (k a s1).
Proof. intros H. unfold bind, call. now rewrite H. Qed.

Lemma bind_call_raise {A B} (record : result A -> Ev) (op : S -> result A * S)
    (k : A -> M S Ev B) s e s1 :
  op s = (Raise e, s1) ->
  bind (call record op) k s = Run (Raise e) s1 [record (Raise e)].
Proof. intros H. unfold bind, call. now rewrite H. Qed.

Lemma call_ok {A} (record : result A -> Ev) (op : S -> result A * S) s r s1 :
  op s = (r, s1) -> call record op s = Run r s1 [record r].
Proof. intros H. unfold call. now rewrite H. Qed.

Lemma bind_emit {B} (ev : Ev) (k : unit -> M S Ev B) s :
  bind (emit ev) k s = after [ev] (k tt s).
Proof. reflexivity. Qed.

Lemma bind_ret {A B} (a : A) (k : A -> M S Ev B) s :
  bind (ret a) k s = after [] (k a s).
Proof. reflexivity. Qed.

Lemma after_nil {A} (r : execution S Ev A) : after [] r = r.
Proof. now destruct r. Qed.

Lemma after_after {A} (a b : list Ev) (r : execution S Ev A) :
  after a (after b r) = after (a ++ b) r.
Proof. unfold after. simpl. now rewrite app_assoc. Qed.

Lemma try_except_ok {A} (m : M S Ev A) (h : clauses S Ev A) s a :
  outcome (m s) = Ok a -> try_except m h s = m s.
Proof. intros H. unfold try_except. now rewrite H. Qed.

Lemma try_except_caught {A} (m : M S Ev A) (h : clauses S Ev A) s e k :
  outcome (m s) = Raise e -> select h e = Some k ->
  try_except m h s = after (trace (m s)) (k (final (m s))).
Proof. intros H Hk. unfold try_except. now rewrite H, Hk. Qed.

Lemma try_except_uncaught {A} (m : M S Ev A) (h : clauses S Ev A) s e :
  outcome (m s) = Raise e -> select h e = None ->
  try_except m h s = m s.
Proof. intros H Hk. unfold try_except. now rewrite H, Hk. Qed.

Variable p : Ev -> bool.

Lemma quiet_ret {A} (a : A) : quiet p (ret a : M S Ev A).
Proof. intros s. reflexivity. Qed.

Lemma quiet_raise {A} (e : exn) : quiet p (raise e : M S Ev A).
Proof. intros s. reflexivity. Qed.

Lemma quiet_emit (ev : Ev) : p ev = true -> quiet p (emit ev : M S Ev unit).
Proof. intros H s. simpl. now rewrite H. Qed.

Lemma quiet_call {A} (record : result A -> Ev) (op : S -> result A * S) :
  (forall r, p (record r) = true) -> quiet p (call record op).
Proof. intros H s. rewrite run_call. simpl. now rewrite H. Qed.

Lemma quiet_bind {A B} (m : M S Ev A) (k : A -> M S Ev B) :
  quiet p m -> (forall a, quiet p (k a)) -> quiet p (bind m k).
Proof.
  intros Hm Hk s. rewrite trace_bind, forallb_app, Hm. simpl.
  destruct (outcome (m s)); [apply Hk | reflexivity].
Qed.

Lemma quiet_select {A} (h : clauses S Ev A) e k :
  quiet_clauses p h -> select h e = Some k -> quiet p k.
Proof.
  induction 1 as [|[classes body] h Hc Hh IH]; simpl; [discriminate|].
  destruct (existsb (issubclass e) classes).
  - intros H. injection H as <-. apply Hc.
  - exact IH.
Qed.

Lemma quiet_try_except {A} (m : M S Ev A) (h : clauses S Ev A) :
  quiet p m -> quiet_clauses p h -> quiet p (try_except m h).
Proof.
  intros Hm Hh s. rewrite trace_try_except, forallb_app, Hm. simpl.
  destruct (outcome (m s)) as [a|e]; [reflexivity|].
  destruct (select h e) as [k|] eqn:Hk; [|reflexivity].
  apply (quiet_select _ _ _ Hh Hk).
Qed.

Lemma quiet_when (b : bool) (m : M S Ev unit) : quiet p m -> quiet p (when b m).
Proof. intros Hm. destruct b; [exact Hm | apply quiet_ret]. Qed.
End MonadFacts.

(** Proves that a computation built from calls, log records and the
    control structures is [quiet], one constructor at a time. *)
Ltac quiet_step :=
  match goal with
  | |- quiet _ (bind _ _) => apply quiet_bind; [|intros ?]
  | |- quiet _ (try_except _ _) => apply quiet_try_except
  | |- quiet _ (ret _) => apply quiet_ret
  | |- quiet _ (raise _) => apply quiet_raise
  | |- quiet _ (emit _) => apply quiet_emit; reflexivity
  | |- quiet _ (call _ _) => apply quiet_call; intros ?; reflexivity
  | |- quiet _ (when _ _) => apply quiet_when
  | |- quiet _ (if ?b then _ else _) => destruct b
  | |- quiet _ (match ?x with _ => _ end) => destruct x
  | |- quiet_clauses _ _ => constructor; [intros ?; cbn [snd]|]
  | |- Forall _ [] => constructor
  | |- Forall _ (_ :: _) => constructor; [intros ?; cbn [snd]|]
  end.

Section DictFacts.
Context {K V : Type}.
Variable eqb : K -> K -> bool.
Hypothesis eqb_eq : forall a b, eqb a b = true <-> a = b.

Lemma dict_get_set (k k' : K) (v : V) (d : dict K V) :
  dict_get eqb k (dict_set eqb k' v d) =
  if eqb k k' then Some v else dict_get eqb k d.
Proof.
  induction d as [|[k0 v0] d IH]; simpl.
  - reflexivity.
  - destruct (eqb k' k0) eqn:E'; simpl.
    + apply eqb_eq in E'. subst k0. now destruct (eqb k k').
    + destruct (eqb k k0) eqn:E0.
      * apply eqb_eq in E0. subst k0.
        destruct (eqb k k') eqn:E1; [|reflexivity].
        apply eqb_eq in E1. subst k'.
        rewrite (proj2 (eqb_eq k k) eq_refl) in E'. discriminate.
      * exact IH.
Qed.

Lemma find_app {A} (f : A -> bool) (xs ys : list A) :
  find f (xs ++ ys) =
  match find f xs with Some x => Some x | None => find f ys end.
Proof.
  induction xs as [|x xs IH]; simpl; [reflexivity|]. now destruct (f x).
Qed.

Lemma dict_get_fold (k : K) (kvs : list (K * V)) (d : dict K V) :
  dict_get eqb k (fold_left (fun d kv => dict_set eqb (fst kv) (snd kv) d) kvs d) =
  match find (fun kv => eqb k (fst kv)) (rev kvs) with
  | Some kv => Some (snd kv)
  | None => dict_get eqb k d
  end.
Proof.
  revert d. induction kvs as [|kv kvs IH]; intros d; simpl.
  - reflexivity.
  - rewrite IH, find_app. simpl.
    destruct (find (fun kv0 => eqb k (fst kv0)) (rev kvs)); [reflexivity|].
    rewrite dict_get_set. now destruct (eqb k (fst kv)).
Qed.

(** Looking a key up in a comprehension finds the last element that has
    the key. *)
Lemma dict_get_of (k : K) (kvs : list (K * V)) :
  dict_get eqb k (dict_of eqb kvs) =
  option_map snd (find (fun kv => eqb k (fst kv)) (rev kvs)).
Proof.
  unfold dict_of. rewrite dict_get_fold.
  now destruct (find (fun kv => eqb k (fst kv)) (rev kvs)).
Qed.

Lemma dict_set_In (k k0 : K) (v v0 : V) (d : dict K V) :
  In (k0, v0) (dict_set eqb k v d) -> In (k0, v0) d \/ (k0 = k /\ v0 = v).
Proof.
  induction d as [|[k1 v1] d IH]; simpl.
  - intros [H | []]. inversion H. auto.
  - destruct (eqb k k1) eqn:E; simpl.
    + apply eqb_eq in E. subst k1.
      intros [H | H]; [inversion H; auto | auto].
    + intros [H | H]; [auto | destruct (IH H); auto].
Qed.

Lemma dict_set_keys (k k0 : K) (v : V) (d : dict K V) :
  In k0 (dict_keys d) \/ k0 = k -> In k0 (dict_keys (dict_set eqb k v d)).
Proof.
  unfold dict_keys. induction d as [|[k1 v1] d IH]; simpl.
  - intros [[] | ->]. auto.
  - destruct (eqb k k1) eqn:E; simpl.
    + apply eqb_eq in E. subst k1. intros [[H | H] | H]; auto.
    + intros [[H | H] | H]; auto.
Qed.

Lemma dict_fold_In (kvs : list (K * V)) (d : dict K V) (k0 : K) (v0 : V) :
  In (k0, v0) (fold_left (fun d kv => dict_set eqb (fst kv) (snd kv) d) kvs d) ->
  In (k0, v0) d \/ In (k0, v0) kvs.
Proof.
  revert d. induction kvs as [|[k v] kvs IH]; intros d; simpl; [auto|].
  intros H. destruct (IH _ H) as [H' | H']; [|auto].
  apply dict_set_In in H'. destruct H' as [? | [-> ->]]; auto.
Qed.

Lemma dict_fold_keys (kvs : list (K * V)) (d : dict K V) (k0 : K) :
  In k0 (dict_keys d) \/ In k0 (map fst kvs) ->
  In k0 (dict_keys (fold_left (fun d kv => dict_set eqb (fst kv) (snd kv) d) kvs d)).
Proof.
  revert d. induction kvs as [|[k v] kvs IH]; intros d; simpl.
  - intros [H | []]. exact H.
  - intros H. apply IH.
    destruct H as [H | [H | H]]; [left | left | right; exact H];
      apply dict_set_keys; auto.
Qed.

(** An entry of a comprehension comes from the list it is built from. *)
Lemma dict_of_In (kvs : list (K * V)) (k0 : K) (v0 : V) :
  In (k0, v0) (dict_of eqb kvs) -> In (k0, v0) kvs.
Proof. intros H. apply dict_fold_In in H. destruct H as [[] | H']. exact H'. Qed.

(** Every key of the list is a key of the comprehension. *)
Lemma dict_of_keys (kvs : list (K * V)) (k0 : K) :
  In k0 (map fst kvs) -> In k0 (dict_keys (dict_of eqb kvs)).
Proof. intros H. apply dict_fold_keys. auto. Qed.

Lemma dict_get_Some_In (k : K) (v : V) (d : dict K V) :
  dict_get eqb k d = Some v -> In (k, v) d.
Proof.
  induction d as [|[k1 v1] d IH]; simpl; [discriminate|].
  destruct (eqb k k1) eqn:E.
  - apply eqb_eq in E. subst k1. intros H. inversion H. auto.
  - auto.
Qed.

Lemma dict_mem_false (k : K) (kvs : list (K * V)) :
  ~ In k (map fst kvs) -> dict_mem eqb k (dict_of eqb kvs) = false.
Proof.
  intros Hk. unfold dict_mem.
  destruct (dict_get eqb k (dict_of eqb kvs)) as [v|] eqn:E; [|reflexivity].
  exfalso. apply Hk. apply dict_get_Some_In, dict_of_In in E.
  apply (in_map fst) in E. exact E.
Qed.

Lemma dict_set_keys_inv (k k0 : K) (v : V) (d : dict K V) :
  In k0 (dict_keys (dict_set eqb k v d)) -> In k0 (dict_keys d) \/ k0 = k.
Proof.
  unfold dict_keys. induction d as [|[k1 v1] d IH]; simpl.
  - intros [<-|[]]. auto.
  - destruct (eqb k k1) eqn:E; simpl.
    + auto.
    + intros [H|H]; [auto|]. destruct (IH H); auto.
Qed.

Lemma dict_set_NoDup (k : K) (v : V) (d : dict K V) :
  NoDup (dict_keys d) -> NoDup (dict_keys (dict_set eqb k v d)).
Proof.
  induction d as [|[k1 v1] d IH]; simpl.
  - intros _. constructor; [intros [] | constructor].
  - intros Hd. inversion Hd as [|? ? Hk1 Hrest]; subst.
    destruct (eqb k k1) eqn:E; simpl.
    + constructor; assumption.
    + constructor; [|apply IH; exact Hrest].
      intros Hin. apply dict_set_keys_inv in Hin. destruct Hin as [Hin|Heq].
      * exact (Hk1 Hin).
      * subst k1. rewrite (proj2 (eqb_eq k k) eq_refl) in E. discriminate.
Qed.

(** The keys of a comprehension are all different. *)
Lemma dict_of_NoDup (kvs : list (K * V)) : NoDup (dict_keys (dict_of eqb kvs)).
Proof.
  unfold dict_of.
  assert (H : forall d, NoDup (dict_keys d) ->
              NoDup (dict_keys (fold_left (fun d kv => dict_set eqb (fst kv) (snd kv) d)
                                  kvs d))).
  { induction kvs as [|kv kvs IH]; intros d Hd; simpl; [exact Hd|].
    apply IH, dict_set_NoDup, Hd. }
  apply H. constructor.
Qed.

(** A key of the list is found in the comprehension, with a value the
    list gives it. *)
Lemma dict_get_present (k : K) (kvs : list (K * V)) :
  In k (map fst kvs) ->
  exists v, dict_get eqb k (dict_of eqb kvs) = Some v /\ In (k, v) kvs.
Proof.
  intros Hk. rewrite dict_get_of.
  destruct (find (fun kv => eqb k (fst kv)) (rev kvs)) as [[k' v]|] eqn:Hfind.
  - apply find_some in Hfind. destruct Hfind as [Hin Heq]. simpl in Heq.
    apply eqb_eq in Heq. subst k'.
    exists v. split; [reflexivity|]. apply in_rev. exact Hin.
  - exfalso. apply in_map_iff in Hk. destruct Hk as ([k' v] & Hfst & Hin).
    simpl in Hfst. subst k'.
    pose proof (find_none _ _ Hfind (k, v) (proj1 (in_rev kvs (k, v)) Hin)) as Hnone.
    simpl in Hnone. rewrite (proj2 (eqb_eq k k) eq_refl) in Hnone. discriminate.
Qed.
End DictFacts.

Lemma InstanceID_eqb_eq (a b : InstanceID.t) : InstanceID.eqb a b = true <-> a = b.
Proof.
  destruct a as [n r], b as [n' r']. unfold InstanceID.eqb. simpl.
  rewrite andb_true_iff, String.eqb_eq, Bool.eqb_true_iff.
  split; [intros [-> ->]; reflexivity | intros H; inversion H; auto].
Qed.

Module CallsFacts.
Import RunnerManager Calls.

Lemma github_deletions_app (a b : list Event) :
  github_deletions (a ++ b) = github_deletions a ++ github_deletions b.
Proof.
  induction a as [|ev a IH]; simpl; [reflexivity|].
  destruct ev; simpl; now rewrite ?IH.
Qed.

Lemma cloud_deletions_app (a b : list Event) :
  cloud_deletions (a ++ b) = cloud_deletions a ++ cloud_deletions b.
Proof.
  induction a as [|ev a IH]; simpl; [reflexivity|].
  destruct ev; simpl; now rewrite ?IH.
Qed.

Lemma removal_tokens_app (a b : list Event) :
  removal_tokens (a ++ b) = removal_tokens a ++ removal_tokens b.
Proof.
  induction a as [|ev a IH]; simpl; [reflexivity|].
  destruct ev; simpl; now rewrite ?IH.
Qed.

(** Metrics calls and log records are none of the calls above. *)
Lemma metrics_calls_silent (tr : list Event) :
  forallb is_metrics_call tr = true ->
  github_deletions tr = [] /\ cloud_deletions tr = [] /\ removal_tokens tr = [].
Proof.
  induction tr as [|ev tr IH]; simpl; [auto|].
  rewrite andb_true_iff. intros [Hev Htr].
  destruct ev; simpl in Hev; try discriminate; auto.
Qed.

Lemma reads_silent (tr : list Event) :
  forallb (fun ev => is_read ev || is_log ev) tr = true ->
  github_deletions tr = [] /\ cloud_deletions tr = [] /\ removal_tokens tr = [].
Proof.
  induction tr as [|ev tr IH]; simpl; [auto|].
  rewrite andb_true_iff. intros [Hev Htr].
  destruct ev; simpl in Hev; try discriminate; auto.
Qed.
End CallsFacts.

Section EngineFacts.
Import RunnerManager Calls CallsFacts.
Context {S : Type} {github : GitHubRunnerManager S} {cloud : CloudRunnerManager S}
        {platform : Platform S}.
Variable self : RunnerManager.t.

(** [get_runners] makes the two read calls, in this order, and writes
    log records; it makes no other call. *)
Lemma get_runners_only_reads gs cs (s : S) :
  forallb (fun ev => is_read ev || is_log ev) (trace (get_runners gs cs s)) = true.
Proof.
  unfold get_runners.
  rewrite trace_bind, run_call. simpl.
  destruct (fst (gh_get_runners gs s)) as [ghs|e]; simpl; [|reflexivity].
  rewrite trace_bind, run_call. simpl.
  destruct (fst (cl_get_runners cs (snd (gh_get_runners gs s)))) as [cls|e];
    simpl; [|reflexivity].
  rewrite !trace_bind.
  do 2 match goal with |- context [when (nonempty ?x)] => destruct (nonempty x) end;
    reflexivity.
Qed.

(** Issuing metrics calls the metrics modules and nothing else. *)
Lemma _issue_runner_metrics_loop_calls metrics total_stats (s : S) :
  forallb is_metrics_call (trace (_issue_runner_metrics_loop self metrics total_stats s))
  = true.
Proof.
  revert total_stats s.
  induction metrics as [|m metrics IH]; intros total_stats s; simpl; [reflexivity|].
  rewrite trace_bind, forallb_app.
  apply andb_true_iff; split.
  - destruct (RunnerMetrics.pre_job m) as [pre_job|]; [|reflexivity].
    rewrite trace_try_except, trace_bind, outcome_bind, run_call. simpl.
    destruct (fst (job pre_job _ s)) as [j|e]; simpl; [reflexivity|].
    destruct (issubclass e GithubMetricsError); simpl; reflexivity.
  - match goal with |- context [outcome ?r] => destruct (outcome r) as [job_metrics|e] end;
      [|reflexivity].
    rewrite trace_bind, forallb_app, run_call. simpl.
    match goal with |- context [fst ?r] => destruct (fst r) as [issued|e] end;
      [apply IH | reflexivity].
Qed.

Lemma _issue_runner_metrics_calls metrics (s : S) :
  forallb is_metrics_call (trace (_issue_runner_metrics self metrics s)) = true.
Proof. apply _issue_runner_metrics_loop_calls. Qed.

(** The dictionary [cleanup] builds finds the matching cloud instance. *)
Lemma cloud_instances_map_get (cloud_instances : list RunnerInstance.t) id :
  dict_get InstanceID.eqb id
    (dict_of InstanceID.eqb
       (map (fun c => (RunnerInstance.instance_id c, c)) cloud_instances))
  = Spec.matching_cloud_instance cloud_instances id.
Proof.
  rewrite (dict_get_of _ InstanceID_eqb_eq). unfold Spec.matching_cloud_instance.
  rewrite <- map_rev.
  induction (rev cloud_instances) as [|c cs IH]; simpl; [reflexivity|].
  destruct (InstanceID.eqb id (RunnerInstance.instance_id c)); [reflexivity | exact IH].
Qed.

(** The loop marks what the specification marks. *)
Lemma offline_runners_loop_marks cloud_instances github_runners_offline to_delete :
  offline_runners_loop
    (dict_of InstanceID.eqb
       (map (fun c => (RunnerInstance.instance_id c, c)) cloud_instances))
    github_runners_offline to_delete
  = to_delete ++ filter (Spec.marked_for_deletion cloud_instances) github_runners_offline.
Proof.
  revert to_delete.
  induction github_runners_offline as [|r rest IH]; intros to_delete; simpl.
  - now rewrite app_nil_r.
  - unfold Spec.marked_for_deletion at 1, dict_mem.
    rewrite cloud_instances_map_get.
    destruct (InstanceID.reactive (SelfHostedRunner.instance_id r)); simpl.
    + destruct (Spec.matching_cloud_instance cloud_instances
                  (SelfHostedRunner.instance_id r)) as [c|]; simpl; [|apply IH].
      destruct (RunnerInstance.cloud_state c), (RunnerInstance.health c); simpl;
        rewrite IH, <- ?app_assoc; reflexivity.
    + rewrite IH, <- app_assoc. reflexivity.
Qed.

Lemma marked_for_deletion_iff cloud_instances r :
  Spec.marked_for_deletion cloud_instances r = true <->
  InstanceID.reactive (SelfHostedRunner.instance_id r) = false \/
  exists c,
    Spec.matching_cloud_instance cloud_instances (SelfHostedRunner.instance_id r) = Some c
    /\ RunnerInstance.cloud_state c <> CREATED
    /\ ~ (RunnerInstance.cloud_state c = ACTIVE /\ RunnerInstance.health c = HEALTHY).
Proof.
  unfold Spec.marked_for_deletion.
  destruct (InstanceID.reactive (SelfHostedRunner.instance_id r)).
  - destruct (Spec.matching_cloud_instance cloud_instances
                (SelfHostedRunner.instance_id r)) as [c|].
    + split.
      * intros H. right. exists c. split; [reflexivity|].
        destruct (RunnerInstance.cloud_state c), (RunnerInstance.health c);
          try discriminate; split; try discriminate; intros [? ?]; discriminate.
      * intros [H | (c' & Hc & Hcreated & Hactive)]; [discriminate|].
        injection Hc as <-.
        destruct (RunnerInstance.cloud_state c), (RunnerInstance.health c);
          try reflexivity; try (exfalso; apply Hcreated; reflexivity);
          exfalso; apply Hactive; split; reflexivity.
    + split; [discriminate|].
      intros [H | (c' & Hc & _)]; discriminate.
  - split; auto.
Qed.

Lemma _cleanup_github_offline_runners_run (s s' : S) cloud_instances github_runners_offline :
  outcome (get_runners None None s) = Ok cloud_instances ->
  gh_get_runners (Some [OFFLINE]) (final (get_runners None None s))
    = (Ok github_runners_offline, s') ->
  let to_delete :=
    filter (Spec.marked_for_deletion cloud_instances) github_runners_offline in
  _cleanup_github_offline_runners s =
  Run (fst (gh_delete_runners to_delete s')) (snd (gh_delete_runners to_delete s'))
    (trace (get_runners None None s)
     ++ [github_get_runners (Some [OFFLINE]) (Ok github_runners_offline);
         github_delete_runners to_delete (fst (gh_delete_runners to_delete s'))]).
Proof.
  intros Hrunners Hoffline to_delete.
  unfold _cleanup_github_offline_runners.
  rewrite (bind_ok _ _ _ _ Hrunners), (bind_call_ok _ _ _ _ _ _ Hoffline), run_call.
  rewrite offline_runners_loop_marks. reflexivity.
Qed.

(** C1.  The offline reconciliation of [cleanup()] hands the coordination
    service exactly one list of registrations to delete, and no other
    deletion happens there during the pass: of the offline registrations
    it holds every non-reactive one and, of the reactive ones, exactly
    those whose matching cloud instance exists and is neither created nor
    active and healthy. *)
Theorem cleanup_deletes_marked_offline_runners
    (s s' : S) cloud_instances github_runners_offline :
  outcome (get_runners None None s) = Ok cloud_instances ->
  gh_get_runners (Some [OFFLINE]) (final (get_runners None None s))
    = (Ok github_runners_offline, s') ->
  exists deleted,
    github_deletions (trace (cleanup self s)) = [deleted]
    /\ deleted = filter (Spec.marked_for_deletion cloud_instances) github_runners_offline
    /\ forall r,
         In r deleted <->
         In r github_runners_offline /\
         (InstanceID.reactive (SelfHostedRunner.instance_id r) = false \/
          exists c,
            Spec.matching_cloud_instance cloud_instances (SelfHostedRunner.instance_id r)
              = Some c
            /\ RunnerInstance.cloud_state c <> CREATED
            /\ ~ (RunnerInstance.cloud_state c = ACTIVE
                  /\ RunnerInstance.health c = HEALTHY)).
Proof.
  intros Hrunners Hoffline.
  exists (filter (Spec.marked_for_deletion cloud_instances) github_runners_offline).
  split; [|split; [reflexivity|]].
  - unfold cleanup. rewrite trace_bind.
    rewrite (_cleanup_github_offline_runners_run _ _ _ _ Hrunners Hoffline).
    cbv beta zeta. unfold trace at 1, outcome at 1, final at 1.
    rewrite !github_deletions_app.
    rewrite (proj1 (reads_silent _ (get_runners_only_reads None None s))).
    simpl. f_equal.
    match goal with |- context [fst ?r] => destruct r as [[[]|e] s2] end;
      [|reflexivity].
    simpl. rewrite trace_bind, github_deletions_app, run_call. simpl.
    match goal with |- context [fst ?r] => destruct r as [[token|e] s3] end;
      [|reflexivity].
    simpl. rewrite trace_bind, github_deletions_app, run_call. simpl.
    match goal with |- context [fst ?r] => destruct r as [[metrics|e] s4] end;
      [|reflexivity].
    apply (metrics_calls_silent _ (_issue_runner_metrics_calls _ _)).
  - intros r. rewrite filter_In, marked_for_deletion_iff. reflexivity.
Qed.

(** What [get_runners()] logs after its two reads. *)
Lemma get_runners_run gs cs (s s1 s2 : S) github_infos cloud_infos :
  gh_get_runners gs s = (Ok github_infos, s1) ->
  cl_get_runners cs s1 = (Ok cloud_infos, s2) ->
  exists logs,
    get_runners gs cs s =
    Run
      (Ok (filter_github_states gs
             (filter_cloud_states cs
                (runner_instances_of (cloud_infos_map_of cloud_infos)
                   (github_infos_map_of github_infos)))))
      s2
      (github_get_runners gs (Ok github_infos) :: cloud_get_runners cs (Ok cloud_infos)
         :: logs)
    /\ forallb is_log logs = true
    /\ forall name,
         In name
           (names_minus (dict_keys (cloud_infos_map_of cloud_infos))
              (names_in (dict_keys (cloud_infos_map_of cloud_infos))
                 (dict_keys (github_infos_map_of github_infos)))) ->
         exists names, In (log (warning cloud_only_message names)) logs /\ In name names.
Proof.
  intros Hgh Hcl. unfold get_runners.
  rewrite (bind_call_ok _ _ _ _ _ _ Hgh), (bind_call_ok _ _ _ _ _ _ Hcl).
  set (co := names_minus (dict_keys (cloud_infos_map_of cloud_infos)) _).
  set (go := names_minus (dict_keys (github_infos_map_of github_infos)) _).
  destruct co as [|n co]; destruct go as [|n' go]; simpl;
    eexists; (split; [reflexivity|]); (split; [reflexivity|]);
    intros name Hname; try contradiction;
    eexists; (split; [left; reflexivity | exact Hname]).
Qed.

(** C2.  [get_runners()] makes its two read calls and no other call.
    For every cloud instance whose name no registration of the
    coordination service has, the result holds a runner of that name
    with [github_state = None]; its instance ID, health and cloud state
    are those of the cloud instance of that name the listing holds (of
    this very instance, when no other instance of the listing carries
    its name); and the name is in the warning about runners found on the
    cloud only. *)
Theorem get_runners_keeps_cloud_only_instances
    (s s1 s2 : S) github_infos cloud_infos :
  gh_get_runners None s = (Ok github_infos, s1) ->
  cl_get_runners None s1 = (Ok cloud_infos, s2) ->
  exists runners logs,
    get_runners None None s =
    Run (Ok runners) s2
      (github_get_runners None (Ok github_infos) :: cloud_get_runners None (Ok cloud_infos)
         :: logs)
    /\ forallb is_log logs = true
    /\ forall c,
         In c cloud_infos ->
         (forall g, In g github_infos ->
                    InstanceID.name (SelfHostedRunner.instance_id g)
                    <> CloudRunnerInstance.name c) ->
         (exists r,
            In r runners
            /\ RunnerInstance.name r = CloudRunnerInstance.name c
            /\ RunnerInstance.github_state r = None
            /\ (exists c',
                  In c' cloud_infos
                  /\ CloudRunnerInstance.name c' = CloudRunnerInstance.name c
                  /\ RunnerInstance.instance_id r = CloudRunnerInstance.instance_id c'
                  /\ RunnerInstance.health r = CloudRunnerInstance.health c'
                  /\ RunnerInstance.cloud_state r = CloudRunnerInstance.state c')
            /\ ((forall c', In c' cloud_infos ->
                            CloudRunnerInstance.name c' = CloudRunnerInstance.name c ->
                            c' = c) ->
                RunnerInstance.instance_id r = CloudRunnerInstance.instance_id c
                /\ RunnerInstance.health r = CloudRunnerInstance.health c
                /\ RunnerInstance.cloud_state r = CloudRunnerInstance.state c))
         /\ exists names,
              In (log (warning cloud_only_message names)) logs
              /\ In (CloudRunnerInstance.name c) names.
Proof.
  intros Hgh Hcl.
  destruct (get_runners_run None None s _ _ _ _ Hgh Hcl) as (logs & Hrun & Hlogs & Hwarn).
  simpl in Hrun. eexists. exists logs. split; [exact Hrun|]. split; [exact Hlogs|].
  intros c Hc Habsent.
  assert (Hkey : In (CloudRunnerInstance.name c) (dict_keys (cloud_infos_map_of cloud_infos))).
  { apply (dict_of_keys _ String.eqb_eq). rewrite map_map. simpl.
    apply (in_map CloudRunnerInstance.name) in Hc. exact Hc. }
  assert (Hnot : ~ In (CloudRunnerInstance.name c)
                   (map fst
                      (map (fun info =>
                              (InstanceID.name (SelfHostedRunner.instance_id info), info))
                         github_infos))).
  { rewrite map_map. simpl. intros Hin. apply in_map_iff in Hin.
    destruct Hin as (g & Hname & Hg). exact (Habsent g Hg Hname). }
  split.
  - unfold dict_keys in Hkey. apply in_map_iff in Hkey.
    destruct Hkey as ([k c'] & Hk & Hentry). simpl in Hk. subst k.
    pose proof (dict_of_In _ String.eqb_eq _ _ _ Hentry) as Hsrc.
    apply in_map_iff in Hsrc. destruct Hsrc as (c0 & Heq & Hc0).
    injection Heq as Hname Hc'. subst c0.
    exists (RunnerInstance__init__ c' None).
    split; [|split; [exact Hname|split; [reflexivity|split]]].
    + unfold runner_instances_of. apply in_map_iff.
      exists (CloudRunnerInstance.name c, c'). split; [|exact Hentry].
      simpl. unfold github_infos_map_of.
      rewrite (dict_mem_false _ String.eqb_eq _ _ Hnot). reflexivity.
    + exists c'. repeat split; auto.
    + intros Honly. rewrite <- (Honly c' Hc0 Hname). repeat split.
  - apply Hwarn. unfold names_minus, names_in.
    apply filter_In. split; [exact Hkey|].
    apply negb_true_iff. apply not_true_iff_false. intros Hex.
    apply existsb_exists in Hex. destruct Hex as (k & Hk & Heq).
    apply String.eqb_eq in Heq. subst k.
    apply filter_In in Hk. destruct Hk as [_ Hk].
    apply existsb_exists in Hk. destruct Hk as (k & Hk & Heq).
    apply String.eqb_eq in Heq. subst k.
    unfold dict_keys in Hk. apply in_map_iff in Hk.
    destruct Hk as ([k g] & Hfst & Hentry). simpl in Hfst. subst k.
    apply (dict_of_In _ String.eqb_eq) in Hentry.
    apply Hnot. apply (in_map fst) in Hentry. exact Hentry.
Qed.

(** The loop over the pool's iterator keeps the successes, logs the
    runner errors and raises nothing. *)
Lemma collect_jobs_run (jobs : list (result InstanceID.t)) :
  forall (n : nat) (instance_id_list : list InstanceID.t) (s : S),
    List.length jobs <= n ->
    Forall SpecCreate.fails_with_runner_error jobs ->
    collect_jobs n jobs instance_id_list s =
    Run (Ok (instance_id_list ++ SpecCreate.successes jobs)) s
      (map (fun e => log (exception spawn_failed_message e)) (SpecCreate.failures jobs)).
Proof.
  induction jobs as [|j jobs IH]; intros n acc s Hlen Hjobs.
  - destruct n; simpl; now rewrite app_nil_r.
  - destruct n as [|n]; [simpl in Hlen; lia|].
    simpl in Hlen. inversion Hjobs as [|? ? Hj Hrest]; subst.
    destruct j as [id|e]; simpl.
    + rewrite IH by (auto; lia). now rewrite <- app_assoc.
    + simpl in Hj. rewrite Hj, bind_emit, IH by (auto; lia). reflexivity.
Qed.

Lemma successes_length (jobs : list (result InstanceID.t)) :
  List.length (SpecCreate.successes jobs) = SpecCreate.succeeded jobs.
Proof.
  unfold SpecCreate.succeeded.
  induction jobs as [|[id|e] jobs IH]; simpl; auto.
Qed.

Lemma repeat_not_single {A} (a : A) (n : nat) :
  1 < n -> exists x y rest, repeat a n = x :: y :: rest.
Proof.
  intros Hn. destruct n as [|[|n]]; try lia. simpl. eauto.
Qed.

(** C3.  A batch of more than one creation job goes to the pool; whatever
    jobs fail with a runner error, [create_runners] returns the instance
    IDs of the jobs that succeeded, as many as succeeded, logs each
    failure and raises nothing. *)
Theorem create_runners_returns_the_successes
    (num : Z) (reactive : bool) (s s' : S) (jobs : list (result InstanceID.t)) :
  (1 < num)%Z ->
  imap_unordered (Nat.min (Z.to_nat num) 10)
    (repeat (_CreateRunnerArgs.Build (_labels self ++ GITHUB_DEFAULT_LABELS) reactive)
       (Z.to_nat num)) s
  = (Ok jobs, s') ->
  List.length jobs = Z.to_nat num ->
  Forall SpecCreate.fails_with_runner_error jobs ->
  exists created logs,
    outcome (create_runners self num reactive s) = Ok created
    /\ created = SpecCreate.successes jobs
    /\ List.length created = SpecCreate.succeeded jobs
    /\ (forall id, In id created <-> In (Ok id) jobs)
    /\ trace (create_runners self num reactive s) =
       pool_imap_unordered (Nat.min (Z.to_nat num) 10)
         (repeat (_CreateRunnerArgs.Build (_labels self ++ GITHUB_DEFAULT_LABELS) reactive)
            (Z.to_nat num))
         (Ok jobs) :: logs
    /\ logs = map (fun e => log (exception spawn_failed_message e))
                (SpecCreate.failures jobs).
Proof.
  intros Hnum Hpool Hlen Hjobs.
  exists (SpecCreate.successes jobs),
    (map (fun e => log (exception spawn_failed_message e)) (SpecCreate.failures jobs)).
  assert (Hn : 1 < Z.to_nat num) by lia.
  assert (Hrun :
    create_runners self num reactive s =
    Run (Ok (SpecCreate.successes jobs)) s'
      (pool_imap_unordered (Nat.min (Z.to_nat num) 10)
         (repeat (_CreateRunnerArgs.Build (_labels self ++ GITHUB_DEFAULT_LABELS) reactive)
            (Z.to_nat num))
         (Ok jobs)
       :: map (fun e => log (exception spawn_failed_message e))
            (SpecCreate.failures jobs))).
  { unfold create_runners, _spawn_runners.
    destruct (repeat_not_single
                (_CreateRunnerArgs.Build (_labels self ++ GITHUB_DEFAULT_LABELS) reactive)
                _ Hn)
      as (x & y & rest & Hrepeat).
    revert Hpool. rewrite Hrepeat. intros Hpool.
    unfold _spawn_runners_using_multiprocessing.
    rewrite <- Hrepeat, repeat_length.
    destruct (Nat.ltb_spec (Nat.min (Z.to_nat num) 10) 1) as [Hlt|_]; [lia|].
    rewrite Hrepeat in *.
    rewrite (bind_call_ok _ _ _ _ _ _ Hpool), collect_jobs_run by (auto; lia).
    reflexivity. }
  rewrite Hrun. simpl.
  repeat split; auto using successes_length.
  - unfold SpecCreate.successes. intros Hin. apply in_flat_map in Hin.
    destruct Hin as ([id'|e] & Hj & Hid); simpl in Hid; [|contradiction].
    destruct Hid as [<-|[]]. exact Hj.
  - unfold SpecCreate.successes. intros Hin. apply in_flat_map.
    exists (Ok id). simpl. auto.
Qed.

(** One creation job never touches the pool. *)
Lemma _create_runner_no_pool args (s : S) :
  existsb SpecCreate.is_pool_call (trace (_create_runner args s)) = false.
Proof.
  unfold _create_runner.
  rewrite trace_bind, run_call, existsb_app. simpl.
  match goal with |- context [fst ?r] => destruct r as [[id|e] s1] end; [|reflexivity].
  simpl. rewrite trace_bind, run_call, existsb_app. simpl.
  match goal with |- context [fst ?r] => destruct r as [[[tok runner]|e] s2] end;
    [|reflexivity].
  simpl. rewrite trace_bind, trace_try_except, outcome_try_except, !run_call.
  rewrite !existsb_app. simpl.
  match goal with |- context [fst ?r] => destruct r as [[[]|e] s3] end; [reflexivity|].
  simpl. destruct (issubclass e RunnerError); simpl; [|reflexivity].
  rewrite trace_bind, outcome_bind, run_call. simpl.
  match goal with |- context [fst ?r] => destruct r as [[[]|e'] s4] end; reflexivity.
Qed.

(** C4, as the code has it.  A batch of exactly one job runs inline: the
    calls of [_create_runner] are the caller's own and the pool is not
    used.  A runner error of the job is caught and logged and the empty
    tuple is returned; any other error propagates. *)
Theorem create_single_runner_inline (reactive : bool) (s : S) :
  let args := _CreateRunnerArgs.Build (_labels self ++ GITHUB_DEFAULT_LABELS) reactive in
  let job := _create_runner args s in
  create_runners self 1 reactive s =
  match outcome job with
  | Ok instance_id => Run (Ok [instance_id]) (final job) (trace job)
  | Raise e =>
      if issubclass e RunnerError
      then Run (Ok []) (final job) (trace job ++ [log (exception spawn_failed_message e)])
      else Run (Raise e) (final job) (trace job)
  end
  /\ existsb SpecCreate.is_pool_call (trace (create_runners self 1 reactive s)) = false.
Proof.
  intros args job.
  assert (Hrun :
    create_runners self 1 reactive s =
    match outcome job with
    | Ok instance_id => Run (Ok [instance_id]) (final job) (trace job)
    | Raise e =>
        if issubclass e RunnerError
        then Run (Ok []) (final job) (trace job ++ [log (exception spawn_failed_message e)])
        else Run (Raise e) (final job) (trace job)
    end).
  { unfold create_runners. change (Z.to_nat 1) with 1. simpl repeat.
    fold args. unfold _spawn_runners.
    destruct (outcome job) as [instance_id|e] eqn:Hjob; subst job.
    - rewrite try_except_ok with (a := [instance_id]).
      + rewrite (bind_ok _ _ _ _ Hjob). unfold after, ret. simpl. now rewrite app_nil_r.
      + rewrite (bind_ok _ _ _ _ Hjob). reflexivity.
    - destruct (issubclass e RunnerError) eqn:Hcls.
      + erewrite try_except_caught;
          [| rewrite (bind_raise _ _ _ _ Hjob); reflexivity
           | simpl; rewrite Hcls; reflexivity].
        rewrite (bind_raise _ _ _ _ Hjob). reflexivity.
      + rewrite try_except_uncaught with (e := e).
        * rewrite (bind_raise _ _ _ _ Hjob). reflexivity.
        * rewrite (bind_raise _ _ _ _ Hjob). reflexivity.
        * simpl. rewrite Hcls. reflexivity. }
  split; [exact Hrun|].
  rewrite Hrun. pose proof (_create_runner_no_pool args s) as Hpool. fold job in Hpool.
  destruct (outcome job) as [instance_id|e]; simpl; [exact Hpool|].
  destruct (issubclass e RunnerError); simpl; [|exact Hpool].
  rewrite existsb_app, Hpool. reflexivity.
Qed.

(** C10.  When the cloud fails a creation with a runner error after the
    runner was registered, [_create_runner] asks the coordination service
    to delete the registration it has just got, and only then raises: the
    deletion is the last call of the job. *)
Theorem failed_creation_deletes_its_registration
    (args : _CreateRunnerArgs.t) (s s1 s2 s3 : S) instance_id registration_jittoken
    github_runner e :
  build name_prefix (_CreateRunnerArgs.reactive args) s = (Ok instance_id, s1) ->
  gh_get_registration_jittoken instance_id (_CreateRunnerArgs.labels args) s1
    = (Ok (registration_jittoken, github_runner), s2) ->
  cl_create_runner instance_id registration_jittoken s2 = (Raise e, s3) ->
  issubclass e RunnerError = true ->
  let deletion := gh_delete_runners [github_runner] s3 in
  _create_runner args s =
  Run (match fst deletion with Ok _ => Raise e | Raise e' => Raise e' end)
    (snd deletion)
    [InstanceID_build name_prefix (_CreateRunnerArgs.reactive args) (Ok instance_id);
     github_get_registration_jittoken instance_id (_CreateRunnerArgs.labels args)
       (Ok (registration_jittoken, github_runner));
     cloud_create_runner instance_id registration_jittoken (Raise e);
     github_delete_runners [github_runner] (fst deletion)].
Proof.
  intros Hbuild Hregister Hcreate Hcls deletion.
  unfold _create_runner.
  rewrite (bind_call_ok _ _ _ _ _ _ Hbuild), (bind_call_ok _ _ _ _ _ _ Hregister).
  cbn [fst snd].
  unfold bind at 1.
  erewrite try_except_caught;
    [| rewrite (call_ok _ _ _ _ _ Hcreate); reflexivity
     | simpl; rewrite Hcls; reflexivity].
  rewrite (call_ok _ _ _ _ _ Hcreate). cbn [outcome final trace].
  unfold bind, call. fold deletion.
  destruct deletion as [[[]|e'] s4]; reflexivity.
Qed.


(** A deletion loop that completes has deleted every runner it was
    given, one call each, in the order given, with the one token. *)
Lemma _delete_runners_loop_calls (runners : list RunnerInstance.t) (remove_token : string) :
  forall (runner_metrics_list : list RunnerMetrics.t) (s : S),
    is_ok (outcome (_delete_runners_loop runners remove_token runner_metrics_list s)) = true ->
    Forall2
      (fun runner ev =>
         exists r,
           ev = cloud_delete_runner (RunnerInstance.instance_id runner) remove_token r)
      runners
      (trace (_delete_runners_loop runners remove_token runner_metrics_list s)).
Proof.
  induction runners as [|runner rest IH]; intros acc s Hok; simpl.
  - constructor.
  - simpl in Hok. revert Hok.
    destruct (cl_delete_runner (RunnerInstance.instance_id runner) remove_token s)
      as [[metrics|e] s1] eqn:Hdel.
    + rewrite (bind_call_ok _ _ _ _ _ _ Hdel). simpl.
      destruct metrics as [metrics|]; intros Hok;
        (constructor; [eexists; reflexivity | apply IH; exact Hok]).
    + rewrite (bind_call_raise _ _ _ _ _ _ Hdel). simpl. discriminate.
Qed.

Lemma Forall2_cloud_deletions (runners : list RunnerInstance.t) remove_token tr :
  Forall2
    (fun runner ev =>
       exists r, ev = cloud_delete_runner (RunnerInstance.instance_id runner) remove_token r)
    runners tr ->
  cloud_deletions tr = map (fun runner => (RunnerInstance.instance_id runner, remove_token)) runners
  /\ removal_tokens tr = [] /\ github_deletions tr = [].
Proof.
  induction 1 as [|runner ev runners tr [r ->] _ (IH1 & IH2 & IH3)]; simpl; auto.
  rewrite IH1. auto.
Qed.


(** C9.  [flush_runners] obtains one removal token and hands it to the
    cloud runner manager's flush together with the flag "include busy",
    which is false for [FLUSH_IDLE] and true for [FLUSH_BUSY]; every
    other call it makes is a metrics call (it neither lists nor deletes
    runners itself). *)
Theorem flush_runners_delegates (flush_mode : FlushMode) (s s1 : S) remove_token :
  gh_get_removal_token s = (Ok remove_token, s1) ->
  let busy := match flush_mode with FLUSH_IDLE => false | FLUSH_BUSY => true end in
  exists metrics_calls,
    trace (flush_runners self flush_mode s) =
    github_get_removal_token (Ok remove_token)
    :: cloud_flush_runners remove_token busy (fst (cl_flush_runners remove_token busy s1))
    :: metrics_calls
    /\ forallb is_metrics_call metrics_calls = true
    /\ removal_tokens (trace (flush_runners self flush_mode s)) = [Ok remove_token].
Proof.
  intros Htoken busy.
  assert (Hbusy : (if FlushMode_eqb flush_mode FLUSH_BUSY then true else false) = busy)
    by (destruct flush_mode; reflexivity).
  unfold flush_runners. rewrite Hbusy, (bind_call_ok _ _ _ _ _ _ Htoken).
  destruct (cl_flush_runners remove_token busy s1) as [[stats|e] s2] eqn:Hflush.
  - rewrite (bind_call_ok _ _ _ _ _ _ Hflush). simpl.
    exists (trace (_issue_runner_metrics self stats s2)).
    pose proof (_issue_runner_metrics_calls stats s2) as Hcalls.
    split; [reflexivity|]. split; [exact Hcalls|].
    now rewrite (proj2 (proj2 (metrics_calls_silent _ Hcalls))).
  - rewrite (bind_call_raise _ _ _ _ _ _ Hflush). simpl.
    exists []. auto.
Qed.
End EngineFacts.

Section OpenstackFacts.
Import OpenstackRunnerManager OpenstackCalls SpecHealth.
Context {S Iter Metrics : Type} {env : Environment S Iter Metrics}.

Local Abbreviation Event := (Event Iter Metrics).

Lemma instance_deletions_app (a b : list Event) :
  instance_deletions (a ++ b) = instance_deletions a ++ instance_deletions b.
Proof.
  induction a as [|ev a IH]; simpl; [reflexivity|].
  destruct ev; simpl; now rewrite ?IH.
Qed.

Lemma not_deletion_silent (tr : list Event) :
  forallb not_deletion tr = true -> instance_deletions tr = [].
Proof.
  induction tr as [|ev tr IH]; simpl; [reflexivity|].
  rewrite andb_true_iff. intros [Hev Htr].
  destruct ev; simpl in Hev; try discriminate; auto.
Qed.


(** *** What never deletes an instance *)

Lemma _ssh_pull_file_quiet ssh_conn remote_path local_path max_size :
  quiet not_deletion (_ssh_pull_file ssh_conn remote_path local_path max_size).
Proof. unfold _ssh_pull_file. repeat quiet_step. Qed.

Lemma _pull_runner_metrics_quiet name ssh_conn :
  quiet not_deletion (_pull_runner_metrics name ssh_conn).
Proof.
  unfold _pull_runner_metrics.
  repeat first [apply _ssh_pull_file_quiet | quiet_step].
Qed.

Lemma _run_github_runner_removal_script_quiet name ssh_conn remove_token :
  quiet not_deletion (_run_github_runner_removal_script name ssh_conn remove_token).
Proof. unfold _run_github_runner_removal_script. repeat quiet_step. Qed.

Lemma _run_health_check_quiet ssh_conn name :
  quiet not_deletion (_run_health_check ssh_conn name).
Proof. unfold _run_health_check. repeat quiet_step. Qed.

Lemma _health_check_once_quiet instance :
  quiet not_deletion (_health_check_once instance).
Proof.
  unfold _health_check_once. repeat first [apply _run_health_check_quiet | quiet_step].
Qed.

Lemma retry_quiet {A} (tries : nat) (func : M S Event A) :
  quiet not_deletion func ->
  forall delay backoff, quiet not_deletion (retry tries delay backoff func).
Proof.
  intros Hfunc. induction tries as [|[|tries] IH]; intros delay backoff.
  - apply quiet_raise.
  - exact Hfunc.
  - change (retry (Datatypes.S (Datatypes.S tries)) delay backoff func)
      with (try_except func
              [([Exception],
                fun _ : exn =>
                  bind (emit (sleep delay))
                    (fun _ => retry (Datatypes.S tries) (delay * backoff) backoff func))]).
    repeat first [exact Hfunc | apply IH | quiet_step].
Qed.

Lemma _health_check_quiet instance : quiet not_deletion (_health_check instance).
Proof. apply retry_quiet, _health_check_once_quiet. Qed.

Lemma _get_runner_health_loop_quiet runner_list :
  forall healthy unhealthy,
    quiet not_deletion (_get_runner_health_loop runner_list healthy unhealthy).
Proof.
  induction runner_list as [|runner rest IH]; intros healthy unhealthy; simpl.
  - apply quiet_ret.
  - repeat first [apply _health_check_quiet | apply IH | quiet_step].
Qed.

Lemma _get_runner_health_quiet : quiet not_deletion _get_runner_health.
Proof.
  unfold _get_runner_health.
  repeat first [apply _get_runner_health_loop_quiet | quiet_step].
Qed.

(** *** The health probe *)




(** Opening the connection for a health check: an [SshError] is logged
    and raised again. *)
Lemma _health_check_once_failed instance (s s1 : S) e :
  os_get_ssh_connection instance s = (Raise e, s1) ->
  _health_check_once instance s =
  Run (Raise e) s1
    (get_ssh_connection instance (Raise e)
     :: if issubclass e SshError
        then [log (exception connection_failure_message e)]
        else []).
Proof.
  intros Hconn. unfold _health_check_once.
  destruct (issubclass e SshError) eqn:Hcls.
  - rewrite bind_raise with (e := e).
    + erewrite try_except_caught;
        [| rewrite (call_ok _ _ _ _ _ Hconn); reflexivity | simpl; rewrite Hcls; reflexivity].
      rewrite (call_ok _ _ _ _ _ Hconn). reflexivity.
    + erewrite try_except_caught;
        [| rewrite (call_ok _ _ _ _ _ Hconn); reflexivity | simpl; rewrite Hcls; reflexivity].
      rewrite (call_ok _ _ _ _ _ Hconn). reflexivity.
  - rewrite bind_raise with (e := e).
    + rewrite try_except_uncaught with (e := e);
        [| rewrite (call_ok _ _ _ _ _ Hconn); reflexivity | simpl; rewrite Hcls; reflexivity].
      rewrite (call_ok _ _ _ _ _ Hconn). reflexivity.
    + rewrite try_except_uncaught with (e := e);
        [| rewrite (call_ok _ _ _ _ _ Hconn); reflexivity | simpl; rewrite Hcls; reflexivity].
      rewrite (call_ok _ _ _ _ _ Hconn). reflexivity.
Qed.

Lemma _health_check_once_connected instance (s s1 : S) ssh_conn :
  os_get_ssh_connection instance s = (Ok ssh_conn, s1) ->
  _health_check_once instance s =
  after [get_ssh_connection instance (Ok ssh_conn)]
    (_run_health_check ssh_conn (OpenstackInstance.server_name instance) s1).
Proof.
  intros Hconn. unfold _health_check_once.
  rewrite bind_ok with (a := ssh_conn).
  - rewrite try_except_ok with (a := ssh_conn);
      rewrite (call_ok _ _ _ _ _ Hconn); reflexivity.
  - rewrite try_except_ok with (a := ssh_conn);
      rewrite (call_ok _ _ _ _ _ Hconn); reflexivity.
Qed.


(** A retried function that returns has returned from its last
    attempt. *)
Lemma retry_returns {A} (func : M S Event A) (tries : nat) :
  forall delay backoff (s : S) (a : A),
    outcome (retry tries delay backoff func s) = Ok a ->
    exists s' before,
      outcome (func s') = Ok a
      /\ trace (retry tries delay backoff func s) = before ++ trace (func s').
Proof.
  induction tries as [|[|tries] IH]; intros delay backoff s a.
  - discriminate.
  - intros H. exists s, []. auto.
  - change (retry (Datatypes.S (Datatypes.S tries)) delay backoff func)
      with (try_except func
              [([Exception],
                fun _ : exn =>
                  bind (emit (sleep delay))
                    (fun _ => retry (Datatypes.S tries) (delay * backoff) backoff func))]).
    destruct (outcome (func s)) as [a'|e] eqn:Hfunc.
    + rewrite (try_except_ok _ _ _ _ Hfunc), Hfunc. intros H. injection H as <-.
      exists s, []. auto.
    + erewrite try_except_caught;
        [| exact Hfunc | simpl; rewrite issubclass_Exception; reflexivity].
      rewrite bind_emit. unfold after. cbn [outcome trace final]. intros H.
      destruct (IH _ _ _ _ H) as (s' & before & Hok & Htr).
      exists s', (trace (func s) ++ sleep delay :: before).
      split; [exact Hok|].
      change (trace (func s) ++ [sleep delay]
              ++ trace (retry (Datatypes.S tries) (delay * backoff) backoff func
                          (final (func s)))
              = (trace (func s) ++ sleep delay :: before) ++ trace (func s')).
      rewrite Htr, <- app_assoc. reflexivity.
Qed.


(** *** Classification *)

(** The states the loop tests for are the three the specification
    names. *)
Lemma automatically_unhealthy_by_state (instance : OpenstackInstance.t) :
  automatically_unhealthy
    (from_openstack_server_status (OpenstackInstance.status instance))
  = unhealthy_by_state instance.
Proof.
  unfold unhealthy_by_state.
  destruct (from_openstack_server_status (OpenstackInstance.status instance));
    reflexivity.
Qed.

Lemma _get_runner_health_loop_by_state runner rest healthy unhealthy (s : S) :
  unhealthy_by_state runner = true ->
  _get_runner_health_loop (runner :: rest) healthy unhealthy s =
  _get_runner_health_loop rest healthy (unhealthy ++ [runner]) s.
Proof.
  intros Hstate. cbn [_get_runner_health_loop].
  rewrite automatically_unhealthy_by_state, Hstate, bind_ret, after_nil. reflexivity.
Qed.

Lemma _get_runner_health_loop_checked runner rest healthy unhealthy (s : S) checked :
  unhealthy_by_state runner = false ->
  outcome (_health_check runner s) = Ok checked ->
  _get_runner_health_loop (runner :: rest) healthy unhealthy s =
  after (trace (_health_check runner s))
    ((if checked
      then _get_runner_health_loop rest (healthy ++ [runner]) unhealthy
      else _get_runner_health_loop rest healthy (unhealthy ++ [runner]))
       (final (_health_check runner s))).
Proof.
  intros Hstate Hcheck. cbn [_get_runner_health_loop].
  rewrite automatically_unhealthy_by_state, Hstate.
  assert (Hfirst :
    bind (_health_check runner) (fun checked => ret (negb checked)) s =
    Run (Ok (negb checked)) (final (_health_check runner s))
      (trace (_health_check runner s))).
  { rewrite (bind_ok _ _ _ _ Hcheck). unfold after, ret. simpl. now rewrite app_nil_r. }
  rewrite bind_ok with (a := negb checked); rewrite Hfirst; [|reflexivity].
  cbn [outcome final trace]. destruct checked; reflexivity.
Qed.

Lemma _get_runner_health_loop_raises runner rest healthy unhealthy (s : S) e :
  unhealthy_by_state runner = false ->
  outcome (_health_check runner s) = Raise e ->
  _get_runner_health_loop (runner :: rest) healthy unhealthy s =
  Run (Raise e) (final (_health_check runner s)) (trace (_health_check runner s)).
Proof.
  intros Hstate Hcheck. cbn [_get_runner_health_loop].
  rewrite automatically_unhealthy_by_state, Hstate.
  assert (Hfirst :
    bind (_health_check runner) (fun checked => ret (negb checked)) s =
    Run (Raise e) (final (_health_check runner s)) (trace (_health_check runner s)))
    by (rewrite (bind_raise _ _ _ _ Hcheck); reflexivity).
  rewrite bind_raise with (e := e); rewrite Hfirst; reflexivity.
Qed.


(** *** Deleting an instance *)

(** What one pull of a file comes to, by the answers of the remote
    shell to [stat] and to the fetch. *)
Lemma _ssh_pull_file_cases ssh_conn remote_path local_path max_size (s : S) :
  let r := _ssh_pull_file ssh_conn remote_path local_path max_size s in
  let sized := ssh_run ssh_conn (stat remote_path) s in
  (exists e,
      fst sized = Raise e
      /\ trace r = [run ssh_conn (stat remote_path) (Raise e)]
      /\ outcome r = Raise (if existsb (issubclass e) ssh_errors then SshError else e))
  \/ (exists result logs,
        fst sized = Ok result
        /\ trace r = run ssh_conn (stat remote_path) (Ok result) :: logs
        /\ forallb is_log logs = true
        /\ outcome r = Raise _PullFileError
        /\ (Result.ok result = false
            \/ int (Result.stdout result) = None
            \/ exists size,
                 int (Result.stdout result) = Some size /\ (size > max_size)%Z))
  \/ (exists result size answer,
        fst sized = Ok result
        /\ answer = fst (ssh_get ssh_conn remote_path local_path (snd sized))
        /\ Result.ok result = true
        /\ int (Result.stdout result) = Some size
        /\ (size <= max_size)%Z
        /\ trace r = [run ssh_conn (stat remote_path) (Ok result);
                      get ssh_conn remote_path local_path answer]
        /\ outcome r
           = match answer with
             | Ok _ => Ok tt
             | Raise e =>
                 Raise (if existsb (issubclass e) ssh_errors then SshError
                        else if issubclass e OSError then _PullFileError
                        else e)
             end).
Proof.
  intros r sized. subst r sized. unfold _ssh_pull_file. fold (stat remote_path).
  destruct (ssh_run ssh_conn (stat remote_path) s) as [[result|e] s1] eqn:Hrun;
    cbn [fst snd].
  - right.
    match goal with |- context [bind (try_except ?m ?h) ?k s] =>
      assert (Hfirst : bind (try_except m h) k s
                       = after [run ssh_conn (stat remote_path) (Ok result)] (k result s1))
    end.
    { rewrite bind_ok with (a := result);
        rewrite try_except_ok with (a := result);
        rewrite ?(call_ok _ _ _ _ _ Hrun); reflexivity. }
    rewrite Hfirst. clear Hfirst. cbv beta.
    destruct (Result.ok result) eqn:Hok; cbn [negb].
    2:{ left. exists result. eexists.
        rewrite bind_raise with (e := _PullFileError) by reflexivity.
        split; [reflexivity|].
        split; [reflexivity|]. split; [reflexivity|]. split; [reflexivity|]. auto. }
    rewrite bind_ret, after_nil.
    destruct (int (Result.stdout result)) as [size|] eqn:Hint.
    2:{ left. exists result, []. repeat split; auto. }
    destruct (Z.gtb_spec size max_size) as [Hgt|Hle].
    { left. exists result, []. repeat split; auto.
      right. right. exists size. split; [exact Hint | lia]. }
    right. rewrite bind_ret, after_nil.
    destruct (ssh_get ssh_conn remote_path local_path s1) as [answer s2] eqn:Hget.
    exists result, size, answer. cbn [fst].
    split; [reflexivity|]. split; [reflexivity|].
    split; [exact Hok|]. split; [exact Hint|]. split; [exact Hle|].
    destruct answer as [[]|e].
    + rewrite try_except_ok with (a := tt); rewrite (call_ok _ _ _ _ _ Hget); auto.
    + destruct (existsb (issubclass e) ssh_errors) eqn:Hssh.
      * erewrite try_except_caught;
          [| rewrite (call_ok _ _ _ _ _ Hget); reflexivity
           | cbn [select]; rewrite Hssh; reflexivity].
        rewrite (call_ok _ _ _ _ _ Hget). auto.
      * destruct (issubclass e OSError) eqn:Hos.
        -- erewrite try_except_caught;
             [| rewrite (call_ok _ _ _ _ _ Hget); reflexivity
              | cbn [select]; rewrite Hssh; cbn [existsb]; rewrite Hos; reflexivity].
           rewrite (call_ok _ _ _ _ _ Hget). auto.
        -- rewrite try_except_uncaught with (e := e);
             [| rewrite (call_ok _ _ _ _ _ Hget); reflexivity
              | cbn [select]; rewrite Hssh; cbn [existsb]; rewrite Hos; reflexivity].
           rewrite (call_ok _ _ _ _ _ Hget). auto.
  - left. exists e.
    match goal with |- context [bind (try_except ?m ?h) ?k s] =>
      assert (Hfirst : bind (try_except m h) k s
                       = Run (Raise (if existsb (issubclass e) ssh_errors
                                     then SshError else e)) s1
                           [run ssh_conn (stat remote_path) (Raise e)])
    end.
    { unfold bind at 1. destruct (existsb (issubclass e) ssh_errors) eqn:Hssh.
      - erewrite try_except_caught;
          [| rewrite (call_ok _ _ _ _ _ Hrun); reflexivity
           | cbn [select]; rewrite Hssh; reflexivity].
        rewrite (call_ok _ _ _ _ _ Hrun). reflexivity.
      - rewrite try_except_uncaught with (e := e);
          [| rewrite (call_ok _ _ _ _ _ Hrun); reflexivity
           | cbn [select]; rewrite Hssh; reflexivity].
        rewrite (call_ok _ _ _ _ _ Hrun). reflexivity. }
    rewrite Hfirst. auto.
Qed.



(** [_delete_runner] in two blocks: what the first one, up to the
    removal script, comes to, and how the deletion follows it. *)
Lemma _delete_runner_blocks instance remove_token (s : S) :
  let name := OpenstackInstance.server_name instance in
  let id := OpenstackInstance.instance_id instance in
  let skipped (e : exn) : list Event :=
    if issubclass e SshError
    then [log (exception "Failed to get SSH connection while removing %s" e);
          log (warning "Skipping runner remove script for %s due to SSH issues" [name])]
    else [] in
  exists first : execution S Event unit,
    forallb not_deletion (trace first) = true
    /\ (_delete_runner instance remove_token s =
             match outcome first with
             | Ok _ =>
                 let deletion := os_delete_instance id (final first) in
                 Run (match fst deletion with
                      | Ok _ => Ok tt
                      | Raise e => if issubclass e OpenstackError then Ok tt else Raise e
                      end)
                   (snd deletion)
                   (trace first
                    ++ delete_instance id (fst deletion)
                       :: match fst deletion with
                          | Ok _ => []
                          | Raise e =>
                              if issubclass e OpenstackError
                              then [log (exception
                                           "Unable to delete openstack instance for runner %s"
                                           e)]
                              else []
                          end)
             | Raise e => Run (Raise e) (final first) (trace first)
             end)
    /\ (forall e s1,
          os_get_ssh_connection instance s = (Raise e, s1) ->
          first = Run (if issubclass e SshError then Ok tt else Raise e) s1
                    (get_ssh_connection instance (Raise e) :: skipped e))
    /\ (forall ssh_conn s1,
          os_get_ssh_connection instance s = (Ok ssh_conn, s1) ->
          let pull := _pull_runner_metrics name ssh_conn s1 in
          (forall e,
              outcome pull = Raise e ->
              first = Run (if issubclass e SshError then Ok tt else Raise e)
                        (final pull)
                        (get_ssh_connection instance (Ok ssh_conn)
                         :: trace pull ++ skipped e))
          /\ (outcome pull = Ok tt ->
              let script := ssh_run ssh_conn (removal_command remove_token) (final pull) in
              exists logs,
                forallb is_log logs = true
                /\ trace first
                   = get_ssh_connection instance (Ok ssh_conn)
                     :: trace pull
                     ++ run ssh_conn (removal_command remove_token) (fst script) :: logs
                /\ match fst script with
                   | Ok _ => outcome first = Ok tt
                   | Raise e =>
                       existsb (issubclass e) ssh_errors = true -> outcome first = Ok tt
                   end)).
Proof.
  intros name id skipped. unfold _delete_runner. fold name id.
  match goal with
  | |- context [bind (try_except ?body ?h) ?k s] =>
      set (first := try_except body h); set (second := k)
  end.
  exists (first s).
  split; [|split; [|split]].
  - subst first.
    assert (Hquiet : quiet not_deletion
              (try_except
                 (bind (call (get_ssh_connection (Iter := Iter) (Metrics := Metrics) instance)
                          (os_get_ssh_connection instance))
                    (fun ssh_conn =>
                       bind (_pull_runner_metrics name ssh_conn)
                         (fun _ =>
                            try_except
                              (_run_github_runner_removal_script name ssh_conn remove_token)
                              [([GithubRunnerRemoveError],
                                fun _ : exn =>
                                  emit
                                    (log
                                       (warning
                                          "Unable to run github runner removal script for %s"
                                          [name])))])))
                 [([SshError],
                   fun e : exn =>
                     bind
                       (emit
                          (log (exception "Failed to get SSH connection while removing %s" e)))
                       (fun _ =>
                          emit
                            (log
                               (warning
                                  "Skipping runner remove script for %s due to SSH issues"
                                  [name]))))])).
    { repeat first [apply _pull_runner_metrics_quiet
                   | apply _run_github_runner_removal_script_quiet
                   | quiet_step]. }
    apply Hquiet.
  - unfold bind at 1. destruct (outcome (first s)) as [[]|e]; [|reflexivity].
    subst second. cbv beta. unfold after, try_except.
    rewrite run_call. cbn [outcome trace final].
    destruct (os_delete_instance id (final (first s))) as [[[]|e] s'];
      cbn [fst snd outcome trace final].
    + reflexivity.
    + cbn [select existsb]. rewrite orb_false_r.
      destruct (issubclass e OpenstackError); reflexivity.
  - intros e s1 Hconn. subst first skipped. cbv beta.
    destruct (issubclass e SshError) eqn:Hcls.
    + erewrite try_except_caught;
        [| rewrite (bind_call_raise _ _ _ _ _ _ Hconn); reflexivity
         | cbn [select existsb]; rewrite Hcls; reflexivity].
      rewrite (bind_call_raise _ _ _ _ _ _ Hconn). reflexivity.
    + rewrite try_except_uncaught with (e := e);
        rewrite ?(bind_call_raise _ _ _ _ _ _ Hconn); try reflexivity.
      cbn [select existsb]. rewrite Hcls. reflexivity.
  - intros ssh_conn s1 Hconn.
    set (pull := _pull_runner_metrics name ssh_conn s1). split.
    + intros e Hpull. subst first.
      match goal with |- context [try_except ?body ?h s] =>
        assert (Hbody : body s = Run (Raise e) (final pull)
                                   (get_ssh_connection instance (Ok ssh_conn) :: trace pull))
      end.
      { rewrite (bind_call_ok _ _ _ _ _ _ Hconn).
        rewrite bind_raise with (e := e) by exact Hpull. reflexivity. }
      subst skipped. cbv beta.
      destruct (issubclass e SshError) eqn:Hcls.
      * erewrite try_except_caught;
          [| rewrite Hbody; reflexivity
           | cbn [select existsb]; rewrite Hcls; reflexivity].
        rewrite Hbody. reflexivity.
      * rewrite try_except_uncaught with (e := e);
          rewrite ?Hbody, ?app_nil_r; try reflexivity.
        cbn [select existsb]. rewrite Hcls. reflexivity.
    + intros Hpull.
      set (script := ssh_run ssh_conn (removal_command remove_token) (final pull)).
      subst first.
      assert (Hscript : exists logs,
        forallb is_log logs = true
        /\ trace
             (try_except
                (_run_github_runner_removal_script name ssh_conn remove_token)
                [([GithubRunnerRemoveError],
                  fun _ : exn =>
                    emit (Ev := Event)
                      (log (warning "Unable to run github runner removal script for %s"
                              [name])))]
                (final pull))
           = run ssh_conn (removal_command remove_token) (fst script) :: logs
        /\ match fst script with
           | Ok _ =>
               outcome
                 (try_except
                    (_run_github_runner_removal_script name ssh_conn remove_token)
                    [([GithubRunnerRemoveError],
                      fun _ : exn =>
                        emit (Ev := Event)
                          (log (warning "Unable to run github runner removal script for %s"
                                  [name])))]
                    (final pull)) = Ok tt
           | Raise e =>
               existsb (issubclass e) ssh_errors = true ->
               outcome
                 (try_except
                    (_run_github_runner_removal_script name ssh_conn remove_token)
                    [([GithubRunnerRemoveError],
                      fun _ : exn =>
                        emit (Ev := Event)
                          (log (warning "Unable to run github runner removal script for %s"
                                  [name])))]
                    (final pull)) = Ok tt
           end).
      { unfold _run_github_runner_removal_script. fold (removal_command remove_token).
        subst script.
        destruct (ssh_run ssh_conn (removal_command remove_token) (final pull))
          as [[result|e] s2] eqn:Hrun; cbn [fst snd].
        - unfold try_except, bind, call. rewrite Hrun. cbn [outcome trace final].
          destruct (Result.ok result); cbn.
          + exists []. auto.
          + eexists. split; [|split; reflexivity]. reflexivity.
        - unfold try_except, bind, call. rewrite Hrun. cbn [outcome trace final select].
          destruct (existsb (issubclass e) ssh_errors) eqn:Hssh.
          + cbn. eexists. split; [|split; [reflexivity|intros _; reflexivity]]. reflexivity.
          + cbn [outcome trace final select existsb].
            destruct (issubclass e GithubRunnerRemoveError || false); cbn;
              eexists; (split; [|split; [reflexivity|discriminate]]); reflexivity. }
      destruct Hscript as (logs & Hlogs & Htrace & Hout).
      match goal with |- context [try_except ?body ?h s] =>
        assert (Hbody : body s
                        = after (get_ssh_connection instance (Ok ssh_conn) :: trace pull)
                            (try_except
                               (_run_github_runner_removal_script name ssh_conn remove_token)
                               [([GithubRunnerRemoveError],
                                 fun _ : exn =>
                                   emit (Ev := Event)
                                     (log
                                        (warning
                                           "Unable to run github runner removal script for %s"
                                           [name])))]
                               (final pull)))
      end.
      { rewrite (bind_call_ok _ _ _ _ _ _ Hconn).
        rewrite bind_ok with (a := tt) by exact Hpull.
        rewrite after_after. reflexivity. }
      destruct (fst script) as [[]|e] eqn:Hanswer.
      * exists logs. split; [exact Hlogs|].
        rewrite try_except_ok with (a := tt); rewrite Hbody; cbn [after outcome trace];
          rewrite ?Htrace, ?Hout; auto.
      * destruct (existsb (issubclass e) ssh_errors) eqn:Hssh.
        -- exists logs. split; [exact Hlogs|].
           rewrite try_except_ok with (a := tt); rewrite Hbody; cbn [after outcome trace];
             rewrite ?Htrace, ?(Hout eq_refl); auto.
        -- destruct (outcome
                       (try_except
                          (_run_github_runner_removal_script name ssh_conn remove_token)
                          [([GithubRunnerRemoveError],
                            fun _ : exn =>
                              emit (Ev := Event)
                                (log
                                   (warning
                                      "Unable to run github runner removal script for %s"
                                      [name])))]
                          (final pull))) as [[]|e'] eqn:Hinner.
           ++ exists logs. split; [exact Hlogs|].
              rewrite try_except_ok with (a := tt); rewrite Hbody; cbn [after outcome trace];
                rewrite ?Htrace; auto; try (split; [reflexivity | discriminate]).
           ++ destruct (issubclass e' SshError) eqn:Hcls.
              ** eexists. split; [|split; [|discriminate]].
                 2:{ erewrite try_except_caught;
                       [| rewrite Hbody; cbn [after outcome]; exact Hinner
                        | cbn [select existsb]; rewrite Hcls; reflexivity].
                     rewrite Hbody. cbn [after trace final bind emit outcome].
                     rewrite Htrace. cbn [app].
                     rewrite <- !app_assoc. cbn [app]. reflexivity. }
                 rewrite forallb_app, Hlogs. reflexivity.
              ** exists logs. split; [exact Hlogs|]. split; [|discriminate].
                 rewrite try_except_uncaught with (e := e');
                   rewrite ?Hbody; cbn [after outcome trace]; rewrite ?Htrace; auto.
                 cbn [select existsb]. rewrite Hcls. reflexivity.
Qed.






(** *** Exhausted retries *)

Lemma _get_runner_health_loop_app (checked : list OpenstackInstance.t) :
  forall (rest healthy unhealthy : list OpenstackInstance.t) (s : S) health,
    outcome (_get_runner_health_loop checked healthy unhealthy s) = Ok health ->
    _get_runner_health_loop (checked ++ rest) healthy unhealthy s =
    after (trace (_get_runner_health_loop checked healthy unhealthy s))
      (_get_runner_health_loop rest (RunnerHealth.healthy health)
         (RunnerHealth.unhealthy health)
         (final (_get_runner_health_loop checked healthy unhealthy s))).
Proof.
  induction checked as [|runner checked IH]; intros rest healthy unhealthy s health.
  - simpl. intros H. injection H as <-. now rewrite after_nil.
  - rewrite <- app_comm_cons.
    destruct (unhealthy_by_state runner) eqn:Hstate.
    + rewrite !_get_runner_health_loop_by_state by exact Hstate. apply IH.
    + destruct (outcome (_health_check runner s)) as [verdict|e] eqn:Hcheck.
      * rewrite !_get_runner_health_loop_checked with (checked := verdict) by assumption.
        cbn [after outcome trace final]. intros Hloop.
        destruct verdict; rewrite (IH _ _ _ _ _ Hloop), after_after; reflexivity.
      * rewrite _get_runner_health_loop_raises with (e := e) by assumption.
        discriminate.
Qed.

(** Three refused connections exhaust the retries of the health check:
    it sleeps 5 and then 10 seconds between the attempts and raises the
    [SshError] of the third. *)
Lemma _health_check_exhausted instance (s1 s2 s3 s4 : S) :
  os_get_ssh_connection instance s1 = (Raise SshError, s2) ->
  os_get_ssh_connection instance s2 = (Raise SshError, s3) ->
  os_get_ssh_connection instance s3 = (Raise SshError, s4) ->
  _health_check instance s1 =
  Run (Raise SshError) s4
    (failed_attempt instance ++ sleep 5 :: failed_attempt instance
     ++ sleep 10 :: failed_attempt instance).
Proof.
  intros H1 H2 H3. unfold _health_check.
  pose proof (_health_check_once_failed _ _ _ _ H1) as A1.
  pose proof (_health_check_once_failed _ _ _ _ H2) as A2.
  pose proof (_health_check_once_failed _ _ _ _ H3) as A3.
  change (retry 3 5 2 (_health_check_once instance))
    with (try_except (_health_check_once instance)
            [([Exception],
              fun _ : exn =>
                bind (emit (sleep 5))
                  (fun _ =>
                     try_except (_health_check_once instance)
                       [([Exception],
                         fun _ : exn =>
                           bind (emit (sleep 10))
                             (fun _ => _health_check_once instance))]))]).
  erewrite try_except_caught; [| rewrite A1; reflexivity | reflexivity].
  rewrite A1. cbn [final trace]. rewrite bind_emit.
  erewrite try_except_caught; [| rewrite A2; reflexivity | reflexivity].
  rewrite A2. cbn [final trace]. rewrite bind_emit, A3. reflexivity.
Qed.

(** C7, as the code has it.  When an instance that is not unhealthy by
    its state refuses the connection at all three attempts of its health
    check (the check sleeps 5 and then 10 seconds in between), the
    [SshError] of the last attempt leaves [_get_runner_health] and
    [cleanup]: the pass ends there, with no instance classified and none
    deleted. *)
Theorem exhausted_probe_aborts_cleanup
    (remove_token : string) (s s0 s1 s2 s3 s4 : S)
    (checked rest : list OpenstackInstance.t) (instance : OpenstackInstance.t) health :
  os_get_instances s = (Ok (checked ++ instance :: rest), s0) ->
  outcome (_get_runner_health_loop checked [] [] s0) = Ok health ->
  final (_get_runner_health_loop checked [] [] s0) = s1 ->
  unhealthy_by_state instance = false ->
  os_get_ssh_connection instance s1 = (Raise SshError, s2) ->
  os_get_ssh_connection instance s2 = (Raise SshError, s3) ->
  os_get_ssh_connection instance s3 = (Raise SshError, s4) ->
  cleanup remove_token s =
  Run (Raise SshError) s4
    (get_instances (Ok (checked ++ instance :: rest))
     :: trace (_get_runner_health_loop checked [] [] s0)
     ++ failed_attempt instance ++ sleep 5 :: failed_attempt instance
     ++ sleep 10 :: failed_attempt instance)
  /\ outcome (_get_runner_health s) = Raise SshError
  /\ instance_deletions (trace (cleanup remove_token s)) = [].
Proof.
  intros Hlist Hchecked Hfinal Hstate H1 H2 H3.
  pose proof (_health_check_exhausted _ _ _ _ _ H1 H2 H3) as Hcheck.
  assert (Hhealth :
    _get_runner_health s =
    Run (Raise SshError) s4
      (get_instances (Ok (checked ++ instance :: rest))
       :: trace (_get_runner_health_loop checked [] [] s0)
       ++ failed_attempt instance ++ sleep 5 :: failed_attempt instance
       ++ sleep 10 :: failed_attempt instance)).
  { unfold _get_runner_health. rewrite (bind_call_ok _ _ _ _ _ _ Hlist).
    rewrite (_get_runner_health_loop_app _ _ _ _ _ _ Hchecked), Hfinal.
    rewrite _get_runner_health_loop_raises with (e := SshError);
      [| exact Hstate | rewrite Hcheck; reflexivity].
    rewrite Hcheck. reflexivity. }
  assert (Hcleanup :
    cleanup remove_token s = Run (Raise SshError) s4 (trace (_get_runner_health s))).
  { unfold cleanup. rewrite bind_raise with (e := SshError); rewrite Hhealth; reflexivity. }
  split; [rewrite Hcleanup, Hhealth; reflexivity|].
  split; [rewrite Hhealth; reflexivity|].
  rewrite Hcleanup. cbn [trace]. apply not_deletion_silent, _get_runner_health_quiet.
Qed.

(** *** Oversize metrics files *)

Lemma _ssh_pull_file_oversize ssh_conn remote_path local_path (s s1 : S) result size :
  ssh_run ssh_conn (stat remote_path) s = (Ok result, s1) ->
  Result.ok result = true ->
  int (Result.stdout result) = Some size ->
  (size > MAX_METRICS_FILE_SIZE)%Z ->
  _ssh_pull_file ssh_conn remote_path local_path MAX_METRICS_FILE_SIZE s =
  Run (Raise _PullFileError) s1 [run ssh_conn (stat remote_path) (Ok result)].
Proof.
  intros Hrun Hok Hint Hsize. unfold _ssh_pull_file.
  assert (Hfirst :
    try_except
      (call (run (Iter := Iter) (Metrics := Metrics) ssh_conn (stat remote_path))
         (ssh_run ssh_conn (stat remote_path)))
      [(ssh_errors, fun _ : exn => raise SshError)] s
    = Run (Ok result) s1 [run ssh_conn (stat remote_path) (Ok result)]).
  { rewrite try_except_ok with (a := result); rewrite (call_ok _ _ _ _ _ Hrun); reflexivity. }
  fold (stat remote_path).
  rewrite bind_ok with (a := result); rewrite Hfirst; [|reflexivity].
  cbn [final trace]. rewrite Hok, Hint. cbn [negb].
  rewrite bind_ret, after_nil.
  destruct (Z.gtb_spec size MAX_METRICS_FILE_SIZE) as [_|Hle]; [reflexivity | lia].
Qed.

Lemma _ssh_pull_file_fetched ssh_conn remote_path local_path (s s1 s2 : S) result size :
  ssh_run ssh_conn (stat remote_path) s = (Ok result, s1) ->
  Result.ok result = true ->
  int (Result.stdout result) = Some size ->
  (size <= MAX_METRICS_FILE_SIZE)%Z ->
  ssh_get ssh_conn remote_path local_path s1 = (Ok tt, s2) ->
  _ssh_pull_file ssh_conn remote_path local_path MAX_METRICS_FILE_SIZE s =
  Run (Ok tt) s2
    [run ssh_conn (stat remote_path) (Ok result);
     get ssh_conn remote_path local_path (Ok tt)].
Proof.
  intros Hrun Hok Hint Hsize Hget. unfold _ssh_pull_file.
  assert (Hfirst :
    try_except
      (call (run (Iter := Iter) (Metrics := Metrics) ssh_conn (stat remote_path))
         (ssh_run ssh_conn (stat remote_path)))
      [(ssh_errors, fun _ : exn => raise SshError)] s
    = Run (Ok result) s1 [run ssh_conn (stat remote_path) (Ok result)]).
  { rewrite try_except_ok with (a := result); rewrite (call_ok _ _ _ _ _ Hrun); reflexivity. }
  fold (stat remote_path).
  rewrite bind_ok with (a := result); rewrite Hfirst; [|reflexivity].
  cbn [final trace]. rewrite Hok, Hint. cbn [negb].
  rewrite bind_ret, after_nil.
  destruct (Z.gtb_spec size MAX_METRICS_FILE_SIZE) as [Hgt|_]; [lia|].
  rewrite bind_ret, after_nil.
  rewrite try_except_ok with (a := tt); rewrite (call_ok _ _ _ _ _ Hget); reflexivity.
Qed.

(** C8, as the code has it.  A metrics file larger than 1024 bytes is not
    fetched and the pull returns without raising, after a warning.  When
    it is the pre-job file, the pull ends there: the post-job file is not
    attempted.  When it is the post-job file, the pre-job file has been
    fetched before.  Either way the pull has returned, and after a pull
    that returns [_delete_runner] goes on: it runs the removal script
    and, whether the script succeeds, fails or cannot be run for an SSH
    error, asks the provider to delete the instance; only the provider's
    answer to that deletion decides what [_delete_runner] comes to. *)
Theorem oversize_file_ends_the_pull (name : string) ssh_conn (s s1 : S) storage :
  storage_get name s = (Ok storage, s1) ->
  (forall s2 result size,
      ssh_run ssh_conn (stat pre_job_file) s1 = (Ok result, s2) ->
      Result.ok result = true ->
      int (Result.stdout result) = Some size ->
      (size > 1024)%Z ->
      _pull_runner_metrics name ssh_conn s =
      Run (Ok tt) s2
        [metrics_storage_get name (Ok storage);
         run ssh_conn (stat pre_job_file) (Ok result);
         log (warning pull_failed_message [name])])
  /\ (forall s2 s3 s4 pre post fits size,
        ssh_run ssh_conn (stat pre_job_file) s1 = (Ok pre, s2) ->
        Result.ok pre = true ->
        int (Result.stdout pre) = Some fits ->
        (fits <= 1024)%Z ->
        ssh_get ssh_conn pre_job_file
          (path_join (MetricsStorage.path storage) "pre-job-metrics.json") s2
          = (Ok tt, s3) ->
        ssh_run ssh_conn (stat post_job_file) s3 = (Ok post, s4) ->
        Result.ok post = true ->
        int (Result.stdout post) = Some size ->
        (size > 1024)%Z ->
        _pull_runner_metrics name ssh_conn s =
        Run (Ok tt) s4
          [metrics_storage_get name (Ok storage);
           run ssh_conn (stat pre_job_file) (Ok pre);
           get ssh_conn pre_job_file
             (path_join (MetricsStorage.path storage) "pre-job-metrics.json") (Ok tt);
           run ssh_conn (stat post_job_file) (Ok post);
           log (warning pull_failed_message [name])])
  /\ (forall instance remove_token s0,
        name = OpenstackInstance.server_name instance ->
        os_get_ssh_connection instance s0 = (Ok ssh_conn, s) ->
        let pull := _pull_runner_metrics name ssh_conn s in
        let script := fst (ssh_run ssh_conn (removal_command remove_token) (final pull)) in
        outcome pull = Ok tt ->
        (is_ok script = true
         \/ exists e, script = Raise e /\ existsb (issubclass e) ssh_errors = true) ->
        exists logs deletion logs',
          trace (_delete_runner instance remove_token s0) =
          get_ssh_connection instance (Ok ssh_conn)
          :: trace pull
          ++ run ssh_conn (removal_command remove_token) script
          :: logs
          ++ delete_instance (OpenstackInstance.instance_id instance) deletion
          :: logs'
          /\ forallb is_log logs = true
          /\ forallb is_log logs' = true
          /\ outcome (_delete_runner instance remove_token s0)
             = match deletion with
               | Ok _ => Ok tt
               | Raise e => if issubclass e OpenstackError then Ok tt else Raise e
               end).
Proof.
  intros Hstorage.
  assert (Hfirst :
    try_except
      (bind (call (metrics_storage_get (Iter := Iter) (Metrics := Metrics) name)
               (storage_get name))
         (fun storage => ret (Some storage)))
      [([GetMetricsStorageError],
        fun e : exn =>
          bind (emit (log (exception "Failed to get shared metrics storage for runner %s" e)))
            (fun _ => ret None))] s
    = Run (Ok (Some storage)) s1 [metrics_storage_get name (Ok storage)]).
  { rewrite try_except_ok with (a := Some storage);
      rewrite (bind_call_ok _ _ _ _ _ _ Hstorage); reflexivity. }
  split; [|split].
  - intros s2 result size Hrun Hok Hint Hsize.
    unfold _pull_runner_metrics.
    rewrite bind_ok with (a := Some storage); rewrite Hfirst; [|reflexivity].
    cbn [final trace].
    pose proof (_ssh_pull_file_oversize ssh_conn pre_job_file
                  (path_join (MetricsStorage.path storage) "pre-job-metrics.json")
                  _ _ _ _ Hrun Hok Hint Hsize) as Hpre.
    change (path_join METRICS_EXCHANGE_PATH "pre-job-metrics.json") with pre_job_file.
    erewrite try_except_caught;
      [| rewrite bind_raise with (e := _PullFileError); rewrite Hpre; reflexivity
       | reflexivity].
    rewrite bind_raise with (e := _PullFileError); rewrite Hpre; reflexivity.
  - intros s2 s3 s4 pre post fits size Hrun Hok Hint Hfits Hget Hrun' Hok' Hint' Hsize.
    unfold _pull_runner_metrics.
    rewrite bind_ok with (a := Some storage); rewrite Hfirst; [|reflexivity].
    cbn [final trace].
    pose proof (_ssh_pull_file_fetched ssh_conn pre_job_file
                  (path_join (MetricsStorage.path storage) "pre-job-metrics.json")
                  _ _ _ _ _ Hrun Hok Hint Hfits Hget) as Hpre.
    pose proof (_ssh_pull_file_oversize ssh_conn post_job_file
                  (path_join (MetricsStorage.path storage) "post-job-metrics.json")
                  _ _ _ _ Hrun' Hok' Hint' Hsize) as Hpost.
    change (path_join METRICS_EXCHANGE_PATH "pre-job-metrics.json") with pre_job_file.
    change (path_join METRICS_EXCHANGE_PATH "post-job-metrics.json") with post_job_file.
    assert (Hboth :
      bind (_ssh_pull_file ssh_conn pre_job_file
              (path_join (MetricsStorage.path storage) "pre-job-metrics.json")
              MAX_METRICS_FILE_SIZE)
        (fun _ =>
           _ssh_pull_file ssh_conn post_job_file
             (path_join (MetricsStorage.path storage) "post-job-metrics.json")
             MAX_METRICS_FILE_SIZE) s1
      = Run (Raise _PullFileError) s4
          [run ssh_conn (stat pre_job_file) (Ok pre);
           get ssh_conn pre_job_file
             (path_join (MetricsStorage.path storage) "pre-job-metrics.json") (Ok tt);
           run ssh_conn (stat post_job_file) (Ok post)]).
    { rewrite bind_ok with (a := tt); rewrite Hpre; [|reflexivity].
      cbn [final trace]. rewrite Hpost. reflexivity. }
    erewrite try_except_caught; [| rewrite Hboth; reflexivity | reflexivity].
    rewrite Hboth. reflexivity.
  - intros instance remove_token s0 -> Hconn pull script Hpull Hscript.
    destruct (_delete_runner_blocks instance remove_token s0)
      as (first & _ & Hrun & _ & Hconnected).
    destruct (Hconnected _ _ Hconn) as [_ Hgo].
    destruct (Hgo Hpull) as (logs & Hlogs & Htrace & Hout).
    fold pull in Htrace, Hout. fold script in Htrace, Hout.
    assert (Hblock : outcome first = Ok tt).
    { destruct Hscript as [Hok|(e & He & Hssh)].
      - destruct script as [[]|e]; [exact Hout | discriminate].
      - rewrite He in Hout. exact (Hout Hssh). }
    rewrite Hrun, Hblock. cbv zeta. cbn [trace outcome]. rewrite Htrace.
    exists logs. eexists. eexists.
    split; [cbn [app]; rewrite <- app_assoc; reflexivity|].
    split; [exact Hlogs|]. split; [|reflexivity].
    destruct (fst (os_delete_instance _ _)) as [[]|e']; [reflexivity|].
    destruct (issubclass e' OpenstackError); reflexivity.
Qed.

End OpenstackFacts.
Section DeleteFacts.
Import RunnerManager Calls CallsFacts.
Context {S : Type} {github : GitHubRunnerManager S} {cloud : CloudRunnerManager S}
        {platform : Platform S}.
Variable self : RunnerManager.t.


End DeleteFacts.

(** * The theorems at work on the in-memory fleet and cloud *)

(** On the fleet of five offline registrations the pool runner and the
    reactive runner on an active, unhealthy instance are deleted; the
    reactive runners without an instance, on a created instance and on an
    active, healthy instance are kept. *)
Example cleanup_offline_fleet :
  Calls.github_deletions (trace (RunnerManager.cleanup Fleet.manager Fleet.offline_fleet))
  = [[Fleet.offline (Fleet.pool_id "n-1"); Fleet.offline (Fleet.reactive_id "r-4")]].
Proof. reflexivity. Qed.

Lemma cleanup_deletes_marked_offline_runners_witness :
  exists deleted,
    Calls.github_deletions (trace (RunnerManager.cleanup Fleet.manager Fleet.offline_fleet))
    = [deleted]
    /\ In (Fleet.offline (Fleet.reactive_id "r-4")) deleted.
Proof.
  edestruct (cleanup_deletes_marked_offline_runners Fleet.manager Fleet.offline_fleet)
    as (deleted & Hcalls & Hdeleted & _); [cbv; reflexivity | cbv; reflexivity |].
  exists deleted. split; [exact Hcalls|].
  rewrite Hdeleted. simpl. auto.
Defined.

(** Of the five instances of the fleet, the second and the fourth are on
    the cloud only: both are returned, without a coordination-service
    state. *)
Example get_runners_fleet_of_five :
  map (fun r => (RunnerManager.RunnerInstance.name r,
                 RunnerManager.RunnerInstance.github_state r))
    (match outcome (RunnerManager.get_runners None None Fleet.fleet_of_five) with
     | Ok runners => runners
     | Raise _ => []
     end)
  = [("n-1", Some IDLE); ("n-2", None); ("n-3", Some IDLE); ("n-4", None);
     ("n-5", Some IDLE)].
Proof. reflexivity. Qed.

Lemma get_runners_keeps_cloud_only_instances_witness :
  exists r,
    match outcome (RunnerManager.get_runners None None Fleet.fleet_of_five) with
    | Ok runners => In r runners
    | Raise _ => False
    end
    /\ RunnerManager.RunnerInstance.name r = "n-2"
    /\ RunnerManager.RunnerInstance.github_state r = None
    /\ RunnerManager.RunnerInstance.instance_id r = Fleet.pool_id "n-2".
Proof.
  edestruct (get_runners_keeps_cloud_only_instances
               Fleet.fleet_of_five Fleet.fleet_of_five Fleet.fleet_of_five)
    as (runners & logs & Hrun & _ & Hkept); [reflexivity | reflexivity |].
  destruct (Hkept (Fleet.server (Fleet.pool_id "n-2") HEALTHY ACTIVE)) as [Hin _].
  - simpl. auto.
  - intros g [<-|[<-|[<-|[]]]]; discriminate.
  - destruct Hin as (r & Hin & Hname & Hstate & _ & Hsame).
    exists r. split; [rewrite Hrun; exact Hin|]. split; [exact Hname|].
    split; [exact Hstate|].
    apply Hsame. intros c' [<-|[<-|[<-|[<-|[<-|[]]]]]]; try discriminate. reflexivity.
Defined.

(** Three jobs, the second failing with [RunnerCreateError]: a tuple of
    two instance IDs comes back and the error is logged. *)
Example create_runners_pool_of_three :
  outcome (RunnerManager.create_runners Fleet.manager 3 false Fleet.pool_of_three)
  = Ok [Fleet.pool_id "n-3"; Fleet.pool_id "n-1"].
Proof. reflexivity. Qed.

Lemma create_runners_returns_the_successes_witness :
  exists created,
    outcome (RunnerManager.create_runners Fleet.manager 3 false Fleet.pool_of_three)
    = Ok created
    /\ List.length created = 2.
Proof.
  edestruct (create_runners_returns_the_successes Fleet.manager 3 false
               Fleet.pool_of_three Fleet.pool_of_three
               [Ok (Fleet.pool_id "n-3"); Raise RunnerCreateError; Ok (Fleet.pool_id "n-1")])
    as (created & logs & Hcreated & _ & Hlength & _).
  - lia.
  - reflexivity.
  - reflexivity.
  - repeat constructor.
  - exists created. split; [exact Hcreated | exact Hlength].
Defined.

(** One job on a cloud that rejects the launch: the error does not reach
    the caller, who gets the empty tuple. *)
Example create_runners_rejecting_cloud :
  outcome (RunnerManager.create_runners Fleet.manager 1 false Fleet.rejecting_cloud) = Ok [].
Proof. reflexivity. Qed.

Lemma single_creation_error_is_swallowed :
  ~ SpecCreate.single_creation_error_propagates (S := Fleet.World) Fleet.manager.
Proof.
  intros H.
  specialize (H Fleet.rejecting_cloud false (InstanceID.Build "unit-0" false) "jit-token"
                RunnerCreateError).
  assert (Hin :
    In (RunnerManager.cloud_create_runner (InstanceID.Build "unit-0" false) "jit-token"
          (Raise RunnerCreateError))
      (trace (RunnerManager.create_runners Fleet.manager 1 false Fleet.rejecting_cloud))).
  { right. right. left. reflexivity. }
  specialize (H Hin). discriminate H.
Qed.

(** [delete_runners(2)] on the fleet of five: one token, the first two
    instances deleted in order. *)
Example delete_runners_fleet_of_five :
  let tr := trace (RunnerManager.delete_runners Fleet.manager 2 Fleet.fleet_of_five) in
  Calls.removal_tokens tr = [Ok "remove-token"]
  /\ Calls.cloud_deletions tr
     = [(Fleet.pool_id "n-1", "remove-token"); (Fleet.pool_id "n-2", "remove-token")].
Proof. split; reflexivity. Qed.

(** A negative [num] is a slice that counts from the end of the list. *)
Example delete_runners_negative_num :
  map fst
    (Calls.cloud_deletions
       (trace (RunnerManager.delete_runners Fleet.manager (-4) Fleet.fleet_of_five)))
  = [Fleet.pool_id "n-1"].
Proof. reflexivity. Qed.

(** [delete_runners(2)] on the four servers, with the OpenStack manager as
    the engine's cloud runner manager: the first two servers are deleted,
    each after its two metrics files were fetched. *)
Example delete_runners_four_servers :
  map (fun run =>
         (OpenstackCalls.files_fetched (trace run),
          OpenstackCalls.instance_deletions (trace run)))
    (SpecDelete.openstack_deletions (env := Joined.env) Joined.to_id
       [Fleet.pool_id "up"; Fleet.pool_id "idle"] "remove-token" Stack.four_servers)
  = [([SpecHealth.pre_job_file; SpecHealth.post_job_file], ["up"]);
     ([SpecHealth.pre_job_file; SpecHealth.post_job_file], ["idle"])].
Proof. reflexivity. Qed.


Lemma flush_runners_delegates_witness :
  exists metrics_calls,
    trace (RunnerManager.flush_runners Fleet.manager RunnerManager.FLUSH_BUSY
             Fleet.fleet_of_five)
    = RunnerManager.github_get_removal_token (Ok "remove-token")
      :: RunnerManager.cloud_flush_runners "remove-token" true (Ok [])
      :: metrics_calls.
Proof.
  edestruct (flush_runners_delegates Fleet.manager RunnerManager.FLUSH_BUSY
               Fleet.fleet_of_five Fleet.fleet_of_five "remove-token")
    as (metrics_calls & Htrace & _); [reflexivity|].
  exists metrics_calls. exact Htrace.
Defined.

Lemma failed_creation_deletes_its_registration_witness :
  let id := InstanceID.Build "unit-0" false in
  RunnerManager._create_runner
    (RunnerManager._CreateRunnerArgs.Build ["openstack"] false) Fleet.rejecting_cloud
  = Run (Raise RunnerCreateError) Fleet.rejecting_cloud
      [RunnerManager.InstanceID_build "unit" false (Ok id);
       RunnerManager.github_get_registration_jittoken id ["openstack"]
         (Ok ("jit-token", Fleet.offline id));
       RunnerManager.cloud_create_runner id "jit-token" (Raise RunnerCreateError);
       RunnerManager.github_delete_runners [Fleet.offline id] (Ok tt)].
Proof.
  exact (failed_creation_deletes_its_registration
           (RunnerManager._CreateRunnerArgs.Build ["openstack"] false)
           Fleet.rejecting_cloud Fleet.rejecting_cloud
           (Fleet.with_registrations Fleet.rejecting_cloud
              [Fleet.offline (InstanceID.Build "unit-0" false)])
           (Fleet.with_registrations Fleet.rejecting_cloud
              [Fleet.offline (InstanceID.Build "unit-0" false)])
           (InstanceID.Build "unit-0" false) "jit-token"
           (Fleet.offline (InstanceID.Build "unit-0" false)) RunnerCreateError
           eq_refl eq_refl eq_refl eq_refl).
Defined.

(** Of the four servers, the one running the runner is healthy; the one
    without a runner process, the one in error and the stopped one are
    deleted, in that order. *)
Example cleanup_four_servers :
  let r := OpenstackRunnerManager.cleanup "token" Stack.four_servers in
  outcome r = Ok (OpenstackRunnerManager.set_of ["up"])
  /\ OpenstackCalls.instance_deletions (trace r) = ["idle"; "broken"; "off"].
Proof. split; reflexivity. Qed.


(** A server that refuses the connection three times: the cleanup raises
    [SshError] and deletes nothing. *)
Example cleanup_unreachable_server :
  let r := OpenstackRunnerManager.cleanup "token" Stack.unreachable_server in
  outcome r = Raise SshError
  /\ OpenstackCalls.instance_deletions (trace r) = [].
Proof. split; reflexivity. Qed.

Lemma exhausted_probe_aborts_cleanup_witness :
  outcome (OpenstackRunnerManager.cleanup "token" Stack.unreachable_server) = Raise SshError
  /\ OpenstackCalls.instance_deletions
       (trace (OpenstackRunnerManager.cleanup "token" Stack.unreachable_server))
     = [].
Proof.
  destruct (exhausted_probe_aborts_cleanup "token"
              Stack.unreachable_server Stack.unreachable_server Stack.unreachable_server
              Stack.unreachable_server Stack.unreachable_server Stack.unreachable_server
              [] [] (Stack.instance "lost" "ACTIVE")
              (OpenstackRunnerManager.RunnerHealth.Build [] []))
    as (Hrun & _ & Hdeleted); try reflexivity.
  split; [rewrite Hrun; reflexivity | exact Hdeleted].
Defined.

Lemma exhausted_probe_is_not_counted_unhealthy :
  ~ SpecHealth.exhausted_probe_counts_as_unhealthy (env := Stack.env).
Proof.
  intros H.
  destruct (H Stack.unreachable_server Stack.unreachable_server
              (Stack.instance "lost" "ACTIVE") [])
    as (health & Hhealth & _); try reflexivity.
  discriminate Hhealth.
Qed.

(** A pre-job file of 2048 bytes ends the pull; a post-job file of 2048
    bytes is skipped after the pre-job file was fetched. *)
Example pull_big_pre_job_file :
  let r := OpenstackRunnerManager._pull_runner_metrics "up"
             (OpenstackRunnerManager.SshConnection.Build "up") Stack.big_pre_job_file in
  outcome r = Ok tt
  /\ OpenstackCalls.files_attempted (trace r) = [SpecHealth.pre_job_file]
  /\ OpenstackCalls.files_fetched (trace r) = [].
Proof. repeat split; reflexivity. Qed.

Example pull_big_post_job_file :
  let r := OpenstackRunnerManager._pull_runner_metrics "up"
             (OpenstackRunnerManager.SshConnection.Build "up") Stack.big_post_job_file in
  outcome r = Ok tt
  /\ OpenstackCalls.files_attempted (trace r)
     = [SpecHealth.pre_job_file; SpecHealth.post_job_file]
  /\ OpenstackCalls.files_fetched (trace r) = [SpecHealth.pre_job_file].
Proof. repeat split; reflexivity. Qed.

(** The server whose pre-job file is too big is deleted all the same,
    after the removal script has run. *)
Example delete_runner_big_pre_job_file :
  let r := OpenstackRunnerManager._delete_runner (Stack.instance "up" "ACTIVE") "token"
             Stack.big_pre_job_file in
  outcome r = Ok tt
  /\ MoreOpenstackCalls.commands (trace r)
     = [SpecHealth.stat SpecHealth.pre_job_file; SpecHealth.removal_command "token"]
  /\ OpenstackCalls.instance_deletions (trace r) = ["up"].
Proof. repeat split. Qed.

Lemma oversize_file_ends_the_pull_witness :
  let ssh_conn := OpenstackRunnerManager.SshConnection.Build "up" in
  let pull := OpenstackRunnerManager._pull_runner_metrics "up" ssh_conn Stack.big_pre_job_file in
  pull
  = Run (Ok tt) Stack.big_pre_job_file
      [OpenstackRunnerManager.metrics_storage_get "up"
         (Ok (OpenstackRunnerManager.MetricsStorage.Build "/metrics/up"));
       OpenstackRunnerManager.run ssh_conn (SpecHealth.stat SpecHealth.pre_job_file)
         (Ok (OpenstackRunnerManager.Result.Build true "2048"));
       OpenstackRunnerManager.log
         (warning OpenstackRunnerManager.pull_failed_message ["up"])]
  /\ exists logs deletion logs',
       trace (OpenstackRunnerManager._delete_runner (Stack.instance "up" "ACTIVE") "token"
                Stack.big_pre_job_file)
       = OpenstackRunnerManager.get_ssh_connection (Stack.instance "up" "ACTIVE") (Ok ssh_conn)
         :: trace pull
         ++ OpenstackRunnerManager.run ssh_conn (SpecHealth.removal_command "token")
              (Ok (OpenstackRunnerManager.Result.Build true ""))
         :: logs
         ++ OpenstackRunnerManager.delete_instance "up" deletion :: logs'.
Proof.
  destruct (oversize_file_ends_the_pull "up"
              (OpenstackRunnerManager.SshConnection.Build "up")
              Stack.big_pre_job_file Stack.big_pre_job_file
              (OpenstackRunnerManager.MetricsStorage.Build "/metrics/up"))
    as (Hpre & _ & Hgoes); [reflexivity|].
  split.
  - apply (Hpre Stack.big_pre_job_file
             (OpenstackRunnerManager.Result.Build true "2048") 2048%Z);
      [reflexivity | reflexivity | reflexivity | lia].
  - destruct (Hgoes (Stack.instance "up" "ACTIVE") "token" Stack.big_pre_job_file)
      as (logs & deletion & logs' & Htrace & _); [reflexivity | reflexivity | reflexivity | |].
    + left. reflexivity.
    + exists logs, deletion, logs'. exact Htrace.
Defined.

Lemma oversize_pre_job_file_drops_sibling :
  ~ SpecHealth.oversize_file_keeps_sibling (env := Stack.env).
Proof.
  intros H.
  destruct (H Stack.big_pre_job_file "up" (OpenstackRunnerManager.SshConnection.Build "up")
              (OpenstackRunnerManager.Result.Build true "2048") 2048%Z)
    as (_ & Hsibling).
  - right. left. reflexivity.
  - reflexivity.
  - reflexivity.
  - reflexivity.
  - cbv in Hsibling. destruct Hsibling as [Hsame|[]]. discriminate Hsame.
Qed.

(** * More about the engine *)

Lemma CloudRunnerState_eqb_eq (a b : CloudRunnerState) :
  CloudRunnerState_eqb a b = true <-> a = b.
Proof. destruct a, b; simpl; split; intros H; try reflexivity; discriminate. Qed.

Lemma GitHubRunnerState_eqb_eq (a b : GitHubRunnerState) :
  GitHubRunnerState_eqb a b = true <-> a = b.
Proof. destruct a, b; simpl; split; intros H; try reflexivity; discriminate. Qed.

Lemma NoDup_map_filter {A B} (f : A -> B) (p : A -> bool) (xs : list A) :
  NoDup (map f xs) -> NoDup (map f (filter p xs)).
Proof.
  induction xs as [|x xs IH]; simpl; [auto|].
  intros H. inversion H as [|? ? Hx Hxs]; subst.
  destruct (p x); simpl; [|auto].
  constructor; [|auto].
  intros Hin. apply Hx. apply in_map_iff in Hin. destruct Hin as (y & Hy & Hin).
  apply filter_In in Hin. rewrite <- Hy. apply in_map. tauto.
Qed.


Section EngineExtra.
Import RunnerManager Calls CallsFacts MoreCalls.
Context {S : Type} {github : GitHubRunnerManager S} {cloud : CloudRunnerManager S}
        {platform : Platform S}.
Variable self : RunnerManager.t.

(** What [get_runners] returns when it returns. *)
Lemma get_runners_returns gs cs (s : S) runners :
  outcome (get_runners gs cs s) = Ok runners ->
  exists github_infos cloud_infos s1 s2,
    gh_get_runners gs s = (Ok github_infos, s1)
    /\ cl_get_runners cs s1 = (Ok cloud_infos, s2)
    /\ runners =
       filter_github_states gs
         (filter_cloud_states cs
            (runner_instances_of (cloud_infos_map_of cloud_infos)
               (github_infos_map_of github_infos))).
Proof.
  destruct (gh_get_runners gs s) as [[github_infos|e] s1] eqn:Hgh.
  - destruct (cl_get_runners cs s1) as [[cloud_infos|e] s2] eqn:Hcl.
    + destruct (get_runners_run gs cs s _ _ _ _ Hgh Hcl) as (logs & -> & _).
      simpl. intros H. injection H as <-.
      exists github_infos, cloud_infos, s1, s2. auto.
    + unfold get_runners.
      rewrite (bind_call_ok _ _ _ _ _ _ Hgh), (bind_call_raise _ _ _ _ _ _ Hcl).
      discriminate.
  - unfold get_runners. rewrite (bind_call_raise _ _ _ _ _ _ Hgh). discriminate.
Qed.

Lemma filter_cloud_states_In cs runners r :
  In r (filter_cloud_states cs runners) ->
  In r runners
  /\ forall states, cs = Some states -> In (RunnerInstance.cloud_state r) states.
Proof.
  destruct cs as [states|]; simpl.
  - intros H. apply filter_In in H. destruct H as [Hin Hstate].
    split; [exact Hin|]. intros ? [= <-].
    apply existsb_exists in Hstate. destruct Hstate as (st & Hst & Heq).
    apply CloudRunnerState_eqb_eq in Heq. now rewrite Heq.
  - intros H. split; [exact H | discriminate].
Qed.

Lemma filter_github_states_In gs runners r :
  In r (filter_github_states gs runners) ->
  In r runners
  /\ forall states, gs = Some states ->
       exists st, RunnerInstance.github_state r = Some st /\ In st states.
Proof.
  destruct gs as [states|]; simpl.
  - intros H. apply filter_In in H. destruct H as [Hin Hstate].
    split; [exact Hin|]. intros ? [= <-].
    destruct (RunnerInstance.github_state r) as [st|]; [|discriminate].
    apply existsb_exists in Hstate. destruct Hstate as (st' & Hst & Heq).
    apply GitHubRunnerState_eqb_eq in Heq. subst st'. exists st. auto.
  - intros H. split; [exact H | discriminate].
Qed.

(** X1.  Whatever the two services answer to a filtered request, every
    runner [get_runners] returns has a cloud state among [cloud_states]
    when that filter is given, and is registered with a state among
    [github_states] when that filter is given: a runner without a
    registration is never returned under a coordination-service
    filter. *)
Theorem get_runners_honours_filters gs cs (s : S) runners r :
  outcome (get_runners gs cs s) = Ok runners ->
  In r runners ->
  (forall states, cs = Some states -> In (RunnerInstance.cloud_state r) states)
  /\ (forall states, gs = Some states ->
        exists st, RunnerInstance.github_state r = Some st /\ In st states).
Proof.
  intros Hrun Hr.
  destruct (get_runners_returns _ _ _ _ Hrun) as (ghs & cls & s1 & s2 & _ & _ & ->).
  apply filter_github_states_In in Hr. destruct Hr as [Hr Hgithub].
  apply filter_cloud_states_In in Hr. destruct Hr as [_ Hcloud].
  split; assumption.
Qed.

Lemma cloud_infos_map_entry cloud_infos name info :
  In (name, info) (cloud_infos_map_of cloud_infos) ->
  In info cloud_infos /\ CloudRunnerInstance.name info = name.
Proof.
  intros H. apply (dict_of_In _ String.eqb_eq) in H.
  apply in_map_iff in H. destruct H as (c & Heq & Hc).
  injection Heq as Hname <-. auto.
Qed.

Lemma runner_instances_names cloud_infos github_infos :
  map RunnerInstance.name
    (runner_instances_of (cloud_infos_map_of cloud_infos) (github_infos_map_of github_infos))
  = dict_keys (cloud_infos_map_of cloud_infos).
Proof.
  unfold runner_instances_of, dict_keys. rewrite map_map.
  apply map_ext_in. intros [name info] Hin. simpl.
  apply cloud_infos_map_entry in Hin. tauto.
Qed.

(** X2.  [get_runners] returns at most one runner for a name, and every
    runner it returns is a cloud instance the provider listed, with that
    instance's name, ID, health and state: a registration without a
    cloud instance never makes it into the result. *)
Theorem get_runners_one_per_cloud_instance gs cs (s s1 s2 : S) github_infos cloud_infos
    runners :
  gh_get_runners gs s = (Ok github_infos, s1) ->
  cl_get_runners cs s1 = (Ok cloud_infos, s2) ->
  outcome (get_runners gs cs s) = Ok runners ->
  NoDup (map RunnerInstance.name runners)
  /\ forall r, In r runners ->
       exists c,
         In c cloud_infos
         /\ RunnerInstance.name r = CloudRunnerInstance.name c
         /\ RunnerInstance.instance_id r = CloudRunnerInstance.instance_id c
         /\ RunnerInstance.health r = CloudRunnerInstance.health c
         /\ RunnerInstance.cloud_state r = CloudRunnerInstance.state c.
Proof.
  intros Hgh Hcl.
  destruct (get_runners_run gs cs s _ _ _ _ Hgh Hcl) as (logs & -> & _).
  simpl. intros H. injection H as <-. split.
  - unfold filter_github_states, filter_cloud_states.
    destruct gs, cs; repeat apply NoDup_map_filter;
      rewrite runner_instances_names; apply dict_of_NoDup, String.eqb_eq.
  - intros r Hr.
    apply filter_github_states_In in Hr. destruct Hr as [Hr _].
    apply filter_cloud_states_In in Hr. destruct Hr as [Hr _].
    unfold runner_instances_of in Hr. apply in_map_iff in Hr.
    destruct Hr as ([name info] & <- & Hentry).
    apply cloud_infos_map_entry in Hentry. destruct Hentry as [Hin _].
    exists info. simpl. auto.
Qed.

(** X3.  An unfiltered [get_runners] returns, for every cloud instance
    whose name a registration has, a runner of that name with both
    states populated: its coordination-service state is derived from a
    registration of that name. *)
Theorem get_runners_merges_registered_instances (s s1 s2 : S) github_infos cloud_infos
    runners c g :
  gh_get_runners None s = (Ok github_infos, s1) ->
  cl_get_runners None s1 = (Ok cloud_infos, s2) ->
  outcome (get_runners None None s) = Ok runners ->
  In c cloud_infos ->
  In g github_infos ->
  InstanceID.name (SelfHostedRunner.instance_id g) = CloudRunnerInstance.name c ->
  exists r g',
    In r runners
    /\ RunnerInstance.name r = CloudRunnerInstance.name c
    /\ In g' github_infos
    /\ InstanceID.name (SelfHostedRunner.instance_id g') = CloudRunnerInstance.name c
    /\ RunnerInstance.github_state r
       = Some (from_runner (SelfHostedRunner.online g') (SelfHostedRunner.busy g')).
Proof.
  intros Hgh Hcl.
  destruct (get_runners_run None None s _ _ _ _ Hgh Hcl) as (logs & -> & _).
  simpl. intros H Hc Hg Hname. injection H as <-.
  assert (Hkey : In (CloudRunnerInstance.name c) (dict_keys (cloud_infos_map_of cloud_infos))).
  { apply (dict_of_keys _ String.eqb_eq). rewrite map_map. simpl.
    apply (in_map CloudRunnerInstance.name) in Hc. exact Hc. }
  unfold dict_keys in Hkey. apply in_map_iff in Hkey.
  destruct Hkey as ([k c'] & Hk & Hentry). simpl in Hk. subst k.
  destruct (dict_get_present _ String.eqb_eq (CloudRunnerInstance.name c)
              (map (fun info =>
                      (InstanceID.name (SelfHostedRunner.instance_id info), info))
                 github_infos)) as (g' & Hget & Hg').
  { rewrite map_map. simpl. rewrite <- Hname.
    apply (in_map (fun info => InstanceID.name (SelfHostedRunner.instance_id info))) in Hg.
    exact Hg. }
  apply in_map_iff in Hg'. destruct Hg' as (g0 & Heq & Hg0).
  injection Heq as Hname0 ->.
  exists (RunnerInstance__init__ c' (Some g')), g'.
  split; [|split; [|split; [|split]]]; auto.
  - unfold runner_instances_of. apply in_map_iff.
    exists (CloudRunnerInstance.name c, c'). split; [|exact Hentry].
    simpl. unfold dict_mem, github_infos_map_of. rewrite Hget. reflexivity.
  - simpl. apply cloud_infos_map_entry in Hentry. tauto.
Qed.

(** *** Issuing metrics *)

Lemma issued_events_app (a b : list Event) :
  issued_events (a ++ b) = issued_events a ++ issued_events b.
Proof.
  induction a as [|ev a IH]; simpl; [reflexivity|].
  destruct ev; try exact IH. destruct r; [|exact IH]. now rewrite IH, app_assoc.
Qed.

Lemma issue_calls_app (a b : list Event) :
  issue_calls (a ++ b) = issue_calls a ++ issue_calls b.
Proof.
  induction a as [|ev a IH]; simpl; [reflexivity|].
  destruct ev; simpl; now rewrite ?IH.
Qed.

Lemma job_calls_app (a b : list Event) :
  job_calls (a ++ b) = job_calls a ++ job_calls b.
Proof.
  induction a as [|ev a IH]; simpl; [reflexivity|].
  destruct ev; simpl; now rewrite ?IH.
Qed.

(** One turn of the loop of [_issue_runner_metrics]: what the request
    for job metrics can come to, and how the loop goes on from it. *)
Lemma _issue_runner_metrics_loop_cons m rest total_stats (s : S) :
  let runner_name := InstanceID.name (RunnerMetrics.instance_id m) in
  exists step : execution S Event (option GithubJobMetrics),
    (RunnerMetrics.pre_job m = None /\ step = Run (Ok None) s []
     \/ (exists pre_job j s1,
           RunnerMetrics.pre_job m = Some pre_job
           /\ job pre_job runner_name s = (Ok j, s1)
           /\ step = Run (Ok (Some j)) s1 [github_metrics_job pre_job runner_name (Ok j)])
     \/ (exists pre_job e s1,
           RunnerMetrics.pre_job m = Some pre_job
           /\ job pre_job runner_name s = (Raise e, s1)
           /\ issubclass e GithubMetricsError = true
           /\ step = Run (Ok None) s1
                       [github_metrics_job pre_job runner_name (Raise e);
                        log (exception job_metrics_failed_message e)])
     \/ (exists pre_job e s1,
           RunnerMetrics.pre_job m = Some pre_job
           /\ job pre_job runner_name s = (Raise e, s1)
           /\ issubclass e GithubMetricsError = false
           /\ step = Run (Raise e) s1 [github_metrics_job pre_job runner_name (Raise e)]))
    /\ _issue_runner_metrics_loop self (m :: rest) total_stats s =
       match outcome step with
       | Ok job_metrics =>
           let answer := issue_events m job_metrics (manager_name self) (final step) in
           match fst answer with
           | Ok issued =>
               after
                 (trace step
                  ++ [runner_metrics_issue_events m job_metrics (manager_name self)
                        (Ok issued)])
                 (_issue_runner_metrics_loop self rest (tally issued total_stats)
                    (snd answer))
           | Raise e =>
               Run (Raise e) (snd answer)
                 (trace step
                  ++ [runner_metrics_issue_events m job_metrics (manager_name self)
                        (Raise e)])
           end
       | Raise e => Run (Raise e) (final step) (trace step)
       end.
Proof.
  intros runner_name. cbn [_issue_runner_metrics_loop].
  match goal with |- context [bind ?f _ s] => exists (f s) end.
  split.
  - destruct (RunnerMetrics.pre_job m) as [pre_job|]; [|left; auto].
    right. fold runner_name.
    destruct (job pre_job runner_name s) as [[j|e] s1] eqn:Hjob.
    + left. exists pre_job, j, s1. split; [reflexivity|]. split; [exact Hjob|].
      rewrite try_except_ok with (a := Some j);
        rewrite (bind_call_ok _ _ _ _ _ _ Hjob); reflexivity.
    + right. destruct (issubclass e GithubMetricsError) eqn:Hcls.
      * left. exists pre_job, e, s1. split; [reflexivity|]. split; [exact Hjob|].
        split; [exact Hcls|].
        erewrite try_except_caught;
          [| rewrite (bind_call_raise _ _ _ _ _ _ Hjob); reflexivity
           | simpl; rewrite Hcls; reflexivity].
        rewrite (bind_call_raise _ _ _ _ _ _ Hjob). reflexivity.
      * right. exists pre_job, e, s1. split; [reflexivity|]. split; [exact Hjob|].
        split; [exact Hcls|].
        rewrite try_except_uncaught with (e := e);
          rewrite ?(bind_call_raise _ _ _ _ _ _ Hjob); try reflexivity.
        simpl. rewrite Hcls. reflexivity.
  - unfold bind at 1.
    match goal with |- context [outcome ?r] => destruct (outcome r) as [j|e] end;
      [|reflexivity].
    match goal with |- context [issue_events m j ?f ?s1] =>
      destruct (issue_events m j f s1) as [[issued|e] s2] eqn:Hissue end.
    + rewrite (bind_call_ok _ _ _ _ _ _ Hissue), after_after. reflexivity.
    + rewrite (bind_call_raise _ _ _ _ _ _ Hissue). reflexivity.
Qed.

Lemma stat_of_tally issued stats event_type :
  stat_of (tally issued stats) event_type
  = (stat_of stats event_type + Z.of_nat (count_occ string_dec issued event_type))%Z.
Proof.
  revert stats. induction issued as [|ev issued IH]; intros stats.
  - simpl. lia.
  - unfold tally in *. cbn [fold_left]. rewrite IH.
    unfold stat_of at 1. rewrite (dict_get_set _ String.eqb_eq).
    cbn [count_occ].
    destruct (String.eqb_spec event_type ev) as [->|Hne].
    + destruct (string_dec ev ev) as [_|Hne]; [|congruence].
      fold (stat_of stats ev). lia.
    + destruct (string_dec ev event_type) as [Heq|_]; [congruence|].
      fold (stat_of stats event_type). lia.
Qed.

Lemma dict_mem_tally issued stats event_type :
  dict_mem String.eqb event_type (tally issued stats)
  = dict_mem String.eqb event_type stats || existsb (String.eqb event_type) issued.
Proof.
  revert stats. induction issued as [|ev issued IH]; intros stats.
  - simpl. now rewrite orb_false_r.
  - unfold tally in *. cbn [fold_left existsb]. rewrite IH.
    unfold dict_mem at 1. rewrite (dict_get_set _ String.eqb_eq).
    destruct (String.eqb event_type ev); simpl.
    + now rewrite orb_true_r.
    + reflexivity.
Qed.

Lemma _issue_runner_metrics_loop_counts metrics :
  forall total_stats (s : S) stats,
    outcome (_issue_runner_metrics_loop self metrics total_stats s) = Ok stats ->
    forall event_type,
      let issued :=
        issued_events (trace (_issue_runner_metrics_loop self metrics total_stats s)) in
      stat_of stats event_type
      = (stat_of total_stats event_type
         + Z.of_nat (count_occ string_dec issued event_type))%Z
      /\ dict_mem String.eqb event_type stats
         = dict_mem String.eqb event_type total_stats
           || existsb (String.eqb event_type) issued.
Proof.
  induction metrics as [|m rest IH]; intros total_stats s stats.
  - simpl. intros [= <-] event_type. split; [lia | now rewrite orb_false_r].
  - destruct (_issue_runner_metrics_loop_cons m rest total_stats s) as (step & Hstep & ->).
    assert (Hsilent : issued_events (trace step) = []).
    { destruct Hstep as [[_ ->]|[(? & ? & ? & _ & _ & ->)|[(? & ? & ? & _ & _ & _ & ->)
                                |(? & ? & ? & _ & _ & _ & ->)]]]; reflexivity. }
    destruct (outcome step) as [j|e]; [|discriminate].
    cbv zeta.
    destruct (issue_events m j (manager_name self) (final step)) as [[issued|e] s2];
      cbn [fst snd]; [|discriminate].
    cbn [after outcome trace]. intros Hrest event_type.
    pose proof (IH _ _ _ Hrest event_type) as Hrec. cbv zeta in Hrec |- *.
    destruct Hrec as [Hcount Hmem].
    rewrite !issued_events_app, Hsilent. cbn [issued_events app]. rewrite app_nil_r.
    rewrite count_occ_app, existsb_app, Hcount, Hmem, stat_of_tally, dict_mem_tally.
    split; [unfold EventType in *; lia | now rewrite orb_assoc].
Qed.

(** X4.  The statistics [_issue_runner_metrics] returns count the
    issued events: the count of an event type is the number of times the
    metrics pipeline reported it as issued, over all its calls, and the
    event types that are keys are exactly the ones reported at least
    once. *)
Theorem _issue_runner_metrics_counts_issued_events metrics (s : S) stats :
  outcome (_issue_runner_metrics self metrics s) = Ok stats ->
  forall event_type,
    let issued := issued_events (trace (_issue_runner_metrics self metrics s)) in
    stat_of stats event_type = Z.of_nat (count_occ string_dec issued event_type)
    /\ (dict_mem String.eqb event_type stats = true <-> In event_type issued).
Proof.
  intros Hrun event_type issued.
  destruct (_issue_runner_metrics_loop_counts metrics [] s stats Hrun event_type)
    as [Hcount Hmem].
  split; [exact Hcount|].
  fold issued in Hmem. rewrite Hmem. simpl. rewrite existsb_exists. split.
  - intros (x & Hx & Heq). apply String.eqb_eq in Heq. now subst x.
  - intros Hin. exists event_type. split; [exact Hin | apply String.eqb_refl].
Qed.

Lemma _issue_runner_metrics_loop_requests metrics :
  forall total_stats (s : S),
    is_ok (outcome (_issue_runner_metrics_loop self metrics total_stats s)) = true ->
    let tr := trace (_issue_runner_metrics_loop self metrics total_stats s) in
    map fst (issue_calls tr) = metrics
    /\ job_calls tr = jobs_due metrics
    /\ forall m job_metrics,
         In (m, Some job_metrics) (issue_calls tr) ->
         exists pre_job,
           RunnerMetrics.pre_job m = Some pre_job
           /\ In (github_metrics_job pre_job
                    (InstanceID.name (RunnerMetrics.instance_id m)) (Ok job_metrics)) tr.
Proof.
  induction metrics as [|m rest IH]; intros total_stats s.
  - simpl. intros _. repeat split. intros ? ? [].
  - destruct (_issue_runner_metrics_loop_cons m rest total_stats s) as (step & Hstep & ->).
    destruct (outcome step) as [j|e] eqn:Hj; [|discriminate].
    cbv zeta.
    destruct (issue_events m j (manager_name self) (final step)) as [[issued|e] s2];
      cbn [fst snd]; [|discriminate].
    cbn [after outcome trace]. intros Hrest.
    destruct (IH _ _ Hrest) as (Hissue & Hjobs & Hsome).
    rewrite <- !app_assoc, !issue_calls_app, !job_calls_app.
    cbn [issue_calls job_calls app].
    assert (Hquiet : issue_calls (trace step) = []
                     /\ job_calls (trace step)
                        = match RunnerMetrics.pre_job m with
                          | Some pre_job =>
                              [(pre_job, InstanceID.name (RunnerMetrics.instance_id m))]
                          | None => []
                          end
                     /\ forall j', j = Some j' ->
                          exists pre_job,
                            RunnerMetrics.pre_job m = Some pre_job
                            /\ In (github_metrics_job pre_job
                                     (InstanceID.name (RunnerMetrics.instance_id m)) (Ok j'))
                                  (trace step)).
    { destruct Hstep as [[Hpre ->]|[(pre & j0 & s1 & Hpre & _ & ->)
                                   |[(pre & e & s1 & Hpre & _ & _ & ->)
                                    |(pre & e & s1 & Hpre & _ & _ & ->)]]];
        rewrite Hpre; simpl in Hj |- *; repeat split; try discriminate; try congruence.
      injection Hj as <-. intros j' [= <-]. exists pre. auto. }
    destruct Hquiet as (Hq1 & Hq2 & Hq3).
    rewrite Hq1, Hq2. cbn [app map fst].
    split; [now rewrite Hissue|]. split.
    + unfold jobs_due in *. cbn [flat_map]. now rewrite Hjobs.
    + intros m' j' [Heq|Hin].
      * injection Heq as <- ->. destruct (Hq3 j' eq_refl) as (pre & Hpre & Hin).
        exists pre. split; [exact Hpre|]. apply in_or_app. auto.
      * destruct (Hsome _ _ Hin) as (pre & Hpre & Hin').
        exists pre. split; [exact Hpre|]. apply in_or_app. right. right. exact Hin'.
Qed.

(** X5.  An [_issue_runner_metrics] that returns has handed every
    runner metrics to the metrics pipeline, once each and in the order
    given, and has asked the coordination service for job metrics once
    for every runner metrics that has pre-job data, with that data and
    the runner's name, and for no other; job metrics handed to the
    pipeline are the answer to that runner's request. *)
Theorem _issue_runner_metrics_issues_each_once metrics (s : S) :
  is_ok (outcome (_issue_runner_metrics self metrics s)) = true ->
  let tr := trace (_issue_runner_metrics self metrics s) in
  map fst (issue_calls tr) = metrics
  /\ job_calls tr = jobs_due metrics
  /\ forall m job_metrics,
       In (m, Some job_metrics) (issue_calls tr) ->
       exists pre_job,
         RunnerMetrics.pre_job m = Some pre_job
         /\ In (github_metrics_job pre_job
                  (InstanceID.name (RunnerMetrics.instance_id m)) (Ok job_metrics)) tr.
Proof. apply _issue_runner_metrics_loop_requests. Qed.



(** *** Deleting runners *)

Lemma deleted_calls (runners : list RunnerInstance.t) remove_token (tr : list Event) :
  Forall2
    (fun runner ev =>
       exists metrics,
         ev = cloud_delete_runner (RunnerInstance.instance_id runner) remove_token
                (Ok metrics))
    runners tr ->
  cloud_deletions tr
  = map (fun runner => (RunnerInstance.instance_id runner, remove_token)) runners
  /\ issue_calls tr = [] /\ job_calls tr = []
  /\ forall id token e, ~ In (cloud_delete_runner id token (Raise e)) tr.
Proof.
  induction 1 as [|runner ev runners tr [metrics ->] _ (IH1 & IH2 & IH3 & IH4)]; simpl.
  - repeat split. intros ? ? ? [].
  - rewrite IH1. repeat split; auto.
    intros id token e [Heq|Hin]; [discriminate | exact (IH4 _ _ _ Hin)].
Qed.

(** The deletion loop either deletes every runner, or stops at the
    first deletion that fails and raises its error. *)
Lemma _delete_runners_loop_shape (runners : list RunnerInstance.t) remove_token :
  forall (runner_metrics_list : list RunnerMetrics.t) (s : S),
    let r := _delete_runners_loop runners remove_token runner_metrics_list s in
    (is_ok (outcome r) = true
     /\ Forall2
          (fun runner ev =>
             exists metrics,
               ev = cloud_delete_runner (RunnerInstance.instance_id runner) remove_token
                      (Ok metrics))
          runners (trace r))
    \/ (exists e done runner rest deleted,
          outcome r = Raise e
          /\ runners = done ++ runner :: rest
          /\ trace r
             = deleted
               ++ [cloud_delete_runner (RunnerInstance.instance_id runner) remove_token
                     (Raise e)]
          /\ Forall2
               (fun runner ev =>
                  exists metrics,
                    ev = cloud_delete_runner (RunnerInstance.instance_id runner)
                           remove_token (Ok metrics))
               done deleted).
Proof.
  induction runners as [|runner rest IH]; intros acc s; cbn [_delete_runners_loop].
  - left. split; [reflexivity | constructor].
  - destruct (cl_delete_runner (RunnerInstance.instance_id runner) remove_token s)
      as [[metrics|e] s1] eqn:Hdel.
    + rewrite (bind_call_ok _ _ _ _ _ _ Hdel). cbv zeta. cbn [after outcome trace].
      assert (Hnext : forall acc',
        (is_ok (outcome (_delete_runners_loop rest remove_token acc' s1)) = true
         /\ Forall2
              (fun runner0 ev =>
                 exists metrics0,
                   ev = cloud_delete_runner (RunnerInstance.instance_id runner0)
                          remove_token (Ok metrics0))
              (runner :: rest)
              ([cloud_delete_runner (RunnerInstance.instance_id runner) remove_token
                  (Ok metrics)]
               ++ trace (_delete_runners_loop rest remove_token acc' s1)))
        \/ (exists e done runner0 rest0 deleted,
              outcome (_delete_runners_loop rest remove_token acc' s1) = Raise e
              /\ runner :: rest = done ++ runner0 :: rest0
              /\ [cloud_delete_runner (RunnerInstance.instance_id runner) remove_token
                    (Ok metrics)]
                 ++ trace (_delete_runners_loop rest remove_token acc' s1)
                 = deleted
                   ++ [cloud_delete_runner (RunnerInstance.instance_id runner0)
                         remove_token (Raise e)]
              /\ Forall2
                   (fun runner1 ev =>
                      exists metrics0,
                        ev = cloud_delete_runner (RunnerInstance.instance_id runner1)
                               remove_token (Ok metrics0))
                   done deleted)).
      { intros acc'.
        destruct (IH acc' s1) as [[Hok Hall]|(e & done & runner0 & rest0 & deleted
                                                & He & Hsplit & Htrace & Hdone)].
        - left. split; [exact Hok|]. constructor; [eexists; reflexivity | exact Hall].
        - right. exists e, (runner :: done), runner0, rest0,
            (cloud_delete_runner (RunnerInstance.instance_id runner) remove_token (Ok metrics)
             :: deleted).
          split; [exact He|]. split; [simpl; now rewrite Hsplit|].
          split; [simpl; now rewrite Htrace|].
          constructor; [eexists; reflexivity | exact Hdone]. }
      destruct metrics as [metrics|]; apply Hnext.
    + rewrite (bind_call_raise _ _ _ _ _ _ Hdel). cbv zeta. cbn [outcome trace].
      right. exists e, [], runner, rest, []. repeat split. constructor.
Qed.

(** X7.  [_delete_runners] has no handler around a deletion: when the
    cloud runner manager fails to delete a runner, the error is raised
    to the caller, the runners after it in the list are not deleted, and
    no metrics are issued, not even those of the runners deleted before
    it. *)
Theorem _delete_runners_stops_at_the_first_failure
    (runners : list RunnerInstance.t) remove_token (s : S) id e :
  In (cloud_delete_runner id remove_token (Raise e))
    (trace (_delete_runners self runners remove_token s)) ->
  outcome (_delete_runners self runners remove_token s) = Raise e
  /\ exists done runner rest,
       runners = done ++ runner :: rest
       /\ RunnerInstance.instance_id runner = id
       /\ cloud_deletions (trace (_delete_runners self runners remove_token s))
          = map (fun runner => (RunnerInstance.instance_id runner, remove_token))
              (done ++ [runner])
       /\ issue_calls (trace (_delete_runners self runners remove_token s)) = []
       /\ job_calls (trace (_delete_runners self runners remove_token s)) = [].
Proof.
  unfold _delete_runners.
  destruct (_delete_runners_loop_shape runners remove_token [] s)
    as [[Hok Hall]|(e' & done & runner & rest & deleted & He & Hsplit & Htrace & Hdone)].
  - destruct (outcome (_delete_runners_loop runners remove_token [] s))
      as [runner_metrics_list|] eqn:Hloop; [|discriminate].
    rewrite (bind_ok _ _ _ _ Hloop). cbn [after trace]. intros Hin. exfalso.
    apply in_app_or in Hin. destruct Hin as [Hin|Hin].
    + destruct (deleted_calls _ _ _ Hall) as (_ & _ & _ & Hnone).
      exact (Hnone _ _ _ Hin).
    + pose proof (_issue_runner_metrics_calls self runner_metrics_list
                    (final (_delete_runners_loop runners remove_token [] s))) as Hcalls.
      rewrite forallb_forall in Hcalls. apply Hcalls in Hin. discriminate.
  - rewrite (bind_raise _ _ _ _ He), Htrace. cbn [outcome trace]. intros Hin.
    destruct (deleted_calls _ _ _ Hdone) as (Hdeleted & Hissue & Hjobs & Hnone).
    apply in_app_or in Hin. destruct Hin as [Hin|[Heq|[]]];
      [exfalso; exact (Hnone _ _ _ Hin)|].
    injection Heq as Hid He'. subst e'.
    split; [reflexivity|]. exists done, runner, rest.
    split; [exact Hsplit|]. split; [exact Hid|].
    rewrite cloud_deletions_app, issue_calls_app, job_calls_app, Hdeleted, Hissue, Hjobs.
    simpl. rewrite map_app. auto.
Qed.

Lemma _delete_runners_calls (runners : list RunnerInstance.t) remove_token (s : S) :
  is_ok (outcome (_delete_runners self runners remove_token s)) = true ->
  cloud_deletions (trace (_delete_runners self runners remove_token s))
  = map (fun runner => (RunnerInstance.instance_id runner, remove_token)) runners.
Proof.
  unfold _delete_runners.
  destruct (outcome (_delete_runners_loop runners remove_token [] s))
    as [runner_metrics_list|e] eqn:Hloop.
  - rewrite (bind_ok _ _ _ _ Hloop). cbn [after outcome trace]. intros _.
    rewrite cloud_deletions_app.
    rewrite (proj1 (proj2 (metrics_calls_silent _ (_issue_runner_metrics_calls self _ _)))).
    rewrite app_nil_r.
    apply (Forall2_cloud_deletions runners remove_token).
    apply _delete_runners_loop_calls. now rewrite Hloop.
  - rewrite (bind_raise _ _ _ _ Hloop). discriminate.
Qed.

(** X8.  A negative [num] is a Python slice from the end:
    [delete_runners(num)] that completes then deletes every runner of
    [get_runners()] but the last [-num], and none at all when there are
    no more than [-num]. *)
Theorem delete_runners_negative_spares_the_last
    (num : Z) (s : S) runners :
  (num < 0)%Z ->
  outcome (get_runners None None s) = Ok runners ->
  is_ok (outcome (delete_runners self num s)) = true ->
  exists remove_token deleted spared,
    runners = deleted ++ spared
    /\ List.length spared = Nat.min (Z.to_nat (- num)) (List.length runners)
    /\ cloud_deletions (trace (delete_runners self num s))
       = map (fun runner => (RunnerInstance.instance_id runner, remove_token)) deleted.
Proof.
  intros Hnum Hrunners. unfold delete_runners.
  rewrite (bind_ok _ _ _ _ Hrunners).
  destruct (gh_get_removal_token (final (get_runners None None s)))
    as [[remove_token|e] s1] eqn:Htoken.
  - rewrite (bind_call_ok _ _ _ _ _ _ Htoken). cbn [after outcome trace]. intros Hok.
    set (kept := List.length runners - Z.to_nat (- num)).
    exists remove_token, (firstn kept runners), (skipn kept runners).
    split; [symmetry; apply firstn_skipn|].
    split; [rewrite length_skipn; subst kept; lia|].
    rewrite cloud_deletions_app.
    rewrite (proj1 (proj2 (reads_silent _ (get_runners_only_reads None None s)))).
    cbn [app cloud_deletions].
    assert (Hslice : slice_to runners num = firstn kept runners).
    { unfold slice_to. destruct (Z.leb_spec 0 num); [lia | reflexivity]. }
    rewrite Hslice in *. apply _delete_runners_calls. exact Hok.
  - rewrite (bind_call_raise _ _ _ _ _ _ Htoken). discriminate.
Qed.

(** *** Creating runners *)

(** X9.  [create_runners] with [num] zero or negative builds an empty
    batch, which goes to the pool: a pool of no process is refused, so
    the call raises [ValueError] without having called anything. *)
Theorem create_runners_of_none_raises (num : Z) (reactive : bool) (s : S) :
  (num <= 0)%Z ->
  create_runners self num reactive s = Run (Raise ValueError) s [].
Proof.
  intros Hnum. unfold create_runners.
  replace (Z.to_nat num) with 0 by lia. reflexivity.
Qed.

(** What a creation job does, by the answers it gets. *)
Lemma _create_runner_cases args (s : S) :
  let reactive := _CreateRunnerArgs.reactive args in
  let labels := _CreateRunnerArgs.labels args in
  let r := _create_runner args s in
  (exists e,
      outcome r = Raise e /\ trace r = [InstanceID_build name_prefix reactive (Raise e)])
  \/ (exists instance_id e,
        outcome r = Raise e
        /\ trace r = [InstanceID_build name_prefix reactive (Ok instance_id);
                      github_get_registration_jittoken instance_id labels (Raise e)])
  \/ (exists instance_id token github_runner,
        outcome r = Ok instance_id
        /\ trace r = [InstanceID_build name_prefix reactive (Ok instance_id);
                      github_get_registration_jittoken instance_id labels
                        (Ok (token, github_runner));
                      cloud_create_runner instance_id token (Ok tt)])
  \/ (exists instance_id token github_runner e,
        issubclass e RunnerError = false
        /\ outcome r = Raise e
        /\ trace r = [InstanceID_build name_prefix reactive (Ok instance_id);
                      github_get_registration_jittoken instance_id labels
                        (Ok (token, github_runner));
                      cloud_create_runner instance_id token (Raise e)])
  \/ (exists instance_id token github_runner e deletion,
        issubclass e RunnerError = true
        /\ outcome r = Raise (match deletion with Ok _ => e | Raise e' => e' end)
        /\ trace r = [InstanceID_build name_prefix reactive (Ok instance_id);
                      github_get_registration_jittoken instance_id labels
                        (Ok (token, github_runner));
                      cloud_create_runner instance_id token (Raise e);
                      github_delete_runners [github_runner] deletion]).
Proof.
  intros reactive labels r. subst r. unfold _create_runner. fold reactive labels.
  destruct (build name_prefix reactive s) as [[instance_id|e] s1] eqn:Hbuild.
  2:{ left. exists e. rewrite (bind_call_raise _ _ _ _ _ _ Hbuild). auto. }
  right. rewrite (bind_call_ok _ _ _ _ _ _ Hbuild).
  destruct (gh_get_registration_jittoken instance_id labels s1)
    as [[[token github_runner]|e] s2] eqn:Hregister.
  2:{ left. exists instance_id, e. rewrite (bind_call_raise _ _ _ _ _ _ Hregister). auto. }
  right. rewrite (bind_call_ok _ _ _ _ _ _ Hregister). cbn [fst snd].
  destruct (cl_create_runner instance_id token s2) as [[[]|e] s3] eqn:Hcreate.
  - left. exists instance_id, token, github_runner.
    rewrite bind_ok with (a := tt);
      rewrite try_except_ok with (a := tt);
      rewrite ?(call_ok _ _ _ _ _ Hcreate); try reflexivity.
    auto.
  - right. destruct (issubclass e RunnerError) eqn:Hcls.
    + right.
      destruct (gh_delete_runners [github_runner] s3) as [deletion s4] eqn:Hdelete.
      exists instance_id, token, github_runner, e, deletion.
      split; [exact Hcls|].
      match goal with |- context [bind (try_except ?m ?h) ?k s2] =>
        assert (Hrun :
          bind (try_except m h) k s2
          = Run (match deletion with Ok _ => Raise e | Raise e' => Raise e' end) s4
              [cloud_create_runner instance_id token (Raise e);
               github_delete_runners [github_runner] deletion])
      end.
      { unfold bind at 1.
        erewrite try_except_caught;
          [| rewrite (call_ok _ _ _ _ _ Hcreate); reflexivity
           | simpl; rewrite Hcls; reflexivity].
        rewrite (call_ok _ _ _ _ _ Hcreate). cbn [outcome final trace].
        unfold bind, call. rewrite Hdelete.
        destruct deletion as [[]|e']; reflexivity. }
      rewrite Hrun. destruct deletion as [[]|e']; split; reflexivity.
    + left. exists instance_id, token, github_runner, e.
      split; [exact Hcls|].
      rewrite bind_raise with (e := e);
        rewrite try_except_uncaught with (e := e);
        rewrite ?(call_ok _ _ _ _ _ Hcreate); try reflexivity;
        try (simpl; rewrite Hcls; reflexivity).
      auto.
Qed.

(** X10.  The instance ID a creation job returns is the one it minted
    under the cloud manager's name prefix, registered with the labels of
    the job, and launched with the token of that registration, in this
    order; the job has made no other call, so nothing is deleted on
    success. *)
Theorem _create_runner_returns_a_launched_runner args (s : S) instance_id :
  outcome (_create_runner args s) = Ok instance_id ->
  exists token github_runner,
    trace (_create_runner args s)
    = [InstanceID_build name_prefix (_CreateRunnerArgs.reactive args) (Ok instance_id);
       github_get_registration_jittoken instance_id (_CreateRunnerArgs.labels args)
         (Ok (token, github_runner));
       cloud_create_runner instance_id token (Ok tt)].
Proof.
  intros Hok.
  destruct (_create_runner_cases args s)
    as [(e & He & _)|[(id & e & He & _)|[(id & token & github_runner & Hid & Htrace)
       |[(id & token & github_runner & e & _ & He & _)
        |(id & token & github_runner & e & deletion & _ & He & _)]]]];
    rewrite Hok in *; try discriminate.
  injection Hid as <-. exists token, github_runner. exact Htrace.
Qed.

(** X11.  The only registration a creation job ever asks the
    coordination service to delete is the one it has obtained itself,
    and only after the cloud failed the launch of that runner with a
    runner error. *)
Theorem _create_runner_deletes_only_its_own_registration args (s : S) runners deletion :
  In (github_delete_runners runners deletion) (trace (_create_runner args s)) ->
  exists instance_id token github_runner e,
    runners = [github_runner]
    /\ In (github_get_registration_jittoken instance_id (_CreateRunnerArgs.labels args)
             (Ok (token, github_runner)))
         (trace (_create_runner args s))
    /\ In (cloud_create_runner instance_id token (Raise e)) (trace (_create_runner args s))
    /\ issubclass e RunnerError = true.
Proof.
  destruct (_create_runner_cases args s)
    as [(e & _ & ->)|[(id & e & _ & ->)|[(id & token & github_runner & _ & ->)
       |[(id & token & github_runner & e & _ & _ & ->)
        |(id & token & github_runner & e & deletion' & Hcls & _ & ->)]]]];
    simpl; intros Hin;
    repeat match type of Hin with _ \/ _ => destruct Hin as [Hin|Hin] end;
    try discriminate; try contradiction.
  injection Hin as <- <-. exists id, token, github_runner, e. auto 10.
Qed.

Lemma collect_jobs_raises (good : list (result InstanceID.t)) :
  forall (n : nat) (rest : list (result InstanceID.t)) (instance_id_list : list InstanceID.t)
         (s : S) e,
    List.length good < n ->
    Forall SpecCreate.fails_with_runner_error good ->
    issubclass e RunnerError = false ->
    issubclass e StopIteration = false ->
    collect_jobs n (good ++ Raise e :: rest) instance_id_list s =
    Run (Raise e) s
      (map (fun e => log (exception spawn_failed_message e)) (SpecCreate.failures good)).
Proof.
  induction good as [|j good IH]; intros n rest acc s e Hlen Hgood Hrunner Hstop.
  - destruct n as [|n]; [simpl in Hlen; lia|]. simpl. rewrite Hrunner, Hstop. reflexivity.
  - destruct n as [|n]; [simpl in Hlen; lia|].
    simpl in Hlen. inversion Hgood as [|? ? Hj Hrest]; subst.
    destruct j as [id|e0]; simpl.
    + rewrite IH by (auto; lia). reflexivity.
    + simpl in Hj. rewrite Hj, bind_emit, IH by (auto; lia). reflexivity.
Qed.

(** X12.  In a batch of more than one, only runner errors of a job are
    logged and passed over: the first job whose error is neither a
    runner error nor [StopIteration] makes [create_runners] raise that
    error, and the instance IDs of the jobs that succeeded are not
    returned. *)
Theorem create_runners_raises_other_errors
    (num : Z) (reactive : bool) (s s' : S) (good rest : list (result InstanceID.t)) e :
  (1 < num)%Z ->
  imap_unordered (Nat.min (Z.to_nat num) 10)
    (repeat (_CreateRunnerArgs.Build (_labels self ++ GITHUB_DEFAULT_LABELS) reactive)
       (Z.to_nat num)) s
  = (Ok (good ++ Raise e :: rest), s') ->
  List.length good < Z.to_nat num ->
  Forall SpecCreate.fails_with_runner_error good ->
  issubclass e RunnerError = false ->
  issubclass e StopIteration = false ->
  outcome (create_runners self num reactive s) = Raise e.
Proof.
  intros Hnum Hpool Hlen Hgood Hrunner Hstop.
  assert (Hn : 1 < Z.to_nat num) by lia.
  unfold create_runners, _spawn_runners.
  destruct (repeat_not_single
              (_CreateRunnerArgs.Build (_labels self ++ GITHUB_DEFAULT_LABELS) reactive)
              _ Hn)
    as (x & y & more & Hrepeat).
  revert Hpool. rewrite Hrepeat. intros Hpool.
  unfold _spawn_runners_using_multiprocessing.
  rewrite <- Hrepeat, repeat_length.
  destruct (Nat.ltb_spec (Nat.min (Z.to_nat num) 10) 1) as [Hlt|_]; [lia|].
  rewrite Hrepeat in *.
  rewrite (bind_call_ok _ _ _ _ _ _ Hpool), collect_jobs_raises by assumption.
  reflexivity.
Qed.

(** *** The cleanup pass *)

Lemma cloud_cleanups_app (a b : list Event) :
  cloud_cleanups (a ++ b) = cloud_cleanups a ++ cloud_cleanups b.
Proof.
  induction a as [|ev a IH]; simpl; [reflexivity|].
  destruct ev; simpl; now rewrite ?IH.
Qed.

Lemma _cleanup_github_offline_runners_calls (s : S) :
  cloud_deletions (trace (_cleanup_github_offline_runners s)) = []
  /\ removal_tokens (trace (_cleanup_github_offline_runners s)) = []
  /\ cloud_cleanups (trace (_cleanup_github_offline_runners s)) = [].
Proof.
  unfold _cleanup_github_offline_runners.
  assert (Hreads : forall tr : list Event,
             forallb (fun ev => is_read ev || is_log ev) tr = true ->
             cloud_cleanups tr = []).
  { induction tr as [|ev tr IH]; simpl; [reflexivity|].
    intros H. apply andb_true_iff in H. destruct H as [Hev Htr].
    destruct ev; simpl in Hev; try discriminate; auto. }
  pose proof (get_runners_only_reads None None s) as Hget.
  destruct (reads_silent _ Hget) as (_ & Hc & Ht).
  rewrite trace_bind, !cloud_deletions_app, !removal_tokens_app, !cloud_cleanups_app.
  rewrite Hc, Ht, (Hreads _ Hget). cbn [app].
  destruct (outcome (get_runners None None s)) as [cloud_instances|e]; [|auto].
  rewrite trace_bind, run_call. cbn [trace outcome final].
  match goal with |- context [fst ?r] => destruct r as [[offline|e] s1] end;
    cbn [fst snd]; [|auto].
  rewrite run_call. auto.
Qed.

(** X13.  The engine's [cleanup] never deletes a cloud runner itself:
    it calls the cloud runner manager's cleanup at most once, and when
    it does, the offline reconciliation has completed before and the
    token handed over is the one removal token it has obtained. *)
Theorem cleanup_delegates_to_the_cloud_manager (s : S) :
  let tr := trace (cleanup self s) in
  cloud_deletions tr = []
  /\ (cloud_cleanups tr = []
      \/ exists remove_token,
           cloud_cleanups tr = [remove_token]
           /\ removal_tokens tr = [Ok remove_token]
           /\ outcome (_cleanup_github_offline_runners s) = Ok tt).
Proof.
  cbv zeta. unfold cleanup.
  destruct (_cleanup_github_offline_runners_calls s) as (Hc & Ht & Hcl).
  rewrite trace_bind, !cloud_deletions_app, !removal_tokens_app, !cloud_cleanups_app.
  rewrite Hc, Ht, Hcl. cbn [app].
  destruct (outcome (_cleanup_github_offline_runners s)) as [[]|e]; [|auto].
  rewrite trace_bind, run_call. cbn [trace outcome final].
  match goal with |- context [fst ?r] => destruct r as [[remove_token|e] s1] end;
    cbn [fst snd app cloud_deletions removal_tokens cloud_cleanups]; [|auto].
  rewrite trace_bind, run_call. cbn [trace outcome final].
  match goal with |- context [fst ?r] => destruct r as [[metrics|e] s2] end;
    cbn [fst snd app cloud_deletions removal_tokens cloud_cleanups].
  - destruct (metrics_calls_silent _ (_issue_runner_metrics_calls self metrics s2))
      as (_ & Hm & Hm').
    assert (Hm'' : cloud_cleanups (trace (_issue_runner_metrics self metrics s2)) = []).
    { pose proof (_issue_runner_metrics_calls self metrics s2) as Hcalls.
      induction (trace (_issue_runner_metrics self metrics s2)) as [|ev tr IH];
        [reflexivity|].
      simpl in Hcalls. apply andb_true_iff in Hcalls. destruct Hcalls as [Hev Htr].
      destruct ev; simpl in Hev; try discriminate; simpl; auto. }
    rewrite Hm, Hm', Hm''. split; [reflexivity|]. right. exists remove_token. auto.
  - split; [reflexivity|]. right. exists remove_token. auto.
Qed.
End EngineExtra.

(** * More of the engine at work on the in-memory fleet *)

Lemma get_runners_honours_filters_witness :
  let r :=
    RunnerManager.RunnerInstance__init__ (Fleet.server (Fleet.pool_id "n-3") HEALTHY ACTIVE)
      (Some (Fleet.idle (Fleet.pool_id "n-3"))) in
  (forall states, Some [ACTIVE] = Some states ->
     In (RunnerManager.RunnerInstance.cloud_state r) states)
  /\ (forall states, Some [IDLE] = Some states ->
        exists st, RunnerManager.RunnerInstance.github_state r = Some st /\ In st states).
Proof.
  apply (get_runners_honours_filters (Some [IDLE]) (Some [ACTIVE]) Fleet.fleet_of_five
           [Mishaps.runner "n-1" (Some IDLE); Mishaps.runner "n-3" (Some IDLE);
            Mishaps.runner "n-5" (Some IDLE)]).
  - reflexivity.
  - simpl. auto.
Defined.

Lemma get_runners_one_per_cloud_instance_witness :
  NoDup
    (map RunnerManager.RunnerInstance.name
       [Mishaps.runner "n-1" (Some IDLE); Mishaps.runner "n-2" None;
        Mishaps.runner "n-3" (Some IDLE); Mishaps.runner "n-4" None;
        Mishaps.runner "n-5" (Some IDLE)]).
Proof.
  apply (get_runners_one_per_cloud_instance None None
           Fleet.fleet_of_five Fleet.fleet_of_five Fleet.fleet_of_five
           (Fleet.registrations Fleet.fleet_of_five) (Fleet.instances Fleet.fleet_of_five));
    reflexivity.
Defined.

Lemma get_runners_merges_registered_instances_witness :
  exists r g',
    In r [Mishaps.runner "n-1" (Some IDLE); Mishaps.runner "n-2" None;
          Mishaps.runner "n-3" (Some IDLE); Mishaps.runner "n-4" None;
          Mishaps.runner "n-5" (Some IDLE)]
    /\ RunnerManager.RunnerInstance.name r = "n-3"
    /\ In g' (Fleet.registrations Fleet.fleet_of_five)
    /\ InstanceID.name (SelfHostedRunner.instance_id g') = "n-3"
    /\ RunnerManager.RunnerInstance.github_state r
       = Some (from_runner (SelfHostedRunner.online g') (SelfHostedRunner.busy g')).
Proof.
  apply (get_runners_merges_registered_instances
           Fleet.fleet_of_five Fleet.fleet_of_five Fleet.fleet_of_five
           (Fleet.registrations Fleet.fleet_of_five) (Fleet.instances Fleet.fleet_of_five)
           _ (Fleet.server (Fleet.pool_id "n-3") HEALTHY ACTIVE)
           (Fleet.idle (Fleet.pool_id "n-3")));
    try reflexivity; simpl; auto.
Defined.

(** Two runner metrics, one with pre-job data: one request for job
    metrics, two calls of the pipeline, two events counted. *)
Example _issue_runner_metrics_of_two :
  let r :=
    RunnerManager._issue_runner_metrics Fleet.manager
      [Mishaps.with_pre_job "n-1"; Mishaps.without_pre_job "n-2"] Mishaps.empty_fleet in
  outcome r = Ok [("RunnerStop", 2%Z)]
  /\ MoreCalls.job_calls (trace r) = [(pre_job_metrics "pre-job", "n-1")]
  /\ MoreCalls.issue_calls (trace r)
     = [(Mishaps.with_pre_job "n-1", Some (github_job_metrics "job"));
        (Mishaps.without_pre_job "n-2", None)].
Proof. repeat split. Qed.

Lemma _issue_runner_metrics_counts_issued_events_witness :
  let issued :=
    MoreCalls.issued_events
      (trace
         (RunnerManager._issue_runner_metrics Fleet.manager
            [Mishaps.with_pre_job "n-1"; Mishaps.without_pre_job "n-2"]
            Mishaps.empty_fleet)) in
  MoreCalls.stat_of [("RunnerStop", 2%Z)] "RunnerStop"
  = Z.of_nat (count_occ string_dec issued "RunnerStop")
  /\ (dict_mem String.eqb "RunnerStop" [("RunnerStop", 2%Z)] = true
      <-> In "RunnerStop" issued).
Proof.
  apply (_issue_runner_metrics_counts_issued_events Fleet.manager
           [Mishaps.with_pre_job "n-1"; Mishaps.without_pre_job "n-2"] Mishaps.empty_fleet
           [("RunnerStop", 2%Z)]).
  reflexivity.
Defined.

Lemma _issue_runner_metrics_issues_each_once_witness :
  let tr :=
    trace
      (RunnerManager._issue_runner_metrics Fleet.manager
         [Mishaps.with_pre_job "n-1"; Mishaps.without_pre_job "n-2"] Mishaps.empty_fleet) in
  map fst (MoreCalls.issue_calls tr)
  = [Mishaps.with_pre_job "n-1"; Mishaps.without_pre_job "n-2"]
  /\ MoreCalls.job_calls tr
     = MoreCalls.jobs_due [Mishaps.with_pre_job "n-1"; Mishaps.without_pre_job "n-2"].
Proof.
  edestruct (_issue_runner_metrics_issues_each_once Fleet.manager
               [Mishaps.with_pre_job "n-1"; Mishaps.without_pre_job "n-2"]
               Mishaps.empty_fleet)
    as (Hissue & Hjobs & _); [reflexivity|].
  split; [exact Hissue | exact Hjobs].
Defined.

(** With the pipeline down, the first call of the pipeline ends
    [_issue_runner_metrics]; the failed request for job metrics before it
    did not. *)
Example _issue_runner_metrics_pipeline_down :
  RunnerManager._issue_runner_metrics (platform := Mishaps.pipeline_down) Fleet.manager
    [Mishaps.with_pre_job "n-1"; Mishaps.without_pre_job "n-2"] Mishaps.empty_fleet
  = Run (Raise OtherException) Mishaps.empty_fleet
      [RunnerManager.github_metrics_job (pre_job_metrics "pre-job") "n-1"
         (Raise GithubMetricsError);
       RunnerManager.log (exception RunnerManager.job_metrics_failed_message GithubMetricsError);
       RunnerManager.runner_metrics_issue_events (Mishaps.with_pre_job "n-1") None "flavor"
         (Raise OtherException)].
Proof. reflexivity. Qed.


(** The second of three runners cannot be deleted: the third is left
    alone and the metrics of the first are not issued. *)
Example _delete_runners_stuck_instance :
  let r :=
    RunnerManager._delete_runners (cloud := Mishaps.stuck_instance) Fleet.manager
      [Mishaps.runner "n-1" None; Mishaps.runner "n-2" None; Mishaps.runner "n-3" None]
      "remove-token" Fleet.fleet_of_five in
  outcome r = Raise OpenstackError
  /\ trace r
     = [RunnerManager.cloud_delete_runner (Fleet.pool_id "n-1") "remove-token"
          (Ok (Some (Mishaps.without_pre_job "n-1")));
        RunnerManager.cloud_delete_runner (Fleet.pool_id "n-2") "remove-token"
          (Raise OpenstackError)].
Proof. split; reflexivity. Qed.

Lemma _delete_runners_stops_at_the_first_failure_witness :
  let r :=
    RunnerManager._delete_runners (cloud := Mishaps.stuck_instance) Fleet.manager
      [Mishaps.runner "n-1" None; Mishaps.runner "n-2" None; Mishaps.runner "n-3" None]
      "remove-token" Fleet.fleet_of_five in
  outcome r = Raise OpenstackError /\ MoreCalls.issue_calls (trace r) = [].
Proof.
  edestruct (_delete_runners_stops_at_the_first_failure
               (cloud := Mishaps.stuck_instance) Fleet.manager
               [Mishaps.runner "n-1" None; Mishaps.runner "n-2" None;
                Mishaps.runner "n-3" None]
               "remove-token" Fleet.fleet_of_five (Fleet.pool_id "n-2") OpenstackError)
    as (Hraise & done & runner & rest & _ & _ & _ & Hissue & _).
  - simpl. auto.
  - split; [exact Hraise | exact Hissue].
Defined.

Lemma delete_runners_negative_spares_the_last_witness :
  exists remove_token deleted spared,
    [Mishaps.runner "n-1" (Some IDLE); Mishaps.runner "n-2" None;
     Mishaps.runner "n-3" (Some IDLE); Mishaps.runner "n-4" None;
     Mishaps.runner "n-5" (Some IDLE)] = deleted ++ spared
    /\ List.length spared = 2
    /\ Calls.cloud_deletions
         (trace (RunnerManager.delete_runners Fleet.manager (-2) Fleet.fleet_of_five))
       = map (fun runner => (RunnerManager.RunnerInstance.instance_id runner, remove_token))
           deleted.
Proof.
  apply (delete_runners_negative_spares_the_last Fleet.manager (-2) Fleet.fleet_of_five);
    [lia | reflexivity | reflexivity].
Defined.

Lemma create_runners_of_none_raises_witness :
  RunnerManager.create_runners Fleet.manager 0 false Mishaps.empty_fleet
  = Run (Raise ValueError) Mishaps.empty_fleet [].
Proof.
  apply (create_runners_of_none_raises Fleet.manager 0 false Mishaps.empty_fleet). lia.
Defined.

Lemma _create_runner_returns_a_launched_runner_witness :
  let id := InstanceID.Build "unit-0" true in
  exists token github_runner,
    trace
      (RunnerManager._create_runner
         (RunnerManager._CreateRunnerArgs.Build ["openstack"] true) Mishaps.empty_fleet)
    = [RunnerManager.InstanceID_build "unit" true (Ok id);
       RunnerManager.github_get_registration_jittoken id ["openstack"]
         (Ok (token, github_runner));
       RunnerManager.cloud_create_runner id token (Ok tt)].
Proof.
  assert (Hrun :
    outcome
      (RunnerManager._create_runner
         (RunnerManager._CreateRunnerArgs.Build ["openstack"] true) Mishaps.empty_fleet)
    = Ok (InstanceID.Build "unit-0" true)) by reflexivity.
  exact (_create_runner_returns_a_launched_runner
           (RunnerManager._CreateRunnerArgs.Build ["openstack"] true) Mishaps.empty_fleet
           (InstanceID.Build "unit-0" true) Hrun).
Defined.

Lemma _create_runner_deletes_only_its_own_registration_witness :
  let tr :=
    trace
      (RunnerManager._create_runner
         (RunnerManager._CreateRunnerArgs.Build ["openstack"] false) Fleet.rejecting_cloud) in
  exists instance_id token github_runner e,
    [Fleet.offline (InstanceID.Build "unit-0" false)] = [github_runner]
    /\ In (RunnerManager.github_get_registration_jittoken instance_id ["openstack"]
             (Ok (token, github_runner))) tr
    /\ In (RunnerManager.cloud_create_runner instance_id token (Raise e)) tr
    /\ issubclass e RunnerError = true.
Proof.
  assert (Hin :
    In (RunnerManager.github_delete_runners
          [Fleet.offline (InstanceID.Build "unit-0" false)] (Ok tt))
      (trace
         (RunnerManager._create_runner
            (RunnerManager._CreateRunnerArgs.Build ["openstack"] false)
            Fleet.rejecting_cloud))) by (simpl; auto).
  exact (_create_runner_deletes_only_its_own_registration
           (RunnerManager._CreateRunnerArgs.Build ["openstack"] false) Fleet.rejecting_cloud
           [Fleet.offline (InstanceID.Build "unit-0" false)] (Ok tt) Hin).
Defined.

(** Three jobs, the second crashed: the error reaches the caller and the
    instance ID of the first job is lost. *)
Example create_runners_pool_crash :
  RunnerManager.create_runners Fleet.manager 3 false Mishaps.pool_crash
  = Run (Raise OtherException) Mishaps.pool_crash
      [RunnerManager.pool_imap_unordered 3
         (repeat (RunnerManager._CreateRunnerArgs.Build
                    ["openstack"; "self-hosted"; "linux"] false) 3)
         (Ok (Fleet.pool_outcomes Mishaps.pool_crash))].
Proof. reflexivity. Qed.

Lemma create_runners_raises_other_errors_witness :
  outcome (RunnerManager.create_runners Fleet.manager 3 false Mishaps.pool_crash)
  = Raise OtherException.
Proof.
  apply (create_runners_raises_other_errors Fleet.manager 3 false
           Mishaps.pool_crash Mishaps.pool_crash
           [Ok (Fleet.pool_id "n-3")] [Ok (Fleet.pool_id "n-1")] OtherException).
  - lia.
  - reflexivity.
  - simpl. lia.
  - repeat constructor.
  - reflexivity.
  - reflexivity.
Defined.

(** * More about the OpenStack manager *)

Section OpenstackExtra.
Import OpenstackRunnerManager OpenstackCalls SpecHealth MoreOpenstackCalls.
Context {S Iter Metrics : Type} {env : Environment S Iter Metrics}.
Local Abbreviation Event := (Event Iter Metrics).

(** *** Listing *)

Lemma get_runner_loop_found get_name_of id (instances_list : list OpenstackInstance.t) r :
  get_runner_loop (env := env) get_name_of id instances_list = Some r ->
  CloudRunnerInstance.name r = get_name_of
  /\ CloudRunnerInstance.id r = id
  /\ exists instance,
       In instance instances_list
       /\ OpenstackInstance.server_name instance = get_name_of
       /\ CloudRunnerInstance.state r
          = from_openstack_server_status (OpenstackInstance.status instance).
Proof.
  induction instances_list as [|instance rest IH]; simpl; [discriminate|].
  destruct (String.eqb_spec (OpenstackInstance.server_name instance) get_name_of)
    as [Hname|Hname].
  - intros [= <-]. simpl. repeat split. exists instance. auto.
  - intros H. destruct (IH H) as (Hn & Hi & instance' & Hin & Hrest).
    repeat split; auto. exists instance'. split; [right; exact Hin | exact Hrest].
Qed.

Lemma get_runner_loop_missing get_name_of id (instances_list : list OpenstackInstance.t) :
  get_runner_loop (env := env) get_name_of id instances_list = None ->
  ~ In get_name_of (map OpenstackInstance.server_name instances_list).
Proof.
  induction instances_list as [|instance rest IH]; simpl; [tauto|].
  destruct (String.eqb_spec (OpenstackInstance.server_name instance) get_name_of)
    as [Hname|Hname]; [discriminate|].
  intros H [Heq|Hin]; [exact (Hname Heq) | exact (IH H Hin)].
Qed.

(** X14.  [get_runner] and [get_runners] agree: the runner [get_runner]
    returns for an instance ID carries that ID and the server name
    derived from it, and an unfiltered [get_runners] from the same state
    lists a runner of that name in the same state; [get_runner] returns
    [None] exactly when [get_runners] lists no runner of that name; and
    both fail with the error of the provider's listing. *)
Theorem get_runner_agrees_with_get_runners
    (get_server_name : InstanceId -> string) (id : InstanceId) (s : S) :
  match outcome (get_runner get_server_name id s), outcome (get_runners None s) with
  | Ok (Some r), Ok listed =>
      CloudRunnerInstance.name r = get_server_name id
      /\ CloudRunnerInstance.id r = id
      /\ exists r',
           In r' listed
           /\ CloudRunnerInstance.name r' = CloudRunnerInstance.name r
           /\ CloudRunnerInstance.state r' = CloudRunnerInstance.state r
  | Ok None, Ok listed => ~ In (get_server_name id) (map CloudRunnerInstance.name listed)
  | Raise e, Raise e' => e = e'
  | _, _ => False
  end.
Proof.
  unfold get_runner, get_runners.
  destruct (os_get_instances s) as [[instances_list|e] s1] eqn:Hlist.
  - rewrite !(bind_call_ok _ _ _ _ _ _ Hlist). cbn [after outcome ret].
    destruct (get_runner_loop (env := env) (get_server_name id) id instances_list)
      as [r|] eqn:Hloop.
    + destruct (get_runner_loop_found _ _ _ _ Hloop)
        as (Hname & Hid & instance & Hin & Hserver & Hstate).
      split; [exact Hname|]. split; [exact Hid|].
      eexists. split; [apply in_map; exact Hin|]. simpl.
      rewrite Hname, Hstate. auto.
    + rewrite map_map. simpl. apply get_runner_loop_missing with (id := id). exact Hloop.
  - rewrite !(bind_call_raise _ _ _ _ _ _ Hlist). reflexivity.
Qed.

(** *** Attempts and the waits between them *)

Lemma sleeps_app (a b : list Event) : sleeps (a ++ b) = sleeps a ++ sleeps b.
Proof.
  induction a as [|ev a IH]; simpl; [reflexivity|].
  destruct ev; simpl; now rewrite ?IH.
Qed.

Lemma connections_app (a b : list Event) :
  connections (a ++ b) = connections a ++ connections b.
Proof.
  induction a as [|ev a IH]; simpl; [reflexivity|].
  destruct ev; simpl; now rewrite ?IH.
Qed.

Lemma within_an_attempt_silent (tr : list Event) :
  forallb within_an_attempt tr = true -> sleeps tr = [] /\ connections tr = [].
Proof.
  induction tr as [|ev tr IH]; simpl; [auto|].
  intros H. apply andb_true_iff in H. destruct H as [Hev Htr].
  destruct ev; simpl in Hev; try discriminate; auto.
Qed.

Lemma delays_fixed (k : nat) (delay : Z) : delays k delay 1 = repeat delay k.
Proof.
  induction k as [|k IH]; simpl; [reflexivity|]. now rewrite Z.mul_1_r, IH.
Qed.

(** A retried function that connects once in every attempt: the waits
    are those of the failed attempts before the last one, and there is
    one attempt more than there are waits. *)
Lemma retry_attempts {A} (func : M S Event A) (instance : OpenstackInstance.t) :
  (forall s, sleeps (trace (func s)) = [] /\ connections (trace (func s)) = [instance]) ->
  forall (more : nat) delay backoff (s : S),
    let r := retry (Datatypes.S more) delay backoff func s in
    exists k,
      k <= more
      /\ sleeps (trace r) = delays k delay backoff
      /\ connections (trace r) = repeat instance (Datatypes.S k)
      /\ (is_ok (outcome r) = false -> k = more).
Proof.
  intros Hfunc. induction more as [|more IH]; intros delay backoff s.
  - exists 0. destruct (Hfunc s) as [Hs Hc]. simpl. auto.
  - change (retry (Datatypes.S (Datatypes.S more)) delay backoff func)
      with (try_except func
              [([Exception],
                fun _ : exn =>
                  bind (emit (sleep delay))
                    (fun _ => retry (Datatypes.S more) (delay * backoff) backoff func))]).
    destruct (Hfunc s) as [Hs Hc].
    pose proof (IH (delay * backoff)%Z backoff (final (func s))) as Hrec.
    cbv zeta in Hrec.
    set (rest := retry (Datatypes.S more) (delay * backoff) backoff func) in *.
    destruct (outcome (func s)) as [a|e] eqn:Hout.
    + exists 0. cbv zeta. rewrite (try_except_ok _ _ _ _ Hout), Hout.
      split; [lia|]. split; [exact Hs|]. split; [exact Hc | discriminate].
    + cbv zeta. erewrite try_except_caught;
        [| exact Hout | simpl; rewrite issubclass_Exception; reflexivity].
      rewrite bind_emit. unfold after. cbn [outcome trace final].
      destruct Hrec as (k & Hk & Hsleeps & Hconns & Hlast).
      exists (Datatypes.S k).
      rewrite !sleeps_app, !connections_app, Hs, Hc.
      cbn [app sleeps connections]. rewrite Hsleeps, Hconns.
      split; [lia|]. split; [reflexivity|]. split; [reflexivity|].
      intros Hfail. rewrite (Hlast Hfail). reflexivity.
Qed.

Lemma _run_health_check_within ssh_conn name :
  quiet within_an_attempt (_run_health_check (env := env) ssh_conn name).
Proof. unfold _run_health_check. repeat quiet_step. Qed.

Lemma _health_check_once_attempt instance (s : S) :
  sleeps (trace (_health_check_once instance s)) = []
  /\ connections (trace (_health_check_once instance s)) = [instance].
Proof.
  destruct (os_get_ssh_connection instance s) as [[ssh_conn|e] s1] eqn:Hconn.
  - rewrite (_health_check_once_connected _ _ _ _ Hconn). cbn [after trace app].
    cbn [sleeps connections].
    destruct (within_an_attempt_silent _
                (_run_health_check_within ssh_conn
                   (OpenstackInstance.server_name instance) s1)) as [-> ->].
    auto.
  - rewrite (_health_check_once_failed _ _ _ _ Hconn). cbn [trace].
    destruct (issubclass e SshError); auto.
Qed.

(** X15.  A health check makes three attempts at most, each opening one
    connection to the instance; it waits only after a failed attempt, 5
    seconds after the first and 10 after the second, and it raises only
    when the third attempt has failed. *)
Theorem _health_check_backs_off instance (s : S) :
  exists failed,
    failed <= 2
    /\ sleeps (trace (_health_check instance s)) = firstn failed [5; 10]%Z
    /\ connections (trace (_health_check instance s))
       = repeat instance (Datatypes.S failed)
    /\ (is_ok (outcome (_health_check instance s)) = false -> failed = 2).
Proof.
  destruct (retry_attempts (_health_check_once instance) instance
              (_health_check_once_attempt instance) 2 5%Z 2%Z s)
    as (k & Hk & Hsleeps & Hconns & Hlast).
  exists k. split; [exact Hk|]. split; [|split; assumption].
  unfold _health_check. rewrite Hsleeps.
  destruct k as [|[|[|k]]]; try reflexivity. lia.
Qed.

(** One attempt of the startup probe. *)
Lemma _wait_runner_startup_once_cases instance (s : S) :
  let r := _wait_runner_startup_once instance s in
  (exists e, trace r = [get_ssh_connection instance (Raise e)]
             /\ outcome r = Raise (if issubclass e SshError then RunnerStartError else e))
  \/ (exists ssh_conn e,
        trace r = [get_ssh_connection instance (Ok ssh_conn);
                   run ssh_conn "ps aux" (Raise e)]
        /\ outcome r = Raise e)
  \/ (exists ssh_conn result logs,
        trace r = get_ssh_connection instance (Ok ssh_conn)
                  :: run ssh_conn "ps aux" (Ok result) :: logs
        /\ forallb is_log logs = true
        /\ (Result.ok result
            && contains RUNNER_STARTUP_PROCESS (Result.stdout result) = true
            -> outcome r = Ok tt /\ logs = [])
        /\ (Result.ok result
            && contains RUNNER_STARTUP_PROCESS (Result.stdout result) = false
            -> outcome r = Raise RunnerStartError)).
Proof.
  intros r. subst r. unfold _wait_runner_startup_once.
  destruct (os_get_ssh_connection instance s) as [[ssh_conn|e] s1] eqn:Hconn.
  - right.
    match goal with |- context [bind (try_except ?m ?h) ?k s] =>
      assert (Hrun : bind (try_except m h) k s
                     = after [get_ssh_connection instance (Ok ssh_conn)] (k ssh_conn s1))
    end.
    { rewrite bind_ok with (a := ssh_conn);
        rewrite try_except_ok with (a := ssh_conn);
        rewrite ?(call_ok _ _ _ _ _ Hconn); reflexivity. }
    rewrite Hrun. clear Hrun. cbv beta.
    destruct (ssh_run ssh_conn "ps aux" s1) as [[result|e] s2] eqn:Hps.
    + right. exists ssh_conn, result. rewrite (bind_call_ok _ _ _ _ _ _ Hps).
      destruct (Result.ok result); cbn [negb andb].
      * destruct (contains RUNNER_STARTUP_PROCESS (Result.stdout result)); cbn [negb].
        -- exists []. repeat split; try reflexivity; discriminate.
        -- eexists. repeat split; try reflexivity; discriminate.
      * eexists. repeat split; try reflexivity; discriminate.
    + left. exists ssh_conn, e. rewrite (bind_call_raise _ _ _ _ _ _ Hps). auto.
  - left. exists e.
    match goal with |- context [bind (try_except ?m ?h) ?k s] =>
      assert (Hrun : bind (try_except m h) k s
                     = Run (Raise (if issubclass e SshError then RunnerStartError else e)) s1
                         [get_ssh_connection instance (Raise e)])
    end.
    { unfold bind at 1. destruct (issubclass e SshError) eqn:Hcls.
      - erewrite try_except_caught;
          [| rewrite (call_ok _ _ _ _ _ Hconn); reflexivity
           | simpl; rewrite Hcls; reflexivity].
        rewrite (call_ok _ _ _ _ _ Hconn). reflexivity.
      - rewrite try_except_uncaught with (e := e);
          [| rewrite (call_ok _ _ _ _ _ Hconn); reflexivity
           | simpl; rewrite Hcls; reflexivity].
        rewrite (call_ok _ _ _ _ _ Hconn). reflexivity. }
    rewrite Hrun. auto.
Qed.

Lemma is_log_within (logs : list Event) :
  forallb is_log logs = true -> sleeps logs = [] /\ connections logs = [].
Proof.
  induction logs as [|ev logs IH]; simpl; [auto|].
  intros H. apply andb_true_iff in H. destruct H as [Hev Hlogs].
  destruct ev; simpl in Hev; try discriminate; auto.
Qed.

Lemma _wait_runner_startup_once_attempt instance (s : S) :
  sleeps (trace (_wait_runner_startup_once instance s)) = []
  /\ connections (trace (_wait_runner_startup_once instance s)) = [instance].
Proof.
  destruct (_wait_runner_startup_once_cases instance s)
    as [(e & -> & _)|[(ssh_conn & e & -> & _)|(ssh_conn & result & logs & -> & Hlogs & _)]];
    simpl; auto.
  destruct (is_log_within _ Hlogs) as [-> ->]. auto.
Qed.

(** X16.  The startup probe makes ten attempts at most, each opening one
    connection to the instance, and waits 60 seconds after every failed
    attempt but the last: the delay does not grow.  It raises only when
    the tenth attempt has failed. *)
Theorem _wait_runner_startup_tries_ten_times (instance : OpenstackInstance.t) (s : S) :
  exists failed,
    failed <= 9
    /\ sleeps (trace (_wait_runner_startup instance s)) = repeat 60%Z failed
    /\ connections (trace (_wait_runner_startup instance s))
       = repeat instance (Datatypes.S failed)
    /\ (is_ok (outcome (_wait_runner_startup instance s)) = false -> failed = 9).
Proof.
  destruct (retry_attempts (_wait_runner_startup_once instance) instance
              (_wait_runner_startup_once_attempt instance) 9 60%Z 1%Z s)
    as (k & Hk & Hsleeps & Hconns & Hlast).
  exists k. split; [exact Hk|]. split; [|split; assumption].
  unfold _wait_runner_startup. rewrite Hsleeps. apply delays_fixed.
Qed.

(** X17.  The startup probe returns only when it has seen the runner's
    startup process: its last two calls are a connection that was
    opened and a [ps aux] over it that ran and whose output names the
    startup script. *)
Theorem _wait_runner_startup_returns_when_started (instance : OpenstackInstance.t) (s : S) :
  outcome (_wait_runner_startup instance s) = Ok tt ->
  exists before ssh_conn result,
    trace (_wait_runner_startup instance s)
    = before ++ [get_ssh_connection instance (Ok ssh_conn);
                 run ssh_conn "ps aux" (Ok result)]
    /\ Result.ok result = true
    /\ contains RUNNER_STARTUP_PROCESS (Result.stdout result) = true.
Proof.
  intros Hok. unfold _wait_runner_startup in *.
  destruct (retry_returns _ _ _ _ _ _ Hok) as (s' & before & Honce & ->).
  exists before.
  destruct (_wait_runner_startup_once_cases instance s')
    as [(e & _ & He)|[(ssh_conn & e & _ & He)
       |(ssh_conn & result & logs & Htrace & _ & Hfound & Hmissing)]];
    try (rewrite Honce in He; destruct (issubclass e SshError); discriminate);
    try (rewrite Honce in He; discriminate).
  exists ssh_conn, result.
  destruct (Result.ok result && contains RUNNER_STARTUP_PROCESS (Result.stdout result))
    eqn:Hseen.
  - destruct (Hfound eq_refl) as [_ ->]. apply andb_true_iff in Hseen.
    rewrite Htrace. tauto.
  - rewrite (Hmissing eq_refl) in Honce. discriminate.
Qed.

(** *** Pulling a file *)

(** X18.  [_ssh_pull_file] raises what it documents.  A timeout or
    another SSH failure of the remote shell gives [SshError], when the
    size is read as when the file is fetched (a timeout is an [OSError]
    too, but the SSH clause comes first).  A size that cannot be read
    (the command failed or printed no number) or that is over the limit
    gives [_PullFileError] with nothing fetched, and so does any other
    [OSError] while fetching.  Any other error is raised unchanged, and
    a file within the limit that is fetched gives no error. *)
Theorem _ssh_pull_file_raises_what_it_documents
    ssh_conn remote_path local_path max_size (s : S) :
  let r := _ssh_pull_file ssh_conn remote_path local_path max_size s in
  let sized := ssh_run ssh_conn (stat remote_path) s in
  let fetch := fst (ssh_get ssh_conn remote_path local_path (snd sized)) in
  (existsb (issubclass TimeoutError) ssh_errors = true
   /\ issubclass TimeoutError OSError = true)
  /\ (forall e,
        fst sized = Raise e ->
        trace r = [run ssh_conn (stat remote_path) (Raise e)]
        /\ (existsb (issubclass e) ssh_errors = true -> outcome r = Raise SshError)
        /\ (existsb (issubclass e) ssh_errors = false -> outcome r = Raise e))
  /\ (forall result,
        fst sized = Ok result ->
        Result.ok result = false
        \/ int (Result.stdout result) = None
        \/ (exists size, int (Result.stdout result) = Some size /\ (size > max_size)%Z) ->
        outcome r = Raise _PullFileError
        /\ files_fetched (trace r) = []
        /\ exists logs,
             trace r = run ssh_conn (stat remote_path) (Ok result) :: logs
             /\ forallb is_log logs = true)
  /\ (forall result size,
        fst sized = Ok result ->
        Result.ok result = true ->
        int (Result.stdout result) = Some size ->
        (size <= max_size)%Z ->
        trace r = [run ssh_conn (stat remote_path) (Ok result);
                   get ssh_conn remote_path local_path fetch]
        /\ match fetch with
           | Ok _ => outcome r = Ok tt
           | Raise e =>
               (existsb (issubclass e) ssh_errors = true -> outcome r = Raise SshError)
               /\ (existsb (issubclass e) ssh_errors = false ->
                   issubclass e OSError = true ->
                   outcome r = Raise _PullFileError)
               /\ (existsb (issubclass e) ssh_errors = false ->
                   issubclass e OSError = false ->
                   outcome r = Raise e)
           end).
Proof.
  intros r sized fetch. subst r fetch.
  pose proof (_ssh_pull_file_cases ssh_conn remote_path local_path max_size s) as Hcases.
  cbv zeta in Hcases. fold sized in Hcases.
  split; [split; reflexivity|]. split; [|split].
  - intros e He.
    destruct Hcases
      as [(e0 & Hsized & Htrace & Hout)|[(result & logs & Hsized & _)
         |(result & size & answer & Hsized & _)]];
      rewrite Hsized in He; [|discriminate|discriminate].
    injection He as <-. split; [exact Htrace|].
    split; intros Hssh; rewrite Hssh in Hout; exact Hout.
  - intros result Hresult Hwhy.
    destruct Hcases
      as [(e0 & Hsized & _)|[(result' & logs & Hsized & Htrace & Hlogs & Hout & _)
         |(result' & size & answer & Hsized & _ & Hok & Hint & Hsize & _)]];
      rewrite Hsized in Hresult; [discriminate| |].
    + injection Hresult as <-. split; [exact Hout|]. split.
      * rewrite Htrace. cbn [files_fetched].
        clear - Hlogs. induction logs as [|ev logs IH]; [reflexivity|].
        cbn [forallb] in Hlogs. apply andb_true_iff in Hlogs.
        destruct Hlogs as [Hev Hlogs]. destruct ev; try discriminate Hev.
        cbn [files_fetched]. exact (IH Hlogs).
      * exists logs. auto.
    + injection Hresult as <-. exfalso.
      destruct Hwhy as [H|[H|(size' & H & Hgt)]]; [congruence | congruence |].
      rewrite Hint in H. injection H as <-. lia.
  - intros result size Hresult Hok Hint Hsize.
    destruct Hcases
      as [(e0 & Hsized & _)|[(result' & logs & Hsized & _ & _ & _ & Hwhy)
         |(result' & size' & answer & Hsized & Hanswer & _ & _ & _ & Htrace & Hout)]];
      rewrite Hsized in Hresult; [discriminate| |].
    + injection Hresult as <-. exfalso.
      destruct Hwhy as [H|[H|(size' & H & Hgt)]]; [congruence | congruence |].
      rewrite Hint in H. injection H as <-. lia.
    + injection Hresult as <-. rewrite <- Hanswer. split; [exact Htrace|].
      destruct answer as [[]|e]; [exact Hout|].
      split; [|split]; intros Hssh; rewrite Hssh in Hout; [exact Hout| |];
        intros Hos; rewrite Hos in Hout; exact Hout.
Qed.

(** A file is fetched only after its size was read and found within the
    limit. *)
Lemma _ssh_pull_file_fetches_small_files
    ssh_conn remote_path local_path max_size (s : S) ssh_conn' remote local answer :
  In (get ssh_conn' remote local answer)
    (trace (_ssh_pull_file ssh_conn remote_path local_path max_size s)) ->
  ssh_conn' = ssh_conn /\ remote = remote_path
  /\ exists result size,
       In (run ssh_conn (stat remote_path) (Ok result))
         (trace (_ssh_pull_file ssh_conn remote_path local_path max_size s))
       /\ Result.ok result = true
       /\ int (Result.stdout result) = Some size
       /\ (size <= max_size)%Z.
Proof.
  destruct (_ssh_pull_file_cases ssh_conn remote_path local_path max_size s)
    as [(e0 & _ & -> & _)|[(result & logs & _ & -> & Hlogs & _)
       |(result & size & answer' & _ & _ & Hok & Hint & Hsize & -> & _)]].
  - intros [H|[]]. discriminate.
  - intros [H|H]; [discriminate|]. exfalso.
    rewrite forallb_forall in Hlogs. apply Hlogs in H. discriminate.
  - intros [H|[H|[]]]; [discriminate|]. injection H as <- <- <- <-.
    split; [reflexivity|]. split; [reflexivity|].
    exists result, size. simpl. auto.
Qed.

(** X19.  [_pull_runner_metrics] fetches nothing but the two metrics
    files of the exchange directory, over the connection it was given,
    and each only after [stat] has run on it and reported a size of at
    most 1024 bytes. *)
Theorem _pull_runner_metrics_fetches_small_files
    name ssh_conn (s : S) ssh_conn' remote local answer :
  In (get ssh_conn' remote local answer) (trace (_pull_runner_metrics name ssh_conn s)) ->
  ssh_conn' = ssh_conn
  /\ (remote = pre_job_file \/ remote = post_job_file)
  /\ exists result size,
       In (run ssh_conn (stat remote) (Ok result))
         (trace (_pull_runner_metrics name ssh_conn s))
       /\ Result.ok result = true
       /\ int (Result.stdout result) = Some size
       /\ (size <= 1024)%Z.
Proof.
  unfold _pull_runner_metrics.
  match goal with |- context [bind ?f ?k s] => set (first := f); set (rest := k) end.
  assert (Hfirst : ~ In (get ssh_conn' remote local answer) (trace (first s))).
  { subst first. rewrite trace_try_except, trace_bind, outcome_bind, run_call.
    cbn [trace outcome final].
    destruct (fst (storage_get name s)) as [storage|e]; cbn [app].
    - intros [H|[]]. discriminate.
    - destruct (select _ e) as [k|] eqn:Hk; cbn [app].
      + simpl in Hk. destruct (issubclass e GetMetricsStorageError); [|discriminate].
        injection Hk as <-. simpl. intros [H|[H|[]]]; discriminate.
      + intros [H|[]]. discriminate. }
  rewrite trace_bind. intros Hin. apply in_app_or in Hin.
  destruct Hin as [Hin|Hin]; [contradiction|].
  destruct (outcome (first s)) as [[storage|]|e]; [| destruct Hin | destruct Hin].
  subst rest. cbv beta iota in *.
  set (s1 := final (first s)) in *.
  rewrite trace_try_except, trace_bind in *.
  set (pre := _ssh_pull_file ssh_conn (path_join METRICS_EXCHANGE_PATH "pre-job-metrics.json")
                (path_join (MetricsStorage.path storage) "pre-job-metrics.json")
                MAX_METRICS_FILE_SIZE s1) in *.
  assert (Hwiden : forall (a b c d : list Event) ev, In ev b \/ In ev c ->
             In ev (a ++ (b ++ c) ++ d)).
  { intros a b c d ev H. apply in_or_app. right. apply in_or_app. left.
    apply in_or_app. exact H. }
  apply in_app_or in Hin. destruct Hin as [Hin|Hin].
  - apply in_app_or in Hin. destruct Hin as [Hin|Hin].
    + destruct (_ssh_pull_file_fetches_small_files _ _ _ _ _ _ _ _ _ Hin)
        as (-> & -> & result & size & Hstat & Hrest).
      split; [reflexivity|]. split; [left; reflexivity|].
      exists result, size. split; [|exact Hrest].
      apply Hwiden. left. exact Hstat.
    + destruct (outcome pre) as [[]|e]; [|destruct Hin].
      destruct (_ssh_pull_file_fetches_small_files _ _ _ _ _ _ _ _ _ Hin)
        as (-> & -> & result & size & Hstat & Hrest).
      split; [reflexivity|]. split; [right; reflexivity|].
      exists result, size. split; [|exact Hrest].
      apply Hwiden. right. exact Hstat.
  - exfalso. revert Hin. rewrite outcome_bind. fold s1 pre.
    match goal with |- context [select ?h] => set (handlers := h) end.
    destruct (outcome pre) as [[]|e].
    + match goal with |- context [outcome ?post] => destruct (outcome post) as [[]|e] end;
        [intros [] |].
      subst handlers. simpl. destruct (issubclass e _PullFileError); simpl; [|intros []].
      intros [H|[]]. discriminate.
    + subst handlers. simpl. destruct (issubclass e _PullFileError); simpl; [|intros []].
      intros [H|[]]. discriminate.
Qed.

(** *** Deleting an instance, whatever fails *)

Lemma commands_app (a b : list Event) : commands (a ++ b) = commands a ++ commands b.
Proof.
  induction a as [|ev a IH]; simpl; [reflexivity|].
  destruct ev; simpl; now rewrite ?IH.
Qed.

Lemma logs_run_nothing (logs : list Event) :
  forallb is_log logs = true ->
  commands logs = [] /\ instance_deletions logs = []
  /\ forallb runs_only_stat logs = true.
Proof.
  induction logs as [|ev logs IH]; simpl; [auto|].
  intros H. apply andb_true_iff in H. destruct H as [Hev Hlogs].
  destruct ev; simpl in Hev; try discriminate. simpl. auto.
Qed.

(** X20.  An instance that refuses the SSH connection is deleted all the
    same.  [_delete_runner] logs the failure and that the removal script
    is skipped, runs nothing on the instance (no metrics are pulled),
    and asks the provider to delete it; a deletion the provider refuses
    with an [OpenstackError] is logged, not raised.  These are all its
    calls and log records. *)
Theorem _delete_runner_deletes_an_unreachable_instance
    instance remove_token (s s1 : S) e :
  os_get_ssh_connection instance s = (Raise e, s1) ->
  issubclass e SshError = true ->
  let name := OpenstackInstance.server_name instance in
  let id := OpenstackInstance.instance_id instance in
  let deletion := os_delete_instance id s1 in
  let r := _delete_runner instance remove_token s in
  trace r
  = [get_ssh_connection instance (Raise e);
     log (exception "Failed to get SSH connection while removing %s" e);
     log (warning "Skipping runner remove script for %s due to SSH issues" [name]);
     delete_instance id (fst deletion)]
    ++ match fst deletion with
       | Ok _ => []
       | Raise e' =>
           if issubclass e' OpenstackError
           then [log (exception "Unable to delete openstack instance for runner %s" e')]
           else []
       end
  /\ commands (trace r) = []
  /\ outcome r
     = match fst deletion with
       | Ok _ => Ok tt
       | Raise e' => if issubclass e' OpenstackError then Ok tt else Raise e'
       end
  /\ final r = snd deletion.
Proof.
  intros Hconn Hcls name id deletion r. subst r.
  destruct (_delete_runner_blocks instance remove_token s)
    as (first & _ & Hrun & Hfailed & _).
  pose proof (Hfailed _ _ Hconn) as Hfirst.
  rewrite Hcls in Hfirst. cbv iota in Hfirst.
  rewrite Hrun, Hfirst. cbn [outcome final trace].
  fold name id deletion.
  split; [reflexivity|]. split; [|split; reflexivity].
  cbn [app commands].
  destruct (fst deletion) as [[]|e']; [reflexivity|].
  destruct (issubclass e' OpenstackError); reflexivity.
Qed.

(** X21.  A deletion the provider refuses with an [OpenstackError] does
    not fail [_delete_runner]: wherever the record of its calls shows
    such a refusal, it is for the instance it was given and
    [_delete_runner] has returned normally. *)
Theorem _delete_runner_swallows_a_refused_deletion
    instance remove_token (s : S) id e :
  In (delete_instance id (Raise e)) (trace (_delete_runner instance remove_token s)) ->
  issubclass e OpenstackError = true ->
  id = OpenstackInstance.instance_id instance
  /\ outcome (_delete_runner instance remove_token s) = Ok tt.
Proof.
  destruct (_delete_runner_blocks instance remove_token s)
    as (first & Hquiet & Hrun & _).
  rewrite Hrun.
  assert (Hnot : ~ In (delete_instance id (Raise e)) (trace first)).
  { intros Hin. rewrite forallb_forall in Hquiet. apply Hquiet in Hin. discriminate. }
  destruct (outcome first) as [[]|e0]; [|intros Hin; contradiction].
  cbv zeta. cbn [outcome trace].
  intros Hin Hcls. apply in_app_or in Hin. destruct Hin as [Hin|Hin]; [contradiction|].
  destruct Hin as [Heq|Hin].
  - injection Heq as <- Hanswer. split; [reflexivity|].
    rewrite Hanswer, Hcls. reflexivity.
  - exfalso. destruct (fst (os_delete_instance _ (final first))) as [[]|e'];
      [destruct Hin|].
    destruct (issubclass e' OpenstackError); [|destruct Hin].
    destruct Hin as [Heq|[]]. discriminate.
Qed.

(** X22.  Whatever the removal script comes to, the instance is deleted:
    when the script cannot be run because of an SSH error, as when it
    runs, with or without success, [_delete_runner] goes on to ask the
    provider for the deletion, once. *)
Theorem _delete_runner_deletes_whatever_the_script
    instance remove_token (s s1 : S) ssh_conn :
  let name := OpenstackInstance.server_name instance in
  let pull := _pull_runner_metrics name ssh_conn s1 in
  let script := fst (ssh_run ssh_conn (removal_command remove_token) (final pull)) in
  os_get_ssh_connection instance s = (Ok ssh_conn, s1) ->
  outcome pull = Ok tt ->
  (is_ok script = true
   \/ exists e, script = Raise e /\ existsb (issubclass e) ssh_errors = true) ->
  In (run ssh_conn (removal_command remove_token) script)
    (trace (_delete_runner instance remove_token s))
  /\ instance_deletions (trace (_delete_runner instance remove_token s))
     = [OpenstackInstance.instance_id instance].
Proof.
  intros name pull script Hconn Hpull Hscript.
  destruct (_delete_runner_blocks instance remove_token s)
    as (first & Hquiet & Hrun & _ & Hconnected).
  destruct (Hconnected _ _ Hconn) as [_ Hgo].
  destruct (Hgo Hpull) as (logs & Hlogs & Htrace & Hout).
  fold name pull in Htrace, Hout. fold script in Htrace, Hout.
  assert (Hfirst : outcome first = Ok tt).
  { destruct Hscript as [Hok|(e & He & Hssh)].
    - destruct script as [[]|e]; [exact Hout | discriminate].
    - rewrite He in Hout. exact (Hout Hssh). }
  rewrite Hrun, Hfirst. cbv zeta. cbn [trace]. split.
  - apply in_or_app. left. rewrite Htrace. right. apply in_or_app. right. left. reflexivity.
  - rewrite instance_deletions_app, (not_deletion_silent _ Hquiet). cbn [app instance_deletions].
    f_equal. apply not_deletion_silent.
    destruct (fst (os_delete_instance _ (final first))) as [[]|e']; [reflexivity|].
    destruct (issubclass e' OpenstackError); reflexivity.
Qed.

Lemma _ssh_pull_file_runs_only_stat ssh_conn remote_path local_path max_size :
  quiet runs_only_stat
    (_ssh_pull_file (env := env) ssh_conn remote_path local_path max_size).
Proof.
  unfold _ssh_pull_file. repeat quiet_step.
  apply quiet_call. intros r. cbn. now destruct remote_path.
Qed.

Lemma _pull_runner_metrics_runs_only_stat name ssh_conn :
  quiet runs_only_stat (_pull_runner_metrics (env := env) name ssh_conn).
Proof.
  unfold _pull_runner_metrics.
  repeat first [apply _ssh_pull_file_runs_only_stat | quiet_step].
Qed.

(** X23.  An SSH error while the metrics are pulled does not stop the
    deletion either: [_delete_runner] logs it, does not run the removal
    script (the only commands run are the [stat] of the pull) and asks
    the provider to delete the instance. *)
Theorem _delete_runner_skips_the_script_after_an_ssh_error
    instance remove_token (s s1 : S) ssh_conn e :
  os_get_ssh_connection instance s = (Ok ssh_conn, s1) ->
  outcome (_pull_runner_metrics (OpenstackInstance.server_name instance) ssh_conn s1)
  = Raise e ->
  issubclass e SshError = true ->
  forallb runs_only_stat (trace (_delete_runner instance remove_token s)) = true
  /\ instance_deletions (trace (_delete_runner instance remove_token s))
     = [OpenstackInstance.instance_id instance].
Proof.
  intros Hconn Hpull Hcls.
  destruct (_delete_runner_blocks instance remove_token s)
    as (first & Hquiet & Hrun & _ & Hconnected).
  destruct (Hconnected _ _ Hconn) as [Hstop _].
  pose proof (Hstop _ Hpull) as Hfirst.
  rewrite Hcls in Hfirst. cbv iota in Hfirst.
  match type of Hfirst with
  | first = Run _ _ (_ :: _ ++ ?records) =>
      set (logs := records) in Hfirst;
      assert (Hlogs : forallb is_log logs = true) by reflexivity
  end.
  clearbody logs.
  rewrite Hrun. rewrite Hfirst in Hquiet |- *. cbv zeta. cbn [outcome trace final].
  split.
  - cbn [app forallb runs_only_stat]. rewrite !forallb_app.
    rewrite _pull_runner_metrics_runs_only_stat.
    rewrite (proj2 (proj2 (logs_run_nothing _ Hlogs))).
    cbn [forallb runs_only_stat andb].
    destruct (fst (os_delete_instance _ _)) as [[]|e']; [reflexivity|].
    destruct (issubclass e' OpenstackError); reflexivity.
  - rewrite instance_deletions_app. cbn [trace] in Hquiet.
    rewrite (not_deletion_silent _ Hquiet). cbn [app instance_deletions].
    f_equal. apply not_deletion_silent.
    destruct (fst (os_delete_instance _ _)) as [[]|e']; [reflexivity|].
    destruct (issubclass e' OpenstackError); reflexivity.
Qed.
End OpenstackExtra.

(** * More of the OpenStack manager at work on the in-memory cloud *)

(** Of the two named servers, the one of instance ID [b2] is found,
    stopped; an unknown instance ID gives [None]. *)
Example get_runner_named_servers :
  outcome (OpenstackRunnerManager.get_runner StackMishaps.get_server_name "b2"
             StackMishaps.named_servers)
  = Ok (Some (OpenstackRunnerManager.CloudRunnerInstance.Build "unit-b2" "b2" STOPPED))
  /\ outcome (OpenstackRunnerManager.get_runner StackMishaps.get_server_name "c3"
                StackMishaps.named_servers)
     = Ok None
  /\ outcome (OpenstackRunnerManager.get_runners (Some [ACTIVE]) StackMishaps.named_servers)
     = Ok [OpenstackRunnerManager.CloudRunnerInstance.Build "unit-a1" "a1" ACTIVE].
Proof. repeat split. Qed.

(** A server that refuses every connection is probed three times, with
    waits of 5 and 10 seconds in between. *)
Example _health_check_unreachable_server :
  let r := OpenstackRunnerManager._health_check (Stack.instance "lost" "ACTIVE")
             Stack.unreachable_server in
  outcome r = Raise SshError
  /\ MoreOpenstackCalls.sleeps (trace r) = [5; 10]%Z
  /\ List.length (MoreOpenstackCalls.connections (trace r)) = 3.
Proof. repeat split. Qed.

(** A server that is still booting is probed ten times, a minute apart. *)
Example _wait_runner_startup_booting :
  let r := OpenstackRunnerManager._wait_runner_startup (Stack.instance "new" "BUILD")
             StackMishaps.booting in
  outcome r = Raise RunnerStartError
  /\ MoreOpenstackCalls.sleeps (trace r) = repeat 60%Z 9
  /\ List.length (MoreOpenstackCalls.connections (trace r)) = 10.
Proof. repeat split. Qed.

Lemma _wait_runner_startup_returns_when_started_witness :
  exists before ssh_conn result,
    trace (OpenstackRunnerManager._wait_runner_startup (Stack.instance "new" "ACTIVE")
             StackMishaps.started)
    = before ++ [OpenstackRunnerManager.get_ssh_connection (Stack.instance "new" "ACTIVE")
                   (Ok ssh_conn);
                 OpenstackRunnerManager.run ssh_conn "ps aux" (Ok result)]
    /\ OpenstackRunnerManager.Result.ok result = true
    /\ contains OpenstackRunnerManager.RUNNER_STARTUP_PROCESS
         (OpenstackRunnerManager.Result.stdout result) = true.
Proof.
  apply (_wait_runner_startup_returns_when_started (Stack.instance "new" "ACTIVE")
           StackMishaps.started).
  reflexivity.
Defined.

(** A fetch that times out is an SSH error, not a pull-file error. *)
Example _ssh_pull_file_times_out :
  outcome
    (OpenstackRunnerManager._ssh_pull_file (env := StackMishaps.fetch_times_out)
       (OpenstackRunnerManager.SshConnection.Build "up") SpecHealth.pre_job_file
       "/metrics/up/pre-job-metrics.json" 1024 Stack.four_servers)
  = Raise SshError.
Proof. reflexivity. Qed.

(** A pre-job file of 2048 bytes is a pull-file error, with nothing
    fetched. *)
Example _ssh_pull_file_oversize_file :
  let r :=
    OpenstackRunnerManager._ssh_pull_file
      (OpenstackRunnerManager.SshConnection.Build "up") SpecHealth.pre_job_file
      "/metrics/up/pre-job-metrics.json" 1024 Stack.big_pre_job_file in
  outcome r = Raise _PullFileError /\ OpenstackCalls.files_fetched (trace r) = [].
Proof. split; reflexivity. Qed.

Lemma _ssh_pull_file_raises_what_it_documents_witness :
  outcome
    (OpenstackRunnerManager._ssh_pull_file
       (OpenstackRunnerManager.SshConnection.Build "up") SpecHealth.pre_job_file
       "/metrics/up/pre-job-metrics.json" 1024 Stack.big_pre_job_file)
  = Raise _PullFileError
  /\ outcome
       (OpenstackRunnerManager._ssh_pull_file (env := StackMishaps.fetch_times_out)
          (OpenstackRunnerManager.SshConnection.Build "up") SpecHealth.pre_job_file
          "/metrics/up/pre-job-metrics.json" 1024 Stack.four_servers)
     = Raise SshError.
Proof.
  split.
  - destruct (_ssh_pull_file_raises_what_it_documents
                (OpenstackRunnerManager.SshConnection.Build "up") SpecHealth.pre_job_file
                "/metrics/up/pre-job-metrics.json" 1024 Stack.big_pre_job_file)
      as (_ & _ & Hsize & _).
    apply (Hsize (OpenstackRunnerManager.Result.Build true "2048")); [reflexivity|].
    right. right. exists 2048%Z. split; [reflexivity | lia].
  - destruct (_ssh_pull_file_raises_what_it_documents (env := StackMishaps.fetch_times_out)
                (OpenstackRunnerManager.SshConnection.Build "up") SpecHealth.pre_job_file
                "/metrics/up/pre-job-metrics.json" 1024 Stack.four_servers)
      as (_ & _ & _ & Hfetch).
    destruct (Hfetch (OpenstackRunnerManager.Result.Build true "64") 64%Z)
      as (_ & Hssh & _); [reflexivity | reflexivity | reflexivity | lia |].
    exact (Hssh eq_refl).
Defined.

Lemma _pull_runner_metrics_fetches_small_files_witness :
  let ssh_conn := OpenstackRunnerManager.SshConnection.Build "up" in
  ssh_conn = ssh_conn
  /\ (SpecHealth.post_job_file = SpecHealth.pre_job_file
      \/ SpecHealth.post_job_file = SpecHealth.post_job_file)
  /\ exists result size,
       In (OpenstackRunnerManager.run ssh_conn (SpecHealth.stat SpecHealth.post_job_file)
             (Ok result))
         (trace (OpenstackRunnerManager._pull_runner_metrics "up" ssh_conn Stack.four_servers))
       /\ OpenstackRunnerManager.Result.ok result = true
       /\ OpenstackRunnerManager.int (OpenstackRunnerManager.Result.stdout result) = Some size
       /\ (size <= 1024)%Z.
Proof.
  apply (_pull_runner_metrics_fetches_small_files "up"
           (OpenstackRunnerManager.SshConnection.Build "up") Stack.four_servers
           (OpenstackRunnerManager.SshConnection.Build "up") SpecHealth.post_job_file
           "/metrics/up/post-job-metrics.json" (Ok tt)).
  simpl. auto 20.
Defined.

(** The server that refuses every connection is deleted without a
    command run on it. *)
Example _delete_runner_unreachable_server :
  let r := OpenstackRunnerManager._delete_runner (Stack.instance "lost" "ACTIVE") "token"
             Stack.unreachable_server in
  outcome r = Ok tt
  /\ OpenstackCalls.instance_deletions (trace r) = ["lost"]
  /\ MoreOpenstackCalls.commands (trace r) = [].
Proof. repeat split. Qed.

Lemma _delete_runner_deletes_an_unreachable_instance_witness :
  let r := OpenstackRunnerManager._delete_runner (Stack.instance "lost" "ACTIVE") "token"
             Stack.unreachable_server in
  trace r
  = [OpenstackRunnerManager.get_ssh_connection (Stack.instance "lost" "ACTIVE")
       (Raise SshError);
     OpenstackRunnerManager.log
       (exception "Failed to get SSH connection while removing %s" SshError);
     OpenstackRunnerManager.log
       (warning "Skipping runner remove script for %s due to SSH issues" ["lost"]);
     OpenstackRunnerManager.delete_instance "lost" (Ok tt)]
  /\ MoreOpenstackCalls.commands (trace r) = []
  /\ outcome r = Ok tt
  /\ final r = Stack.Build [] ["lost"] (fun host => Stack.listener) (fun host file => "64").
Proof.
  assert (Hconn :
    OpenstackRunnerManager.os_get_ssh_connection (Stack.instance "lost" "ACTIVE")
      Stack.unreachable_server
    = (Raise SshError, Stack.unreachable_server)) by reflexivity.
  assert (Hcls : issubclass SshError SshError = true) by reflexivity.
  exact (_delete_runner_deletes_an_unreachable_instance (Stack.instance "lost" "ACTIVE")
           "token" Stack.unreachable_server Stack.unreachable_server SshError Hconn Hcls).
Defined.

Lemma _delete_runner_swallows_a_refused_deletion_witness :
  "up" = OpenstackRunnerManager.OpenstackInstance.instance_id (Stack.instance "up" "ACTIVE")
  /\ outcome
       (OpenstackRunnerManager._delete_runner (env := StackMishaps.deletion_refused)
          (Stack.instance "up" "ACTIVE") "token" Stack.four_servers)
     = Ok tt.
Proof.
  apply (_delete_runner_swallows_a_refused_deletion (env := StackMishaps.deletion_refused)
           (Stack.instance "up" "ACTIVE") "token" Stack.four_servers "up" OpenstackError).
  - simpl. auto 20.
  - reflexivity.
Defined.

(** The removal script fails on the runner: a warning, and the instance is
    deleted. *)
Example _delete_runner_removal_fails :
  let r := OpenstackRunnerManager._delete_runner (env := StackMishaps.removal_fails)
             (Stack.instance "up" "ACTIVE") "token" Stack.four_servers in
  outcome r = Ok tt /\ OpenstackCalls.instance_deletions (trace r) = ["up"].
Proof. split; reflexivity. Qed.

Lemma _delete_runner_deletes_whatever_the_script_witness :
  let r := OpenstackRunnerManager._delete_runner (env := StackMishaps.removal_fails)
             (Stack.instance "up" "ACTIVE") "token" Stack.four_servers in
  In (OpenstackRunnerManager.run (OpenstackRunnerManager.SshConnection.Build "up")
        (SpecHealth.removal_command "token")
        (Ok (OpenstackRunnerManager.Result.Build false "not configured")))
    (trace r)
  /\ OpenstackCalls.instance_deletions (trace r) = ["up"].
Proof.
  apply (_delete_runner_deletes_whatever_the_script (env := StackMishaps.removal_fails)
           (Stack.instance "up" "ACTIVE") "token" Stack.four_servers Stack.four_servers
           (OpenstackRunnerManager.SshConnection.Build "up")).
  - reflexivity.
  - reflexivity.
  - left. reflexivity.
Defined.

(** Fetching the metrics times out: the removal script is not run, the
    instance is deleted. *)
Example _delete_runner_fetch_times_out :
  let r := OpenstackRunnerManager._delete_runner (env := StackMishaps.fetch_times_out)
             (Stack.instance "up" "ACTIVE") "token" Stack.four_servers in
  outcome r = Ok tt
  /\ MoreOpenstackCalls.commands (trace r) = [SpecHealth.stat SpecHealth.pre_job_file]
  /\ OpenstackCalls.instance_deletions (trace r) = ["up"].
Proof. repeat split. Qed.

Lemma _delete_runner_skips_the_script_after_an_ssh_error_witness :
  let r := OpenstackRunnerManager._delete_runner (env := StackMishaps.fetch_times_out)
             (Stack.instance "up" "ACTIVE") "token" Stack.four_servers in
  forallb MoreOpenstackCalls.runs_only_stat (trace r) = true
  /\ OpenstackCalls.instance_deletions (trace r) = ["up"].
Proof.
  apply (_delete_runner_skips_the_script_after_an_ssh_error
           (env := StackMishaps.fetch_times_out)
           (Stack.instance "up" "ACTIVE") "token" Stack.four_servers Stack.four_servers
           (OpenstackRunnerManager.SshConnection.Build "up") SshError);
    reflexivity.
Defined.

(** * The parsers of the charm configuration *)

Section CharmStateFacts.
Import CharmState.
Local Open Scope string_scope.

(** *** Splitting and joining *)

Lemma split_nonempty (sep : ascii) (s : string) : split sep s <> [].
Proof.
  destruct s as [|c s]; simpl; [discriminate|].
  destruct (Ascii.eqb c sep); [discriminate|].
  destruct (split sep s); discriminate.
Qed.

Lemma split_length (sep : ascii) (s : string) :
  List.length (split sep s) = Datatypes.S (count_char sep s).
Proof.
  induction s as [|c s IH]; simpl; [reflexivity|].
  destruct (Ascii.eqb c sep); simpl; [now rewrite IH|].
  destruct (split sep s) as [|piece pieces] eqn:E; [discriminate IH | exact IH].
Qed.

Lemma in_str_count (sep : ascii) (s : string) :
  in_str sep s = negb (Nat.eqb (count_char sep s) 0).
Proof.
  induction s as [|c s IH]; simpl; [reflexivity|].
  destruct (Ascii.eqb c sep); simpl; [reflexivity | exact IH].
Qed.

Lemma join_split (sep : ascii) (s : string) :
  join (String sep EmptyString) (split sep s) = s.
Proof.
  induction s as [|c s IH]; simpl; [reflexivity|].
  destruct (Ascii.eqb_spec c sep) as [->|Hne].
  - pose proof (split_nonempty sep s) as Hne.
    destruct (split sep s) as [|piece pieces]; [contradiction|].
    simpl in *. now rewrite IH.
  - destruct (split sep s) as [|piece pieces]; [simpl in *; now rewrite <- IH|].
    destruct pieces as [|piece' pieces]; simpl in *; now rewrite <- IH.
Qed.

Lemma split_pieces (sep : ascii) (s : string) :
  Forall (fun piece => in_str sep piece = false) (split sep s).
Proof.
  induction s as [|c s IH]; simpl; [repeat constructor|].
  destruct (Ascii.eqb c sep) eqn:E; [constructor; [reflexivity | exact IH]|].
  destruct (split sep s) as [|piece pieces]; [repeat constructor; simpl; now rewrite E|].
  inversion IH; subst. constructor; [simpl; now rewrite E | assumption].
Qed.

Lemma split_free (sep : ascii) (s : string) :
  in_str sep s = false -> split sep s = [s].
Proof.
  induction s as [|c s IH]; simpl; [reflexivity|].
  destruct (Ascii.eqb c sep); simpl; [discriminate|].
  intros H. now rewrite (IH H).
Qed.

Lemma split_app (sep : ascii) (a b : string) :
  in_str sep a = false ->
  split sep (a ++ String sep b) = a :: split sep b.
Proof.
  induction a as [|c a IH]; simpl.
  - intros _. now rewrite Ascii.eqb_refl.
  - destruct (Ascii.eqb c sep); simpl; [discriminate|].
    intros H. now rewrite (IH H).
Qed.

(** *** GitHub paths *)

(** X24.  [parse_github_path] and [path] are inverse to each other on
    what is accepted: a string without a slash is an organisation, with
    the runner group given; a string with one slash is a repository,
    whose owner and name are the two sides of the slash; in both cases
    [path] gives the string back.  A string with more than one slash,
    and no other, is refused with [CharmConfigInvalidError]. *)
Theorem parse_github_path_round_trip (path_str runner_group : string) :
  match parse_github_path path_str runner_group with
  | inr (GithubOrg org group) =>
      count_char "/" path_str = 0 /\ org = path_str /\ group = runner_group
  | inr (GithubRepo owner repo) =>
      count_char "/" path_str = 1
      /\ path (GithubRepo owner repo) = path_str
      /\ in_str "/" owner = false /\ in_str "/" repo = false
  | inl e =>
      2 <= count_char "/" path_str
      /\ e = CharmConfigInvalidError ("Invalid path configuration " ++ path_str)
  end.
Proof.
  unfold parse_github_path. rewrite in_str_count.
  pose proof (split_length "/" path_str) as Hlen.
  pose proof (join_split "/" path_str) as Hjoin.
  pose proof (split_pieces "/" path_str) as Hpieces.
  destruct (Nat.eqb_spec (count_char "/" path_str) 0) as [Hzero|Hsome]; simpl.
  - auto.
  - destruct (split "/" path_str) as [|owner [|repo [|third rest]]]; simpl in Hlen.
    + discriminate.
    + split; [lia | reflexivity].
    + apply Forall_cons_iff in Hpieces. destruct Hpieces as [Howner Hrest].
      apply Forall_cons_iff in Hrest. destruct Hrest as [Hrepo _].
      split; [lia|]. split; [exact Hjoin|]. auto.
    + split; [lia | reflexivity].
Qed.

(** X25.  Every GitHub path whose components hold no slash is parsed
    back from its string: [parse_github_path(p.path(), group)] is [p],
    for a repository whatever the group, for an organisation with its
    own group. *)
Theorem parse_github_path_of_path (p : GithubPath) (runner_group : string) :
  match p with
  | GithubRepo owner repo => in_str "/" owner = false /\ in_str "/" repo = false
  | GithubOrg org group => in_str "/" org = false /\ group = runner_group
  end ->
  parse_github_path (path p) runner_group = inr p.
Proof.
  destruct p as [owner repo|org group]; simpl; intros [H1 H2].
  - unfold parse_github_path.
    assert (Hin : in_str "/" (owner ++ String "/" repo) = true).
    { clear H1. induction owner as [|c owner IH]; simpl; [reflexivity|].
      rewrite IH. apply orb_true_r. }
    rewrite Hin, (split_app "/" owner repo H1), (split_free "/" repo H2). reflexivity.
  - subst group. unfold parse_github_path. rewrite H1. reflexivity.
Qed.

(** *** Storage sizes *)

Lemma string_of_list_ascii_app (a b : list ascii) :
  string_of_list_ascii (a ++ b)%list = string_of_list_ascii a ++ string_of_list_ascii b.
Proof. induction a as [|c a IH]; simpl; [reflexivity | now rewrite IH]. Qed.

Lemma list_ascii_of_string_app (a b : string) :
  list_ascii_of_string (a ++ b) = (list_ascii_of_string a ++ list_ascii_of_string b)%list.
Proof. induction a as [|c a IH]; simpl; [reflexivity | now rewrite IH]. Qed.

Lemma slices_join (n : nat) (s : string) : slice_but_last n s ++ slice_last n s = s.
Proof.
  unfold slice_but_last, slice_last.
  rewrite <- string_of_list_ascii_app, firstn_skipn.
  apply string_of_list_ascii_of_string.
Qed.

Lemma firstn_length_app {A} (a b : list A) : firstn (List.length a) (a ++ b)%list = a.
Proof. induction a as [|x a IH]; simpl; [reflexivity | now rewrite IH]. Qed.

Lemma skipn_length_app {A} (a b : list A) : skipn (List.length a) (a ++ b)%list = b.
Proof. induction a as [|x a IH]; simpl; [reflexivity | exact IH]. Qed.

Lemma slices_of_app (number suffix : string) :
  String.length suffix = 3 ->
  slice_last 3 (number ++ suffix) = suffix
  /\ slice_but_last 3 (number ++ suffix) = number.
Proof.
  intros Hlen. unfold slice_last, slice_but_last.
  rewrite list_ascii_of_string_app, length_app.
  assert (Hl : List.length (list_ascii_of_string suffix) = 3).
  { rewrite <- Hlen. clear Hlen. induction suffix as [|c s IH]; simpl; auto. }
  rewrite Hl.
  replace (List.length (list_ascii_of_string number) + 3 - 3)
    with (List.length (list_ascii_of_string number)) by lia.
  rewrite skipn_length_app, firstn_length_app.
  split; apply string_of_list_ascii_of_string.
Qed.

(** X26.  [_valid_storage_size_str] accepts exactly the strings made of
    one or more digits followed by one of the six binary suffixes:
    nothing may come before the digits, between them and the suffix, or
    after it, and the suffix alone is refused. *)
Theorem _valid_storage_size_str_accepts (size : string) :
  _valid_storage_size_str size = true <->
  exists number suffix,
    size = number ++ suffix
    /\ In suffix valid_suffixes
    /\ isdigit number = true.
Proof.
  unfold _valid_storage_size_str. rewrite andb_true_iff, existsb_exists. split.
  - intros [(suffix & Hin & Heq) Hdigits]. apply String.eqb_eq in Heq.
    exists (slice_but_last 3 size), suffix.
    split; [|split; assumption].
    rewrite <- Heq. symmetry. apply slices_join.
  - intros (number & suffix & -> & Hin & Hdigits).
    assert (Hlen : String.length suffix = 3).
    { simpl in Hin.
      destruct Hin as [<-|[<-|[<-|[<-|[<-|[<-|[]]]]]]]; reflexivity. }
    destruct (slices_of_app number suffix Hlen) as [-> ->].
    split; [|exact Hdigits].
    exists suffix. split; [exact Hin | apply String.eqb_refl].
Qed.

(** *** Labels *)

Lemma word_char_facts (c : ascii) :
  word_char c = true -> isspace c = false /\ Ascii.eqb c "," = false.
Proof.
  destruct c as [b0 b1 b2 b3 b4 b5 b6 b7].
  destruct b0, b1, b2, b3, b4, b5, b6, b7; vm_compute; intros H;
    first [discriminate H | split; reflexivity].
Qed.

Lemma rstrip_kept (s : string) :
  all_chars (fun c => negb (isspace c)) s = true -> rstrip s = s.
Proof.
  induction s as [|c s IH]; simpl; [reflexivity|].
  intros H. apply andb_true_iff in H. destruct H as [Hc Hs].
  rewrite (IH Hs). destruct s; [|reflexivity].
  apply negb_true_iff in Hc. now rewrite Hc.
Qed.

Lemma all_chars_impl (p q : ascii -> bool) (s : string) :
  (forall c, p c = true -> q c = true) ->
  all_chars p s = true -> all_chars q s = true.
Proof.
  intros Hpq. induction s as [|c s IH]; simpl; [reflexivity|].
  intros H. apply andb_true_iff in H. destruct H as [Hc Hs].
  now rewrite (Hpq c Hc), (IH Hs).
Qed.

Lemma word_only_parts (label : string) :
  word_only label = true ->
  label <> EmptyString
  /\ strip label = label
  /\ WORD_ONLY_REGEX_match label = true
  /\ in_str "," label = false.
Proof.
  unfold word_only. intros H. apply andb_true_iff in H. destruct H as [Hne Hall].
  destruct label as [|c label]; [discriminate|].
  split; [discriminate|].
  simpl in Hall. apply andb_true_iff in Hall. destruct Hall as [Hc Hrest].
  destruct (word_char_facts c Hc) as [Hspace Hcomma].
  split; [|split].
  - unfold strip. simpl lstrip. rewrite Hspace. apply rstrip_kept.
    simpl. rewrite Hspace. simpl.
    apply all_chars_impl with (p := word_char); [|exact Hrest].
    intros c' Hc'. destruct (word_char_facts c' Hc') as [-> _]. reflexivity.
  - simpl. rewrite Hc. simpl. clear - Hrest.
    induction label as [|c' label IH]; simpl; [reflexivity|].
    simpl in Hrest. apply andb_true_iff in Hrest. destruct Hrest as [-> Hrest]. auto.
  - simpl. rewrite Hcomma. simpl. clear - Hrest.
    induction label as [|c' label IH]; simpl; [reflexivity|].
    simpl in Hrest. apply andb_true_iff in Hrest. destruct Hrest as [Hc' Hrest].
    destruct (word_char_facts c' Hc') as [_ ->]. auto.
Qed.

(** What [rstrip] leaves does not end with a space. *)
Lemma rstrip_ends (s : string) :
  forall kept c, rstrip s = kept ++ String c EmptyString -> isspace c = false.
Proof.
  induction s as [|a s IH]; intros kept c; simpl.
  - destruct kept; discriminate.
  - destruct (rstrip s) as [|b rest] eqn:E.
    + destruct (isspace a) eqn:Ha.
      * destruct kept; discriminate.
      * destruct kept as [|k kept]; simpl.
        -- intros [= <-]. exact Ha.
        -- intros [= _ H]. destruct kept; discriminate.
    + destruct kept as [|k kept]; simpl.
      * intros H. inversion H.
      * intros [= _ H]. exact (IH kept c H).
Qed.

Lemma word_only_rest_cases (s : string) :
  word_only_rest s = true ->
  all_chars word_char s = true
  \/ exists kept, s = kept ++ String "010" EmptyString.
Proof.
  induction s as [|c s IH]; simpl; [auto|].
  destruct (word_char c) eqn:Hc; simpl.
  - intros H. destruct (IH H) as [Hall|(kept & ->)]; [auto|].
    right. exists (String c kept). reflexivity.
  - intros H. apply andb_true_iff in H. destruct H as [Hnl Hend].
    apply Ascii.eqb_eq in Hnl. apply String.eqb_eq in Hend. subst.
    right. exists EmptyString. reflexivity.
Qed.

(** On a stripped string the pattern accepts word-only labels and
    nothing else: the newline [$] would let through has been
    stripped. *)
Lemma WORD_ONLY_REGEX_match_stripped (label : string) :
  WORD_ONLY_REGEX_match (strip label) = true -> word_only (strip label) = true.
Proof.
  unfold strip. set (l := lstrip label).
  destruct (rstrip l) as [|c s] eqn:E; simpl; [discriminate|].
  intros H. apply andb_true_iff in H. destruct H as [Hc Hrest].
  unfold word_only. simpl. rewrite Hc. simpl.
  destruct (word_only_rest_cases s Hrest) as [Hall|(kept & ->)]; [exact Hall|].
  exfalso.
  assert (Hspace : isspace "010" = false).
  { apply (rstrip_ends l (String c kept)). exact E. }
  discriminate Hspace.
Qed.

Lemma _parse_labels_loop_run (pieces : list string) :
  forall invalid_labels valid_labels,
    let kept := filter (fun label => negb (String.eqb label EmptyString)) pieces in
    _parse_labels_loop pieces invalid_labels valid_labels
    = ((invalid_labels
        ++ filter (fun l => negb (WORD_ONLY_REGEX_match l)) (map strip kept))%list,
       (valid_labels ++ filter WORD_ONLY_REGEX_match (map strip kept))%list).
Proof.
  induction pieces as [|label rest IH]; intros invalid valid; simpl.
  - now rewrite !app_nil_r.
  - destruct (String.eqb label EmptyString); simpl; [apply IH|].
    destruct (WORD_ONLY_REGEX_match (strip label)); simpl;
      rewrite IH, <- app_assoc; reflexivity.
Qed.

(** X27.  The labels [_parse_labels] returns are the pieces between the
    commas, the empty ones left out, each stripped of the white space
    around it, in their order; every one of them is non-empty and made
    of word characters and hyphens only. *)
Theorem _parse_labels_returns_word_only_labels (labels : string) valid_labels :
  _parse_labels labels = inr valid_labels ->
  valid_labels
  = map strip
      (filter (fun label => negb (String.eqb label EmptyString)) (split "," labels))
  /\ Forall (fun label => word_only label = true) valid_labels.
Proof.
  unfold _parse_labels. rewrite _parse_labels_loop_run. cbv zeta. cbn [app].
  set (stripped :=
         map strip
           (filter (fun label => negb (String.eqb label EmptyString)) (split "," labels))).
  destruct (filter (fun l => negb (WORD_ONLY_REGEX_match l)) stripped) eqn:Hinvalid;
    [|discriminate].
  intros [= <-].
  assert (Hall : Forall (fun l => WORD_ONLY_REGEX_match l = true) stripped).
  { apply Forall_forall. intros l Hl.
    destruct (WORD_ONLY_REGEX_match l) eqn:Hmatch; [reflexivity|].
    assert (Hin : In l (filter (fun l => negb (WORD_ONLY_REGEX_match l)) stripped)).
    { apply filter_In. split; [exact Hl|]. now rewrite Hmatch. }
    rewrite Hinvalid in Hin. destruct Hin. }
  assert (Hsame : filter WORD_ONLY_REGEX_match stripped = stripped).
  { clear Hinvalid. induction Hall as [|l ls Hl _ IH]; simpl; [reflexivity|].
    now rewrite Hl, IH. }
  rewrite Hsame. split; [reflexivity|].
  apply Forall_forall. intros l Hl.
  rewrite Forall_forall in Hall. pose proof (Hall l Hl) as Hmatch.
  subst stripped. apply in_map_iff in Hl. destruct Hl as (piece & <- & _).
  apply WORD_ONLY_REGEX_match_stripped. exact Hmatch.
Qed.

Lemma split_join (pieces : list string) :
  pieces <> [] ->
  Forall (fun piece => in_str "," piece = false) pieces ->
  split "," (join "," pieces) = pieces.
Proof.
  induction pieces as [|piece rest IH]; [contradiction|].
  intros _ Hall. inversion Hall as [|? ? Hpiece Hrest]; subst.
  destruct rest as [|piece' rest].
  - simpl. apply split_free. exact Hpiece.
  - change (join "," (piece :: piece' :: rest))
      with (piece ++ String "," (join "," (piece' :: rest))).
    rewrite split_app by exact Hpiece.
    rewrite IH; [reflexivity | discriminate | exact Hrest].
Qed.

(** X28.  Word-only labels joined with commas are parsed back as they
    are: [_parse_labels(",".join(labels))] is [labels], for every list
    of labels that are non-empty and made of word characters and
    hyphens, the empty list included. *)
Theorem _parse_labels_of_joined_labels (valid_labels : list string) :
  Forall (fun label => word_only label = true) valid_labels ->
  _parse_labels (join "," valid_labels) = inr valid_labels.
Proof.
  intros Hall. unfold _parse_labels. rewrite _parse_labels_loop_run. cbv zeta. cbn [app].
  destruct valid_labels as [|label rest]; [reflexivity|].
  rewrite split_join; [|discriminate|].
  2:{ apply Forall_forall. intros l Hl. rewrite Forall_forall in Hall.
      exact (proj2 (proj2 (proj2 (word_only_parts l (Hall l Hl))))). }
  set (labels := label :: rest) in *.
  assert (Hkept : filter (fun l => negb (String.eqb l EmptyString)) labels = labels).
  { clear - Hall. induction Hall as [|l ls Hl _ IH]; simpl; [reflexivity|].
    destruct (word_only_parts l Hl) as (Hne & _).
    destruct (String.eqb_spec l EmptyString); [contradiction|]. simpl. now rewrite IH. }
  assert (Hstrip : map strip labels = labels).
  { clear - Hall. induction Hall as [|l ls Hl _ IH]; simpl; [reflexivity|].
    destruct (word_only_parts l Hl) as (_ & -> & _). now rewrite IH. }
  assert (Hvalid : filter WORD_ONLY_REGEX_match labels = labels
                   /\ filter (fun l => negb (WORD_ONLY_REGEX_match l)) labels = []).
  { clear - Hall. induction Hall as [|l ls Hl _ [IH1 IH2]]; simpl; [auto|].
    destruct (word_only_parts l Hl) as (_ & _ & -> & _). simpl. now rewrite IH1, IH2. }
  rewrite Hkept, Hstrip, (proj1 Hvalid), (proj2 Hvalid). reflexivity.
Qed.

(** X29.  One bad piece is enough for [_parse_labels] to raise
    [ValueError]: a piece between two commas that is not empty and
    whose stripped form the pattern refuses, such as a piece of white
    space only, which is not skipped as an empty piece is. *)
Theorem _parse_labels_rejects_a_bad_piece (labels piece : string) :
  In piece (split "," labels) ->
  piece <> EmptyString ->
  WORD_ONLY_REGEX_match (strip piece) = false ->
  exists invalid_labels,
    In (strip piece) invalid_labels
    /\ _parse_labels labels
       = inl (ValueError ("Invalid labels " ++ join "," invalid_labels ++ " found.")).
Proof.
  intros Hin Hne Hmatch.
  unfold _parse_labels. rewrite _parse_labels_loop_run. cbv zeta. cbn [app].
  set (invalid :=
         filter (fun l => negb (WORD_ONLY_REGEX_match l))
           (map strip
              (filter (fun label => negb (String.eqb label EmptyString))
                 (split "," labels)))).
  assert (Hbad : In (strip piece) invalid).
  { subst invalid. apply filter_In. split; [|now rewrite Hmatch].
    apply in_map. apply filter_In. split; [exact Hin|].
    destruct (String.eqb_spec piece EmptyString); [contradiction | reflexivity]. }
  exists invalid. split; [exact Hbad|].
  destruct invalid as [|l ls]; [destruct Hbad | reflexivity].
Qed.
End CharmStateFacts.

(** The parsers at work. *)

Example parse_github_path_examples :
  CharmState.parse_github_path "canonical/github-runner-operator" "default"
  = inr (CharmState.GithubRepo "canonical" "github-runner-operator")
  /\ CharmState.parse_github_path "canonical" "default"
     = inr (CharmState.GithubOrg "canonical" "default")
  /\ CharmState.parse_github_path "a/b/c" "default"
     = inl (CharmState.CharmConfigInvalidError "Invalid path configuration a/b/c").
Proof. repeat split. Qed.

Lemma parse_github_path_of_path_witness :
  CharmState.parse_github_path
    (CharmState.path (CharmState.GithubRepo "canonical" "github-runner-operator")) "default"
  = inr (CharmState.GithubRepo "canonical" "github-runner-operator").
Proof.
  apply (parse_github_path_of_path
           (CharmState.GithubRepo "canonical" "github-runner-operator") "default").
  split; reflexivity.
Defined.

Example _valid_storage_size_str_examples :
  CharmState._valid_storage_size_str "10GiB" = true
  /\ CharmState._valid_storage_size_str "GiB" = false
  /\ CharmState._valid_storage_size_str "10 GiB" = false
  /\ CharmState._valid_storage_size_str "10GB" = false.
Proof. repeat split. Qed.

Example _parse_labels_examples :
  CharmState._parse_labels "arm64, large-runner,,x_1 " = inr ["arm64"; "large-runner"; "x_1"]
  /\ CharmState._parse_labels "" = inr []
  /\ CharmState._parse_labels "arm64, ,large"
     = inl (CharmState.ValueError "Invalid labels  found.")
  /\ CharmState._parse_labels "a b,c!"
     = inl (CharmState.ValueError "Invalid labels a b,c! found.").
Proof. repeat split. Qed.

Lemma _parse_labels_returns_word_only_labels_witness :
  ["arm64"; "large-runner"; "x_1"]
  = map CharmState.strip
      (filter (fun label => negb (String.eqb label EmptyString))
         (CharmState.split "," "arm64, large-runner,,x_1 "))
  /\ Forall (fun label => CharmState.word_only label = true)
       ["arm64"; "large-runner"; "x_1"].
Proof.
  apply (_parse_labels_returns_word_only_labels "arm64, large-runner,,x_1 "
           ["arm64"; "large-runner"; "x_1"]).
  reflexivity.
Defined.

Lemma _parse_labels_of_joined_labels_witness :
  CharmState._parse_labels (CharmState.join "," ["arm64"; "large-runner"])
  = inr ["arm64"; "large-runner"].
Proof.
  apply (_parse_labels_of_joined_labels ["arm64"; "large-runner"]).
  repeat constructor.
Defined.

Lemma _parse_labels_rejects_a_bad_piece_witness :
  exists invalid_labels,
    In (CharmState.strip " ") invalid_labels
    /\ CharmState._parse_labels "arm64, ,large"
       = inl (CharmState.ValueError
                ("Invalid labels " ++ CharmState.join "," invalid_labels ++ " found.")).
Proof.
  apply (_parse_labels_rejects_a_bad_piece "arm64, ,large" " ").
  - simpl. auto.
  - discriminate.
  - reflexivity.
Defined.
